(** * Resume-screening pipeline: a shallow embedding of the orchestration code

    The Python sources [main.py], [matcher.py], [jd_parser.py],
    [resume_parser.py], [database.py] and [email_sender.py] are embedded as
    Rocq functions.  Every effect of the outside world (environment
    variables, the HTTP exchange with the language model, the JSON parser,
    pandas, pydantic, sqlite, SMTP) is an entry of the record [World]; the
    code of the repository itself is translated statement by statement.

    Python [float] is IEEE binary64, that is Rocq's primitive [float]; a
    Python [str] is a [string] (code points below 256, which is what the
    latin-1 decoded catalogue holds); [None] in a typed slot is [None] in an
    [option]; a value that flows in from parsed JSON is a [pyval]. *)

From Stdlib Require Import Floats ZArith Bool List String Ascii Lia
  DecimalString.
Import ListNotations.

Set Warnings "-register-all,-inexact-float".

Local Open Scope list_scope.
Local Open Scope string_scope.

(* ================================================================== *)
(** ** Python values, exceptions and builtins *)
(* ================================================================== *)

Module Py.

(** Exception classes that some handler of the program tells apart. *)
Inductive exn_class :=
| FileNotFoundError | ValueError | TypeError | AttributeError | KeyError
| IndexError | OverflowError | RuntimeError | JSONDecodeError
| Timeout | RequestException | SqliteError
| ValidationError | OtherException.

Record exn := Exn { exn_cls : exn_class; exn_msg : string }.

(** A computation that returns or raises. *)
Inductive result (A : Type) :=
| Ok (a : A)
| Raise (e : exn).
Arguments Ok {A} a.
Arguments Raise {A} e.

Definition bind {A B} (m : result A) (k : A -> result B) : result B :=
  match m with
  | Ok a => k a
  | Raise e => Raise e
  end.

(** [try: body except Exception as e: handler e] *)
Definition try_except {A} (body : result A) (handler : exn -> result A)
  : result A :=
  match body with
  | Ok a => Ok a
  | Raise e => handler e
  end.

Definition is_json_decode_error (e : exn) : bool :=
  match exn_cls e with JSONDecodeError => true | _ => false end.

Definition is_sqlite_error (e : exn) : bool :=
  match exn_cls e with SqliteError => true | _ => false end.

(** Values produced by [json.loads]; [PNone] is Python's [None]. *)
Inductive pyval :=
| PNone
| PBool (b : bool)
| PInt (z : Z)
| PFloat (f : float)
| PStr (s : string)
| PList (l : list pyval)
| PDict (d : list (string * pyval)).

(** Truth value of an object, as [not x] and [if x] test it. *)
Definition truthy (v : pyval) : bool :=
  match v with
  | PNone => false
  | PBool b => b
  | PInt z => negb (z =? 0)%Z
  | PFloat f => negb (f =? 0)%float
  | PStr s => negb (s =? "")
  | PList l => match l with [] => false | _ => true end
  | PDict d => match d with [] => false | _ => true end
  end.

Definition truthy_str (s : option string) : bool :=
  match s with
  | None => false
  | Some s => negb (s =? "")
  end.

(** The text (or bytes) of a slot already tested to be filled;
    [io.BytesIO(None)] is the empty buffer as well. *)
Definition text_of (s : option string) : string :=
  match s with Some t => t | None => "" end.

(** An [Optional[str]] spliced into an f-string. *)
Definition format_optional (s : option string) : string :=
  match s with Some t => t | None => "None" end.

(** *** dict operations (insertion-ordered, keys unique) *)

Fixpoint dict_lookup (k : string) (d : list (string * pyval)) : option pyval :=
  match d with
  | [] => None
  | (k', v) :: d' => if k' =? k then Some v else dict_lookup k d'
  end.

Definition dict_contains (k : string) (d : list (string * pyval)) : bool :=
  match dict_lookup k d with Some _ => true | None => false end.

(** [d[k] = v] *)
Fixpoint dict_set (k : string) (v : pyval) (d : list (string * pyval))
  : list (string * pyval) :=
  match d with
  | [] => [(k, v)]
  | (k', v') :: d' =>
      if k' =? k then (k, v) :: d' else (k', v') :: dict_set k v d'
  end.

(** [x.get(k, default)]: an [AttributeError] on anything but a dict. *)
Definition py_get (x : pyval) (k : string) (default : pyval) : result pyval :=
  match x with
  | PDict d =>
      match dict_lookup k d with
      | Some v => Ok v
      | None => Ok default
      end
  | _ => Raise (Exn AttributeError "object has no attribute 'get'")
  end.

(** [x[k]] with a string key. *)
Definition py_getitem (x : pyval) (k : string) : result pyval :=
  match x with
  | PDict d =>
      match dict_lookup k d with
      | Some v => Ok v
      | None => Raise (Exn KeyError ("'" ++ k ++ "'"))
      end
  | _ => Raise (Exn TypeError "indices must be integers")
  end.

(** [x[k] = v] with a string key. *)
Definition py_setitem (x : pyval) (k : string) (v : pyval) : result pyval :=
  match x with
  | PDict d => Ok (PDict (dict_set k v d))
  | _ => Raise (Exn TypeError "object does not support item assignment")
  end.

(** *** strings *)

Fixpoint is_prefix (p s : string) : bool :=
  match p, s with
  | EmptyString, _ => true
  | String a p', String b s' => (a =? b)%char && is_prefix p' s'
  | String _ _, EmptyString => false
  end.

Fixpoint drop (n : nat) (s : string) : string :=
  match n, s with
  | O, _ => s
  | S n', String _ s' => drop n' s'
  | S _, EmptyString => EmptyString
  end.

(** The text before and after the leftmost occurrence of [sep]. *)
Fixpoint split_once (sep s : string) : option (string * string) :=
  if is_prefix sep s then Some (EmptyString, drop (String.length sep) s)
  else match s with
       | EmptyString => None
       | String c s' =>
           match split_once sep s' with
           | Some (before, after) => Some (String c before, after)
           | None => None
           end
       end.

(** [sep in s] *)
Definition str_contains (sep s : string) : bool :=
  match split_once sep s with Some _ => true | None => false end.

(** [s.split(sep)[0]] *)
Definition split_0 (sep s : string) : string :=
  match split_once sep s with
  | Some (before, _) => before
  | None => s
  end.

(** [s.split(sep)[1]]: the piece between the first and the second
    occurrence; [IndexError] when [sep] does not occur. *)
Definition split_1 (sep s : string) : result string :=
  match split_once sep s with
  | Some (_, after) => Ok (split_0 sep after)
  | None => Raise (Exn IndexError "list index out of range")
  end.

(** Whitespace of [str.strip] and [str.isspace] below code point 256. *)
Definition is_space (c : ascii) : bool :=
  let n := nat_of_ascii c in
  ((9 <=? n) && (n <=? 13) || (28 <=? n) && (n <=? 32)
   || (n =? 133) || (n =? 160))%nat.

Fixpoint lstrip (s : string) : string :=
  match s with
  | EmptyString => EmptyString
  | String c s' => if is_space c then lstrip s' else s
  end.

Fixpoint rstrip (s : string) : string :=
  match s with
  | EmptyString => EmptyString
  | String c s' =>
      match rstrip s' with
      | EmptyString => if is_space c then EmptyString else String c EmptyString
      | r => String c r
      end
  end.

Definition strip (s : string) : string := rstrip (lstrip s).

Fixpoint all_space (s : string) : bool :=
  match s with
  | EmptyString => true
  | String c s' => is_space c && all_space s'
  end.

(** [s.endswith(suffix)] *)
Fixpoint endswith (s suffix : string) : bool :=
  (s =? suffix)
  || match s with
     | EmptyString => false
     | String _ s' => endswith s' suffix
     end.

(** [s.isspace()]: at least one character, all of them whitespace. *)
Definition isspace (s : string) : bool :=
  negb (s =? "") && all_space s.

Definition lower_char (c : ascii) : ascii :=
  let n := nat_of_ascii c in
  if ((65 <=? n) && (n <=? 90)
      || (192 <=? n) && (n <=? 222) && negb (n =? 215))%nat
  then ascii_of_nat (n + 32) else c.

Fixpoint lower (s : string) : string :=
  match s with
  | EmptyString => EmptyString
  | String c s' => String (lower_char c) (lower s')
  end.

(** *** floats *)

(** [min(a, b)] and [max(a, b)] keep the first argument unless the second
    compares strictly below (above) it. *)
Definition py_min (a b : float) : float := if (b <? a)%float then b else a.
Definition py_max (a b : float) : float := if (a <? b)%float then b else a.

(** [float(n)] for an [int]: nearest binary64, [OverflowError] past the
    largest finite value. *)
Definition float_of_int (z : Z) : result float :=
  match binary_normalize prec emax z 0 false with
  | S754_infinity _ => Raise (Exn OverflowError "int too large to convert to float")
  | sf => Ok (SF2Prim sf)
  end.

(** [float(x)]; [float_of_str] is the library's parser of numerals. *)
Definition py_float (float_of_str : string -> option float) (x : pyval)
  : result float :=
  match x with
  | PFloat f => Ok f
  | PInt z => float_of_int z
  | PBool b => Ok (if b then 1%float else 0%float)
  | PStr s =>
      match float_of_str s with
      | Some f => Ok f
      | None => Raise (Exn ValueError "could not convert string to float")
      end
  | _ => Raise (Exn TypeError "float() argument must be a string or a real number")
  end.

(** [len(x)] *)
Definition py_len (x : pyval) : result nat :=
  match x with
  | PStr s => Ok (String.length s)
  | PList l => Ok (List.length l)
  | PDict d => Ok (List.length d)
  | _ => Raise (Exn TypeError "object has no len()")
  end.

(** [x[0]] *)
Definition py_index0 (x : pyval) : result pyval :=
  match x with
  | PList (v :: _) => Ok v
  | PList [] => Raise (Exn IndexError "list index out of range")
  | PStr (String c _) => Ok (PStr (String c EmptyString))
  | PStr EmptyString => Raise (Exn IndexError "string index out of range")
  | PDict _ => Raise (Exn KeyError "0")
  | _ => Raise (Exn TypeError "object is not subscriptable")
  end.

(** [k in x] for a string [k]. *)
Definition py_contains (k : string) (x : pyval) : result bool :=
  match x with
  | PDict d => Ok (dict_contains k d)
  | PList l =>
      Ok (existsb (fun v => match v with PStr s => s =? k | _ => false end) l)
  | PStr s => Ok (str_contains k s)
  | _ => Raise (Exn TypeError "argument is not iterable")
  end.

End Py.
Export Py.

Notation "x <- m ;; k" := (bind m (fun x => k))
  (at level 61, m at next level, right associativity).


(* ================================================================== *)
(** ** models.py *)
(* ================================================================== *)

Module Experience.
Record t := mk {
  job_title : option string;
  company : option string;
  duration : option string;
  description : option string }.
End Experience.

Module Education.
Record t := mk {
  degree : option string;
  institution : option string;
  years : option string }.
End Education.

Module ResumeInfo.
Record t := mk {
  candidate_name : option string;
  email : option string;
  phone : option string;
  summary : option string;
  skills : list string;
  experience : list Experience.t;
  education : list Education.t;
  misc : pyval }.
End ResumeInfo.

Module JobDescriptionInfo.
Record t := mk {
  job_title : string;
  company : option string;
  location : option string;
  summary : option string;
  responsibilities : list string;
  required_skills : list string;
  preferred_skills : list string;
  required_experience : option string;
  required_education : option string;
  misc : pyval }.
End JobDescriptionInfo.

(* ================================================================== *)
(** ** The job catalogue as pandas holds it *)
(* ================================================================== *)

(** A cell of the catalogue: text, or [None] for a missing value (NaN). *)
Definition cell := option string.

Record DataFrame := {
  columns : list string;
  rows : list (list (string * cell)) }.

Definition has_column (name : string) (df : DataFrame) : bool :=
  existsb (fun c => c =? name) (columns df).

Fixpoint row_cell (name : string) (row : list (string * cell)) : cell :=
  match row with
  | [] => None
  | (c, v) :: row' => if c =? name then v else row_cell name row'
  end.

(** [pd.notna(x)] *)
Definition notna (c : cell) : bool :=
  match c with Some _ => true | None => false end.

(** One row of the [applications] table. *)
Record ApplicationRow := {
  row_candidate_name : option string;
  row_candidate_email : option string;
  row_applied_job_title : string;
  row_match_score : float;
  row_feedback : pyval;
  row_resume_data : string;
  row_jd_data : string }.

(* ================================================================== *)
(** ** The outside world *)
(* ================================================================== *)

(** Everything the program obtains from its environment or from a library
    whose code is not part of the repository.  Each entry is consulted at
    most once in a run. *)
Record World := {
  (** process environment, read when the modules are imported *)
  DEEPSEEK_API_KEY : option string;
  EMAIL_SENDER : option string;
  EMAIL_PASSWORD : option string;
  (** [os.path.exists(JOB_DATA_CSV)] and [pd.read_csv(JOB_DATA_CSV, ...)] *)
  path_exists_JOB_DATA_CSV : bool;
  read_csv_JOB_DATA_CSV : result DataFrame;
  (** text of the pages of a PDF ([None] where a page has no text), of the
      paragraphs of a DOCX, and [bytes.decode('utf-8', errors='ignore')] *)
  pdf_pages_text : string -> result (list (option string));
  docx_paragraphs_text : string -> result (list string);
  decode_utf8_ignore : string -> string;
  (** [requests.post], [raise_for_status] and [response.json()] of the
      three prompts; the arguments are the texts spliced into the prompt *)
  post_resume_parsing : string -> result pyval;
  post_jd_parsing : string -> string -> result pyval;
  post_matching : string -> string -> result pyval;
  (** [json.loads] on a [str]: [None] is a [JSONDecodeError] *)
  json_loads : string -> option pyval;
  (** [float] on a [str]: [None] is a [ValueError] *)
  float_of_str : string -> option float;
  (** pydantic: construction of a [ResumeInfo], coercion of a value that
      is not a [str] into a [str] field, of a value that is not a [dict]
      into a [Dict] field, and [.json()] *)
  pydantic_ResumeInfo : list (string * pyval) -> result ResumeInfo.t;
  pydantic_str : pyval -> option string;
  pydantic_dict : pyval -> option (list (string * pyval));
  resume_json : ResumeInfo.t -> result string;
  jd_json : JobDescriptionInfo.t -> result string;
  (** sqlite3: [connect], then [execute] of the INSERT and [commit] *)
  sqlite_connect : result unit;
  sqlite_insert : ApplicationRow -> result unit;
  (** formatting in f-strings: [{x:.1f}] and [{v}] *)
  format_1f : float -> string;
  format_value : pyval -> string;
  (** [EmailMessage()] with its headers and content set: subject, from,
      to, body; then the SMTP session: connect, starttls, login, send *)
  EmailMessage_build : string -> string -> string -> string -> result unit;
  smtp_session : string -> string -> string -> string -> result unit }.

(* ================================================================== *)
(** ** pydantic validation of [JobDescriptionInfo( **parsed_data)] *)
(* ================================================================== *)

Module Pydantic.

Definition invalid (field : string) : exn :=
  Exn ValidationError ("1 validation error for JobDescriptionInfo: " ++ field).

(** A [str] is taken as it is; what happens to another scalar depends on
    the library ([pydantic_str]). *)
Definition validate_str (w : World) (field : string) (v : pyval)
  : result string :=
  match v with
  | PStr s => Ok s
  | PNone => Raise (invalid field)
  | _ =>
      match pydantic_str w v with
      | Some s => Ok s
      | None => Raise (invalid field)
      end
  end.

(** [field: str = Field(...)] *)
Definition required_str (w : World) (field : string)
  (d : list (string * pyval)) : result string :=
  match dict_lookup field d with
  | Some v => validate_str w field v
  | None => Raise (invalid field)
  end.

(** [field: Optional[str] = Field(None)] *)
Definition optional_str (w : World) (field : string)
  (d : list (string * pyval)) : result (option string) :=
  match dict_lookup field d with
  | None | Some PNone => Ok None
  | Some v => s <- validate_str w field v ;; Ok (Some s)
  end.

Fixpoint validate_items (w : World) (field : string) (l : list pyval)
  : result (list string) :=
  match l with
  | [] => Ok []
  | v :: l' =>
      s <- validate_str w field v ;;
      rest <- validate_items w field l' ;;
      Ok (s :: rest)
  end.

(** [field: List[str] = Field([])] *)
Definition str_list (w : World) (field : string)
  (d : list (string * pyval)) : result (list string) :=
  match dict_lookup field d with
  | None => Ok []
  | Some (PList l) => validate_items w field l
  | Some _ => Raise (invalid field)
  end.

(** [field: Optional[Dict] = Field({})] *)
Definition optional_dict (w : World) (field : string)
  (d : list (string * pyval)) : result pyval :=
  match dict_lookup field d with
  | None => Ok (PDict [])
  | Some PNone => Ok PNone
  | Some (PDict m) => Ok (PDict m)
  | Some v =>
      match pydantic_dict w v with
      | Some m => Ok (PDict m)
      | None => Raise (invalid field)
      end
  end.

(** [JobDescriptionInfo( **parsed_data)]; keys that name no field are
    ignored. *)
Definition new_JobDescriptionInfo (w : World) (d : list (string * pyval))
  : result JobDescriptionInfo.t :=
  job_title <- required_str w "job_title" d ;;
  company <- optional_str w "company" d ;;
  location <- optional_str w "location" d ;;
  summary <- optional_str w "summary" d ;;
  responsibilities <- str_list w "responsibilities" d ;;
  required_skills <- str_list w "required_skills" d ;;
  preferred_skills <- str_list w "preferred_skills" d ;;
  required_experience <- optional_str w "required_experience" d ;;
  required_education <- optional_str w "required_education" d ;;
  misc <- optional_dict w "misc" d ;;
  Ok (JobDescriptionInfo.mk job_title company location summary
        responsibilities required_skills preferred_skills
        required_experience required_education misc).

End Pydantic.

(* ================================================================== *)
(** ** Reading the reply of the language model *)
(* ================================================================== *)

(** [json.loads(x)] *)
Definition loads (w : World) (x : pyval) : result pyval :=
  match x with
  | PStr s =>
      match json_loads w s with
      | Some v => Ok v
      | None => Raise (Exn JSONDecodeError "Expecting value")
      end
  | _ => Raise (Exn TypeError "the JSON object must be str, bytes or bytearray")
  end.

(** The three callers share these lines:
    [if 'choices' in response_data and len(response_data['choices']) > 0:
       message_content = response_data['choices'][0].get('message', {}).get('content', '{}')]
    [None] is the [else] branch. *)
Definition first_choice_content (response_data : pyval)
  : result (option pyval) :=
  present <- py_contains "choices" response_data ;;
  if negb present then Ok None else
  choices <- py_getitem response_data "choices" ;;
  n <- py_len choices ;;
  if (n =? 0)%nat then Ok None else
  choice <- py_index0 choices ;;
  message <- py_get choice "message" (PDict []) ;;
  content <- py_get message "content" (PStr "{}") ;;
  Ok (Some content).

(** [message_content.split("```json")[1].split("```")[0].strip()] *)
Definition extract_markdown_json (message_content : string) : result string :=
  piece <- split_1 "```json" message_content ;;
  Ok (strip (split_0 "```" piece)).

(** The [try] block of [call_deepseek_for_resume_parsing] and of
    [call_deepseek_for_jd_parsing], which differ in their log lines only:
    the reply's text when it is JSON, the JSON inside a markdown fence
    when there is one, and the text of the empty object otherwise. *)
Definition deepseek_json_text (w : World) (post : result pyval) : string :=
  let body : result string :=
    response_data <- post ;;
    content <- first_choice_content response_data ;;
    match content with
    | Some (PStr message_content) =>
        match json_loads w message_content with
        | Some _ => Ok message_content
        | None =>
            if str_contains "```json" message_content then
              let extraction :=
                extracted_json <- extract_markdown_json message_content ;;
                _ <- loads w (PStr extracted_json) ;;
                Ok extracted_json in
              match extraction with
              | Ok extracted_json => Ok extracted_json
              | Raise _ => Ok "{}"
              end
            else Ok "{}"
        end
    | Some message_content => _ <- loads w message_content ;; Ok "{}"
    | None => Ok "{}"
    end in
  match body with
  | Ok s => s
  | Raise _ => "{}"
  end.

(* ================================================================== *)
(** ** resume_parser.py *)
(* ================================================================== *)

Module resume_parser.

Definition call_deepseek_for_resume_parsing (w : World) (text : string)
  : string :=
  if negb (truthy_str (DEEPSEEK_API_KEY w)) then "{}"
  else deepseek_json_text w (post_resume_parsing w text).

(** The loop over [reader.pages]: a page adds its text and a newline when
    it has text. *)
Fixpoint pdf_text (pages : list (option string)) : string :=
  match pages with
  | [] => ""
  | page_text :: pages' =>
      (if truthy_str page_text
       then match page_text with Some t => t ++ "
" | None => "" end
       else "") ++ pdf_text pages'
  end.

(** The loop over [doc.paragraphs]. *)
Fixpoint docx_text (paragraphs : list string) : string :=
  match paragraphs with
  | [] => ""
  | para :: paragraphs' => para ++ "
" ++ docx_text paragraphs'
  end.

Definition parse_resume_file (w : World) (uploaded_file : string)
  (filename : option string) : result ResumeInfo.t :=
  let body : result ResumeInfo.t :=
    name <- match filename with
            | Some f => Ok f
            | None => Raise (Exn AttributeError
                               "'NoneType' object has no attribute 'lower'")
            end ;;
    text <- (if endswith (lower name) ".pdf" then
               pages <- pdf_pages_text w uploaded_file ;; Ok (pdf_text pages)
             else if endswith (lower name) ".docx" then
               paragraphs <- docx_paragraphs_text w uploaded_file ;;
               Ok (docx_text paragraphs)
             else if endswith (lower name) ".txt" then
               Ok (decode_utf8_ignore w uploaded_file)
             else Raise (Exn ValueError
                    ("Unsupported file type: " ++ name
                     ++ ". Please upload PDF, DOCX, or TXT."))) ;;
    if (text =? "") || isspace text then
      Raise (Exn ValueError "Could not extract text from file or file is empty.")
    else
    let json_output_str := call_deepseek_for_resume_parsing w text in
    if (json_output_str =? "") || (json_output_str =? "{}") then
      Raise (Exn ValueError "LLM failed to parse resume, returned empty data.")
    else
    parsed_data <- loads w (PStr json_output_str) ;;
    match parsed_data with
    | PDict d => pydantic_ResumeInfo w d
    | _ => Raise (Exn TypeError "argument after ** must be a mapping")
    end in
  try_except body (fun e =>
    Raise (Exn RuntimeError
             ("Failed to parse resume '" ++ format_optional filename ++ "': "
              ++ exn_msg e))).

End resume_parser.

(* ================================================================== *)
(** ** jd_parser.py *)
(* ================================================================== *)

Module jd_parser.

Definition call_deepseek_for_jd_parsing (w : World) (text job_title : string)
  : string :=
  if negb (truthy_str (DEEPSEEK_API_KEY w)) then "{}"
  else deepseek_json_text w (post_jd_parsing w text job_title).

(** [df_jobs['Job Title'].str.strip().str.lower() ==
     selected_job_title.strip().lower()] on one row; a missing title
    compares unequal. *)
Definition title_matches (selected_job_title : string)
  (row : list (string * cell)) : bool :=
  match row_cell "Job Title" row with
  | Some t => lower (strip t) =? lower (strip selected_job_title)
  | None => false
  end.

(** [df_jobs[column].str]: pandas refuses the accessor on a column that
    holds no text.  A column read from the file with every cell missing
    has dtype float64 and is refused with an [AttributeError]; the column
    of a catalogue without rows is empty and is accepted. *)
Definition str_accessor (column : string) (df_jobs : DataFrame)
  : result unit :=
  match rows df_jobs with
  | [] => Ok tt
  | _ :: _ =>
      if existsb (fun row => notna (row_cell column row)) (rows df_jobs)
      then Ok tt
      else Raise (Exn AttributeError
                    "Can only use .str accessor with string values!")
  end.

(** [job_row[column].iloc[0] if column in df_jobs.columns and
     pd.notna(job_row[column].iloc[0]) else None] *)
Definition optional_column (column : string) (df_jobs : DataFrame)
  (first_row : list (string * cell)) : cell :=
  if has_column column df_jobs && notna (row_cell column first_row)
  then row_cell column first_row else None.

(** [if value and (key not in parsed_data or not parsed_data[key]):
       parsed_data[key] = value] *)
Definition supplement (key : string) (value : cell)
  (parsed_data : list (string * pyval)) : list (string * pyval) :=
  match value with
  | Some v =>
      if truthy_str value
         && (negb (dict_contains key parsed_data)
             || negb match dict_lookup key parsed_data with
                     | Some x => truthy x
                     | None => false
                     end)
      then dict_set key (PStr v) parsed_data
      else parsed_data
  | None => parsed_data
  end.

(** The dict handed to pydantic: the model's output with the selected
    title forced in and the catalogue's company and location filled in. *)
Definition overridden (selected_job_title : string) (company location : cell)
  (parsed_data : pyval) : result (list (string * pyval)) :=
  parsed_data <- py_setitem parsed_data "job_title" (PStr selected_job_title) ;;
  match parsed_data with
  | PDict d => Ok (supplement "location" location (supplement "company" company d))
  | _ => Raise (Exn TypeError "argument of this type is not iterable")
  end.

Definition parse_job_description (w : World)
  (selected_job_title : option string) (df_jobs : option DataFrame)
  : result JobDescriptionInfo.t :=
  let body : result JobDescriptionInfo.t :=
    df <- match df_jobs with
          | Some df => Ok df
          | None => Raise (Exn TypeError "'NoneType' object is not subscriptable")
          end ;;
    _ <- (if has_column "Job Title" df then Ok tt
          else Raise (Exn KeyError "'Job Title'")) ;;
    _ <- str_accessor "Job Title" df ;;
    title <- match selected_job_title with
             | Some t => Ok t
             | None => Raise (Exn AttributeError
                                "'NoneType' object has no attribute 'strip'")
             end ;;
    let job_row := filter (title_matches title) (rows df) in
    match job_row with
    | [] => Raise (Exn ValueError
                     ("Job title '" ++ title ++ "' not found in the provided CSV."))
    | first_row :: _ =>
        _ <- (if has_column "Job Description" df then Ok tt
              else Raise (Exn KeyError "'Job Description'")) ;;
        let company := optional_column "Company" df first_row in
        let location := optional_column "Location" df first_row in
        jd_text <- match row_cell "Job Description" first_row with
                   | Some t => Ok t
                   | None => Raise (Exn AttributeError
                               "'float' object has no attribute 'isspace'")
                   end ;;
        if (jd_text =? "") || isspace jd_text then
          Raise (Exn ValueError
                   ("Job description text is empty for '" ++ title ++ "'."))
        else
        let json_output_str := call_deepseek_for_jd_parsing w jd_text title in
        if (json_output_str =? "") || (json_output_str =? "{}") then
          Raise (Exn ValueError
                   "LLM failed to parse job description, returned empty data.")
        else
        parsed_data <- loads w (PStr json_output_str) ;;
        d <- overridden title company location parsed_data ;;
        Pydantic.new_JobDescriptionInfo w d
    end in
  try_except body (fun e =>
    Raise (Exn RuntimeError
             ("Failed to parse job description '"
              ++ format_optional selected_job_title ++ "': " ++ exn_msg e))).

End jd_parser.

(* ================================================================== *)
(** ** matcher.py *)
(* ================================================================== *)

Module matcher.

Definition default_response : float * pyval :=
  (0%float, PStr "Error: Could not generate matching results.").

Definition error_response : float * pyval :=
  (0%float, PStr "An error occurred during the matching process.").

(** [if not 0 <= score <= 100: score = max(0.0, min(100.0, score))] *)
Definition clamp_score (score : float) : float :=
  if negb ((0 <=? score)%float && (score <=? 100)%float)
  then py_max 0 (py_min 100 score)
  else score.

(** The lines that read the score and the feedback off the parsed reply;
    they occur twice, with two texts for a missing feedback. *)
Definition score_and_feedback (w : World) (missing_feedback : string)
  (result_data : pyval) : result (float * pyval) :=
  raw <- py_get result_data "match_score" (PInt 0) ;;
  score <- py_float (float_of_str w) raw ;;
  feedback_text <- py_get result_data "feedback" (PStr missing_feedback) ;;
  Ok (clamp_score score, feedback_text).

(** The handler of [json.JSONDecodeError]: the JSON inside a markdown
    fence when there is one and it reads well, the default otherwise. *)
Definition from_markdown (w : World) (message_content : pyval)
  : float * pyval :=
  match message_content with
  | PStr s =>
      if str_contains "```json" s then
        let extraction :=
          extracted_json_str <- extract_markdown_json s ;;
          result_data <- loads w (PStr extracted_json_str) ;;
          score_and_feedback w "Feedback could not be generated (extracted)."
            result_data in
        match extraction with
        | Ok r => r
        | Raise _ => default_response
        end
      else default_response
  | _ => default_response
  end.

Definition call_deepseek_for_matching (w : World)
  (resume_json jd_json : string) : result (float * pyval) :=
  if negb (truthy_str (DEEPSEEK_API_KEY w)) then Ok default_response else
  let body : result (float * pyval) :=
    response_data <- post_matching w jd_json resume_json ;;
    content <- first_choice_content response_data ;;
    match content with
    | Some message_content =>
        try_except
          (result_data <- loads w message_content ;;
           score_and_feedback w "Feedback could not be generated." result_data)
          (fun e =>
             if is_json_decode_error e
             then Ok (from_markdown w message_content)
             else Ok default_response)
    | None => Ok default_response
    end in
  try_except body (fun _ => Ok default_response).

Definition calculate_match_and_feedback (w : World)
  (resume_info : ResumeInfo.t) (jd_info : JobDescriptionInfo.t)
  : result (float * pyval) :=
  try_except
    (resume_json_str <- resume_json w resume_info ;;
     jd_json_str <- jd_json w jd_info ;;
     call_deepseek_for_matching w resume_json_str jd_json_str)
    (fun _ => Ok error_response).

End matcher.

(* ================================================================== *)
(** ** database.py *)
(* ================================================================== *)

Module database.

Definition save_match_results (w : World) (resume_info : option ResumeInfo.t)
  (jd_info : option JobDescriptionInfo.t) (match_score : float)
  (feedback : pyval) : result bool :=
  try_except
    (_ <- sqlite_connect w ;;
     resume_info <- match resume_info with
                    | Some r => Ok r
                    | None => Raise (Exn AttributeError
                                "'NoneType' object has no attribute 'json'")
                    end ;;
     resume_json <- resume_json w resume_info ;;
     jd_info <- match jd_info with
                | Some j => Ok j
                | None => Raise (Exn AttributeError
                            "'NoneType' object has no attribute 'json'")
                end ;;
     jd_json <- jd_json w jd_info ;;
     _ <- sqlite_insert w
            {| row_candidate_name := ResumeInfo.candidate_name resume_info;
               row_candidate_email := ResumeInfo.email resume_info;
               row_applied_job_title := JobDescriptionInfo.job_title jd_info;
               row_match_score := match_score;
               row_feedback := feedback;
               row_resume_data := resume_json;
               row_jd_data := jd_json |} ;;
     Ok true)
    (fun e => if is_sqlite_error e then Ok false else Raise e).

End database.

(* ================================================================== *)
(** ** email_sender.py *)
(* ================================================================== *)

Module email_sender.

Definition nl : string := "
".

Definition lines (l : list string) : string := String.concat nl l.

(** [candidate_name or 'Candidate'] *)
Definition name_or_candidate (candidate_name : option string) : string :=
  match candidate_name with
  | Some n => if n =? "" then "Candidate" else n
  | None => "Candidate"
  end.

Definition is_qualified (match_score : float) : bool :=
  (65 <=? match_score)%float.

Definition congratulatory_subject (job_title : string) : string :=
  "Congratulations regarding your application for " ++ job_title ++ "!".

Definition congratulatory_body (w : World) (candidate_name : option string)
  (job_title : string) (match_score : float) (feedback : pyval) : string :=
  lines [
    "";
    "Dear " ++ name_or_candidate candidate_name ++ ",";
    "";
    "Congratulations! We were impressed with your resume and qualifications for the "
      ++ job_title ++ " position (Match Score: " ++ format_1f w match_score ++ "%).";
    "";
    "Our recruitment team believes you could be a strong fit. Here is some initial feedback based on our automated review:";
    format_value w feedback;
    "";
    "We would like to invite you to the next stage of the application process. [Optional: Add details about next steps, e.g., scheduling an interview, link to assessment, etc.].";
    "";
    "We will be in touch soon with further details.";
    "";
    "Best regards,";
    "[Your Company Name] Recruitment Team";
    "        " ].

Definition rejection_subject (job_title : string) : string :=
  "Update regarding your application for " ++ job_title.

Definition rejection_body (w : World) (candidate_name : option string)
  (job_title : string) (match_score : float) (feedback : pyval) : string :=
  lines [
    "";
    "Dear " ++ name_or_candidate candidate_name ++ ",";
    "";
    "Thank you for your interest in the " ++ job_title
      ++ " position at [Your Company Name] and for taking the time to apply.";
    "";
    "We received a large number of applications, and after careful review, we have decided not to move forward with your candidacy for this specific role at this time.";
    "";
    "Our automated system provided the following feedback based on your resume against the job requirements (Match Score: "
      ++ format_1f w match_score ++ "%):";
    format_value w feedback;
    "";
    "We appreciate your interest in our company and encourage you to keep an eye on our careers page for future opportunities that may be a better fit.";
    "";
    "We wish you the best in your job search.";
    "";
    "Sincerely,";
    "[Your Company Name] Recruitment Team";
    "        " ].

(** Subject and body of the message, chosen by [is_qualified]. *)
Definition email_content (w : World) (candidate_name : option string)
  (job_title : string) (match_score : float) (feedback : pyval)
  : string * string :=
  if is_qualified match_score
  then (congratulatory_subject job_title,
        congratulatory_body w candidate_name job_title match_score feedback)
  else (rejection_subject job_title,
        rejection_body w candidate_name job_title match_score feedback).

Definition send_application_email (w : World) (to_email : option string)
  (candidate_name : option string) (job_title : string)
  (match_score : float) (feedback : pyval) : result bool :=
  if negb (truthy_str (EMAIL_SENDER w)) || negb (truthy_str (EMAIL_PASSWORD w))
  then Ok false
  else if negb (truthy_str to_email) then Ok false
  else
    let (subject, body) :=
      email_content w candidate_name job_title match_score feedback in
    let sender := text_of (EMAIL_SENDER w) in
    let to := text_of to_email in
    _ <- EmailMessage_build w subject sender to body ;;
    try_except
      (_ <- smtp_session w subject sender to body ;; Ok true)
      (fun _ => Ok false).

End email_sender.

(* ================================================================== *)
(** ** main.py *)
(* ================================================================== *)

Module main.

(** The zero-width space of the path in the source is left out. *)
Definition JOB_DATA_CSV : string :=
  "/home/sohanx1/Downloads/Sohan/Accenture/Dataset/[Usecase 5] AI-Powered Job Application Screening System/job_description.csv".

(** The state that flows through the graph.  [feedback] holds whatever the
    matcher handed over, [PNone] being [None]. *)
Record AppState := {
  uploaded_file_content : option string;
  uploaded_filename : option string;
  selected_job_title : option string;
  job_descriptions_df : option DataFrame;
  parsed_resume : option ResumeInfo.t;
  parsed_jd : option JobDescriptionInfo.t;
  match_score : option float;
  feedback : pyval;
  db_save_status : bool;
  email_sent_status : bool;
  error_message : option string }.

(** [state[key] = value], one function per key that is assigned. *)
Definition set_job_descriptions_df (state : AppState) (v : option DataFrame) :=
  {| uploaded_file_content := uploaded_file_content state;
     uploaded_filename := uploaded_filename state;
     selected_job_title := selected_job_title state;
     job_descriptions_df := v;
     parsed_resume := parsed_resume state;
     parsed_jd := parsed_jd state;
     match_score := match_score state;
     feedback := feedback state;
     db_save_status := db_save_status state;
     email_sent_status := email_sent_status state;
     error_message := error_message state |}.

Definition set_parsed_resume (state : AppState) (v : option ResumeInfo.t) :=
  {| uploaded_file_content := uploaded_file_content state;
     uploaded_filename := uploaded_filename state;
     selected_job_title := selected_job_title state;
     job_descriptions_df := job_descriptions_df state;
     parsed_resume := v;
     parsed_jd := parsed_jd state;
     match_score := match_score state;
     feedback := feedback state;
     db_save_status := db_save_status state;
     email_sent_status := email_sent_status state;
     error_message := error_message state |}.

Definition set_parsed_jd (state : AppState) (v : option JobDescriptionInfo.t) :=
  {| uploaded_file_content := uploaded_file_content state;
     uploaded_filename := uploaded_filename state;
     selected_job_title := selected_job_title state;
     job_descriptions_df := job_descriptions_df state;
     parsed_resume := parsed_resume state;
     parsed_jd := v;
     match_score := match_score state;
     feedback := feedback state;
     db_save_status := db_save_status state;
     email_sent_status := email_sent_status state;
     error_message := error_message state |}.

Definition set_match_score (state : AppState) (v : option float) :=
  {| uploaded_file_content := uploaded_file_content state;
     uploaded_filename := uploaded_filename state;
     selected_job_title := selected_job_title state;
     job_descriptions_df := job_descriptions_df state;
     parsed_resume := parsed_resume state;
     parsed_jd := parsed_jd state;
     match_score := v;
     feedback := feedback state;
     db_save_status := db_save_status state;
     email_sent_status := email_sent_status state;
     error_message := error_message state |}.

Definition set_feedback (state : AppState) (v : pyval) :=
  {| uploaded_file_content := uploaded_file_content state;
     uploaded_filename := uploaded_filename state;
     selected_job_title := selected_job_title state;
     job_descriptions_df := job_descriptions_df state;
     parsed_resume := parsed_resume state;
     parsed_jd := parsed_jd state;
     match_score := match_score state;
     feedback := v;
     db_save_status := db_save_status state;
     email_sent_status := email_sent_status state;
     error_message := error_message state |}.

Definition set_db_save_status (state : AppState) (v : bool) :=
  {| uploaded_file_content := uploaded_file_content state;
     uploaded_filename := uploaded_filename state;
     selected_job_title := selected_job_title state;
     job_descriptions_df := job_descriptions_df state;
     parsed_resume := parsed_resume state;
     parsed_jd := parsed_jd state;
     match_score := match_score state;
     feedback := feedback state;
     db_save_status := v;
     email_sent_status := email_sent_status state;
     error_message := error_message state |}.

Definition set_email_sent_status (state : AppState) (v : bool) :=
  {| uploaded_file_content := uploaded_file_content state;
     uploaded_filename := uploaded_filename state;
     selected_job_title := selected_job_title state;
     job_descriptions_df := job_descriptions_df state;
     parsed_resume := parsed_resume state;
     parsed_jd := parsed_jd state;
     match_score := match_score state;
     feedback := feedback state;
     db_save_status := db_save_status state;
     email_sent_status := v;
     error_message := error_message state |}.

Definition set_error_message (state : AppState) (v : option string) :=
  {| uploaded_file_content := uploaded_file_content state;
     uploaded_filename := uploaded_filename state;
     selected_job_title := selected_job_title state;
     job_descriptions_df := job_descriptions_df state;
     parsed_resume := parsed_resume state;
     parsed_jd := parsed_jd state;
     match_score := match_score state;
     feedback := feedback state;
     db_save_status := db_save_status state;
     email_sent_status := email_sent_status state;
     error_message := v |}.

(** [state.get('error_message')] as a condition. *)
Definition has_error (state : AppState) : bool :=
  truthy_str (error_message state).

(** *** Node functions *)

Definition load_and_validate_input (w : World) (state : AppState) : AppState :=
  let failed (state : AppState) (e : exn) :=
    set_error_message state (Some ("Initialization Error: " ++ exn_msg e)) in
  if negb (path_exists_JOB_DATA_CSV w) then
    failed state (Exn FileNotFoundError
                    ("Job descriptions file not found: " ++ JOB_DATA_CSV))
  else
  match read_csv_JOB_DATA_CSV w with
  | Raise e => failed state e
  | Ok df =>
      if negb (has_column "Job Title" df)
         || negb (has_column "Job Description" df) then
        failed state (Exn ValueError
          "CSV must contain 'Job Title' and 'Job Description' columns.")
      else
      let state := set_job_descriptions_df state (Some df) in
      if negb (truthy_str (uploaded_file_content state))
         || negb (truthy_str (uploaded_filename state)) then
        failed state (Exn ValueError "Resume file not provided.")
      else if negb (truthy_str (selected_job_title state)) then
        failed state (Exn ValueError "Job title not selected.")
      else set_error_message state None
  end.

Definition process_resume (w : World) (state : AppState) : AppState :=
  if has_error state then state else
  let file_content := uploaded_file_content state in
  let filename := uploaded_filename state in
  let file_like_object := text_of file_content in
  match resume_parser.parse_resume_file w file_like_object filename with
  | Ok parsed_resume =>
      let state := set_parsed_resume state (Some parsed_resume) in
      set_error_message state None
  | Raise e =>
      let state :=
        set_error_message state (Some ("Resume Parsing Failed: " ++ exn_msg e)) in
      set_parsed_resume state None
  end.

Definition process_job_description (w : World) (state : AppState) : AppState :=
  if has_error state then state else
  let job_title := selected_job_title state in
  let df := job_descriptions_df state in
  match jd_parser.parse_job_description w job_title df with
  | Ok parsed_jd =>
      let state := set_parsed_jd state (Some parsed_jd) in
      set_error_message state None
  | Raise e =>
      let state :=
        set_error_message state
          (Some ("Job Description Parsing Failed: " ++ exn_msg e)) in
      set_parsed_jd state None
  end.

Definition perform_matching (w : World) (state : AppState) : AppState :=
  match parsed_resume state, parsed_jd state with
  | Some resume, Some jd =>
      if has_error state then state else
      match matcher.calculate_match_and_feedback w resume jd with
      | Ok (score, feedback_text) =>
          let state := set_match_score state (Some score) in
          let state := set_feedback state feedback_text in
          set_error_message state None
      | Raise e =>
          let state :=
            set_error_message state (Some ("Matching Failed: " ++ exn_msg e)) in
          let state := set_match_score state None in
          set_feedback state PNone
      end
  | _, _ =>
      if negb (has_error state) then
        set_error_message state
          (Some "Cannot perform matching due to missing parsed resume or JD.")
      else state
  end.

Definition save_to_database (w : World) (state : AppState) : AppState :=
  match match_score state with
  | Some score =>
      if has_error state then set_db_save_status state false else
      match database.save_match_results w (parsed_resume state)
              (parsed_jd state) score (feedback state) with
      | Ok success =>
          let state := set_db_save_status state success in
          if negb success then
            if negb (has_error state)
            then set_error_message state
                   (Some "Failed to save results to the database.")
            else state
          else set_error_message state None
      | Raise e =>
          let state :=
            set_error_message state (Some ("Database Save Failed: " ++ exn_msg e)) in
          set_db_save_status state false
      end
  | None => set_db_save_status state false
  end.

Definition send_candidate_email (w : World) (state : AppState) : AppState :=
  let skipped (state : AppState) :=
    let state := set_email_sent_status state false in
    if negb (has_error state)
    then set_error_message state (Some "Email not sent due to missing information.")
    else state in
  match match_score state, parsed_resume state with
  | Some score, Some resume_info =>
      if negb (truthy (feedback state)) then skipped state else
      match email_sender.send_application_email w
              (ResumeInfo.email resume_info)
              (ResumeInfo.candidate_name resume_info)
              (format_optional (selected_job_title state))
              score (feedback state) with
      | Ok success =>
          let state := set_email_sent_status state success in
          if negb success && negb (has_error state)
          then set_error_message state
                 (Some "Failed to send email (check logs and email config).")
          else state
      | Raise e =>
          let state :=
            set_error_message state (Some ("Email Sending Failed: " ++ exn_msg e)) in
          set_email_sent_status state false
      end
  | _, _ => skipped state
  end.

(** *** The graph *)

(** The nodes [load_validate], [parse_resume], [parse_jd], [match],
    [save_db] and [send_email]; [matching] stands for [match]. *)
Inductive node :=
| load_validate | parse_resume | parse_jd | matching | save_db | send_email.

Definition node_function (w : World) (n : node) : AppState -> AppState :=
  match n with
  | load_validate => load_and_validate_input w
  | parse_resume => process_resume w
  | parse_jd => process_job_description w
  | matching => perform_matching w
  | save_db => save_to_database w
  | send_email => send_candidate_email w
  end.

(** The edges of [build_graph]; [None] is [END]. *)
Definition next_node (n : node) (state : AppState) : option node :=
  match n with
  | load_validate => if negb (has_error state) then Some parse_resume else None
  | parse_resume => if negb (has_error state) then Some parse_jd else None
  | parse_jd => if negb (has_error state) then Some matching else None
  | matching => if negb (has_error state) then Some save_db else None
  | save_db => Some send_email
  | send_email => None
  end.

(** A run records each node it executes with the state the node returns. *)
Definition trace := list (node * AppState).

Fixpoint run (fuel : nat) (w : World) (n : node) (state : AppState)
  : option trace :=
  match fuel with
  | O => None
  | S fuel' =>
      let state' := node_function w n state in
      match next_node n state' with
      | None => Some [(n, state')]
      | Some n' =>
          match run fuel' w n' state' with
          | Some t => Some ((n, state') :: t)
          | None => None
          end
      end
  end.

(** [graph.invoke(initial_state)]: six steps are enough (see
    [run_reaches_END]). *)
Definition invoke_trace (w : World) (initial_state : AppState) : option trace :=
  run 6 w load_validate initial_state.

Definition final_state (initial_state : AppState) (t : trace) : AppState :=
  last (map snd t) initial_state.

Definition invoke (w : World) (initial_state : AppState) : option AppState :=
  option_map (final_state initial_state) (invoke_trace w initial_state).

Definition executed (t : trace) : list node := map fst t.

Definition initial_state (file_bytes : string) (name : string)
  (selected_job : string) : AppState :=
  {| uploaded_file_content := Some file_bytes;
     uploaded_filename := Some name;
     selected_job_title := Some selected_job;
     job_descriptions_df := None;
     parsed_resume := None;
     parsed_jd := None;
     match_score := None;
     feedback := PNone;
     db_save_status := false;
     email_sent_status := false;
     error_message := None |}.

End main.

(* ================================================================== *)
(** ** Concrete worlds *)
(* ================================================================== *)

(** A small catalogue, a resume in a text file and the replies of the
    language model, to run the pipeline on. *)
Module Scenario.

Definition dq : string := String (ascii_of_nat 34) EmptyString.

Definition quoted (s : string) : string := dq ++ s ++ dq.

Definition resume_reply : string :=
  "{" ++ quoted "candidate_name" ++ ": " ++ quoted "Asha Rao" ++ ", "
  ++ quoted "email" ++ ": " ++ quoted "asha@example.com" ++ ", "
  ++ quoted "skills" ++ ": [" ++ quoted "python" ++ "]}".

Definition jd_reply : string :=
  "{" ++ quoted "job_title" ++ ": " ++ quoted "Senior Data Scientist" ++ ", "
  ++ quoted "location" ++ ": " ++ quoted "Pune" ++ ", "
  ++ quoted "required_skills" ++ ": [" ++ quoted "python" ++ "]}".

Definition score_reply : string :=
  "{" ++ quoted "match_score" ++ ": 80, " ++ quoted "feedback" ++ ": "
  ++ quoted "Strong Python background." ++ "}".

Definition null_feedback_reply : string :=
  "{" ++ quoted "match_score" ++ ": 80, " ++ quoted "feedback" ++ ": null}".

(** What [json.loads] makes of the four texts above. *)
Definition parse (s : string) : option pyval :=
  if s =? resume_reply then
    Some (PDict [("candidate_name", PStr "Asha Rao");
                 ("email", PStr "asha@example.com");
                 ("skills", PList [PStr "python"])])
  else if s =? jd_reply then
    Some (PDict [("job_title", PStr "Senior Data Scientist");
                 ("location", PStr "Pune");
                 ("required_skills", PList [PStr "python"])])
  else if s =? score_reply then
    Some (PDict [("match_score", PInt 80);
                 ("feedback", PStr "Strong Python background.")])
  else if s =? null_feedback_reply then
    Some (PDict [("match_score", PInt 80); ("feedback", PNone)])
  else None.

(** The body of a chat completion that carries [content]. *)
Definition chat_completion (content : string) : pyval :=
  PDict [("choices",
          PList [PDict [("index", PInt 0);
                        ("message", PDict [("role", PStr "assistant");
                                           ("content", PStr content)])]])].

Definition asha : ResumeInfo.t :=
  ResumeInfo.mk (Some "Asha Rao") (Some "asha@example.com") None None
    ["python"] [] [] (PDict []).

Definition catalogue : DataFrame :=
  {| columns := ["Job Title"; "Job Description"; "Company"];
     rows := [[("Job Title", Some "Data Scientist");
               ("Job Description", Some "Build and ship models.");
               ("Company", Some "Acme")];
              [("Job Title", Some "Site Reliability Engineer");
               ("Job Description", Some "Keep the lights on.");
               ("Company", None)]] |}.

(** A second catalogue, with a title that runs over two lines. *)
Definition two_line_title : string := "Data Engineer
(Platform)".

Definition catalogue_with_two_line_title : DataFrame :=
  {| columns := ["Job Title"; "Job Description"];
     rows := [[("Job Title", Some two_line_title);
               ("Job Description", Some "Build and run pipelines.")]] |}.

(** Storing a header of an [EmailMessage]: the library refuses a value
    with a line break in it. *)
Definition store_headers (subject sender to body : string) : result unit :=
  if str_contains email_sender.nl subject then
    Raise (Exn ValueError
      "Header values may not contain linefeed or carriage return characters")
  else Ok tt.

(** A world in which everything works, but for the outcomes given: the
    catalogue read, the HTTP exchange of the matching prompt, the INSERT
    and the SMTP session. *)
Definition world (csv : DataFrame) (matching : result pyval)
  (insert smtp : result unit) : World :=
  {| DEEPSEEK_API_KEY := Some "sk-test";
     EMAIL_SENDER := Some "hr@example.com";
     EMAIL_PASSWORD := Some "app-password";
     path_exists_JOB_DATA_CSV := true;
     read_csv_JOB_DATA_CSV := Ok csv;
     pdf_pages_text := fun _ => Raise (Exn OtherException "not a PDF");
     docx_paragraphs_text := fun _ => Raise (Exn OtherException "not a DOCX");
     decode_utf8_ignore := fun b => b;
     post_resume_parsing := fun _ => Ok (chat_completion resume_reply);
     post_jd_parsing := fun _ _ => Ok (chat_completion jd_reply);
     post_matching := fun _ _ => matching;
     json_loads := parse;
     float_of_str := fun _ => None;
     pydantic_ResumeInfo := fun _ => Ok asha;
     pydantic_str := fun _ => None;
     pydantic_dict := fun _ => None;
     resume_json := fun _ => Ok resume_reply;
     jd_json := fun _ => Ok jd_reply;
     sqlite_connect := Ok tt;
     sqlite_insert := fun _ => insert;
     format_1f := fun f => if (f =? 80)%float then "80.0" else "0.0";
     format_value := fun v => match v with PStr s => s | _ => "None" end;
     EmailMessage_build := store_headers;
     smtp_session := fun _ _ _ _ => smtp |}.

Definition all_well : World :=
  world catalogue (Ok (chat_completion score_reply)) (Ok tt) (Ok tt).

(** The store refuses the INSERT. *)
Definition store_fails (csv : DataFrame) : World :=
  world csv (Ok (chat_completion score_reply))
    (Raise (Exn SqliteError "database is locked")) (Ok tt).

(** The matching request times out. *)
Definition scoring_times_out : World :=
  world catalogue (Raise (Exn Timeout "Read timed out. (read timeout=90)"))
    (Ok tt) (Ok tt).

(** The model answers with a score and a null feedback. *)
Definition feedback_is_null : World :=
  world catalogue (Ok (chat_completion null_feedback_reply)) (Ok tt) (Ok tt).

Definition start (selected_job : string) : main.AppState :=
  main.initial_state "Asha Rao - Python developer" "resume.txt" selected_job.

End Scenario.


(* ================================================================== *)
(** ** Vocabulary of the properties *)
(* ================================================================== *)

Module Observe.

Import main.

(** The state each node returns in a run that visits all six. *)
Definition after (w : World) (n : node) (s0 : AppState) : AppState :=
  let s1 := load_and_validate_input w s0 in
  let s2 := process_resume w s1 in
  let s3 := process_job_description w s2 in
  let s4 := perform_matching w s3 in
  let s5 := save_to_database w s4 in
  match n with
  | load_validate => s1
  | parse_resume => s2
  | parse_jd => s3
  | matching => s4
  | save_db => s5
  | send_email => send_candidate_email w s5
  end.

Definition all_nodes : list node :=
  [load_validate; parse_resume; parse_jd; matching; save_db; send_email].

(** The error slot is empty or holds a text that is not empty, so that
    "set" and "true as a condition" are the same. *)
Definition error_well_formed (s : AppState) : Prop :=
  error_message s = None \/ has_error s = true.

(** The nodes that have a conditional edge to [END]. *)
Definition gated (n : node) : bool :=
  match n with
  | load_validate | parse_resume | parse_jd | matching => true
  | save_db | send_email => false
  end.

(** No row of the catalogue that was read carries the selected title, by
    the comparison of [parse_job_description]. *)
Definition title_not_in_catalog (w : World) (selected_job : string) : Prop :=
  forall df, read_csv_JOB_DATA_CSV w = Ok df ->
             filter (jd_parser.title_matches selected_job) (rows df) = [].

(** [0 <= score <= 100] *)
Definition score_in_range (score : float) : bool :=
  ((0 <=? score) && (score <=? 100))%float.

(** The ways the call of the scoring model fails, one for each branch of
    [call_deepseek_for_matching] that logs an error: no API key; the
    request raises (transport error, error status, timeout, a body that
    is not JSON); the body has no usable [choices]; the content is not
    JSON and no fenced JSON can be read from it; the JSON that was read
    yields no score. *)
Inductive collaborator_failure (w : World) (resume_json jd_json : string)
  : Prop :=
| missing_api_key :
    truthy_str (DEEPSEEK_API_KEY w) = false ->
    collaborator_failure w resume_json jd_json
| request_failed (e : exn) :
    post_matching w jd_json resume_json = Raise e ->
    collaborator_failure w resume_json jd_json
| unexpected_structure (response_data : pyval) (e : exn) :
    post_matching w jd_json resume_json = Ok response_data ->
    first_choice_content response_data = Raise e ->
    collaborator_failure w resume_json jd_json
| no_choices (response_data : pyval) :
    post_matching w jd_json resume_json = Ok response_data ->
    first_choice_content response_data = Ok None ->
    collaborator_failure w resume_json jd_json
| content_not_text (response_data content : pyval) :
    post_matching w jd_json resume_json = Ok response_data ->
    first_choice_content response_data = Ok (Some content) ->
    (forall s, content <> PStr s) ->
    collaborator_failure w resume_json jd_json
| invalid_json (response_data : pyval) (s : string) :
    post_matching w jd_json resume_json = Ok response_data ->
    first_choice_content response_data = Ok (Some (PStr s)) ->
    json_loads w s = None ->
    str_contains "```json" s = false ->
    collaborator_failure w resume_json jd_json
| invalid_fenced_json (response_data : pyval) (s : string) :
    post_matching w jd_json resume_json = Ok response_data ->
    first_choice_content response_data = Ok (Some (PStr s)) ->
    json_loads w s = None ->
    (forall x, extract_markdown_json s = Ok x -> json_loads w x = None) ->
    collaborator_failure w resume_json jd_json
| unusable_json (response_data result_data : pyval) (s : string) (e : exn) :
    post_matching w jd_json resume_json = Ok response_data ->
    first_choice_content response_data = Ok (Some (PStr s)) ->
    json_loads w s = Some result_data ->
    matcher.score_and_feedback w "Feedback could not be generated."
      result_data = Raise e ->
    collaborator_failure w resume_json jd_json.

(** What [send_candidate_email] needs is not all there: a score, a
    feedback, a resume record, and an address in it. *)
Definition missing_for_notify (state : AppState) : Prop :=
  match_score state = None
  \/ truthy (feedback state) = false
  \/ parsed_resume state = None
  \/ exists r, parsed_resume state = Some r
               /\ truthy_str (ResumeInfo.email r) = false.

(** The model's output has no usable value under [key]: the key is absent
    or its value is empty. *)
Definition omitted (key : string) (model : list (string * pyval)) : Prop :=
  match dict_lookup key model with
  | None => True
  | Some v => truthy v = false
  end.

(** How a field of the job record relates to the model's output and to
    the catalogue, read in the row [row] under [column]: a text of the
    model that is not empty is the field's value; when the model omitted
    the key and the catalogue has the column and a text in it for this
    row, the catalogue's text is the field's value. *)
Definition overlay_rule (key column : string) (df : DataFrame)
  (row : list (string * cell)) (model : list (string * pyval))
  (field : option string) : Prop :=
  (forall v, dict_lookup key model = Some (PStr v) -> v <> "" ->
             field = Some v)
  /\ (forall c, omitted key model ->
                In column (columns df) -> row_cell column row = Some c ->
                c <> "" ->
                field = Some c).

(** The job record [jd] made for the title [selected] from the catalogue
    [df]: the first row whose title is the selected one up to case and
    surrounding blanks, the model's output for its description, and the
    rules for title, company and location. *)
Definition job_record_contract (w : World) (selected : string)
  (df : DataFrame) (jd : JobDescriptionInfo.t) : Prop :=
  JobDescriptionInfo.job_title jd = selected
  /\ exists row jd_text model,
       hd_error (filter (jd_parser.title_matches selected) (rows df))
       = Some row
       /\ In row (rows df)
       /\ (exists t, row_cell "Job Title" row = Some t
                     /\ lower (strip t) = lower (strip selected))
       /\ row_cell "Job Description" row = Some jd_text
       /\ json_loads w (jd_parser.call_deepseek_for_jd_parsing w jd_text selected)
          = Some (PDict model)
       /\ overlay_rule "company" "Company" df row model
            (JobDescriptionInfo.company jd)
       /\ overlay_rule "location" "Location" df row model
            (JobDescriptionInfo.location jd).

End Observe.
Export Observe.

(* ================================================================== *)
(** ** More of main.py: what the dashboard tests *)
(* ================================================================== *)

Module dashboard.

Import main.

(** [not email_status and not final_state.get('error_message')], the test
    in front of the captions about the mail configuration. *)
Definition wants_mail_caption (final_state : AppState) : bool :=
  negb (email_sent_status final_state) && negb (has_error final_state).

(** [score is not None], the test in front of the metric. *)
Definition shows_metric (final_state : AppState) : bool :=
  match match_score final_state with Some _ => true | None => false end.

End dashboard.

(** The run from [s0] executes the nodes [nodes], in that order. *)
Definition executed_by (w : World) (s0 : main.AppState)
  (nodes : list main.node) : Prop :=
  option_map main.executed (main.invoke_trace w s0) = Some nodes.

(** The texts an error of a run can start with, or be. *)
Definition error_openings : list string :=
  [ "Initialization Error: ";
    "Resume Parsing Failed: Failed to parse resume '";
    "Job Description Parsing Failed: Failed to parse job description '";
    "Failed to save results to the database.";
    "Database Save Failed: ";
    "Email not sent due to missing information.";
    "Failed to send email (check logs and email config).";
    "Email Sending Failed: " ].

(** The slot [m] is empty or holds an error text a run can produce: it
    starts with one of [error_openings], and is no error of the matching
    node. *)
Definition known_error (m : option string) : Prop :=
  forall text, m = Some text ->
    existsb (fun opening => is_prefix opening text) error_openings = true
    /\ is_prefix "Matching Failed: " text = false
    /\ is_prefix "Cannot perform matching" text = false.

(* ================================================================== *)
(** ** Variations of a world *)
(* ================================================================== *)

Module Vary.

(** The world [w], except that the environment has no API key. *)
Definition without_api_key (w : World) : World :=
  {| DEEPSEEK_API_KEY := None;
     EMAIL_SENDER := EMAIL_SENDER w;
     EMAIL_PASSWORD := EMAIL_PASSWORD w;
     path_exists_JOB_DATA_CSV := path_exists_JOB_DATA_CSV w;
     read_csv_JOB_DATA_CSV := read_csv_JOB_DATA_CSV w;
     pdf_pages_text := pdf_pages_text w;
     docx_paragraphs_text := docx_paragraphs_text w;
     decode_utf8_ignore := decode_utf8_ignore w;
     post_resume_parsing := post_resume_parsing w;
     post_jd_parsing := post_jd_parsing w;
     post_matching := post_matching w;
     json_loads := json_loads w;
     float_of_str := float_of_str w;
     pydantic_ResumeInfo := pydantic_ResumeInfo w;
     pydantic_str := pydantic_str w;
     pydantic_dict := pydantic_dict w;
     resume_json := resume_json w;
     jd_json := jd_json w;
     sqlite_connect := sqlite_connect w;
     sqlite_insert := sqlite_insert w;
     format_1f := format_1f w;
     format_value := format_value w;
     EmailMessage_build := EmailMessage_build w;
     smtp_session := smtp_session w |}.

(** The world [w], except that the environment has no mail credentials. *)
Definition without_mail_credentials (w : World) : World :=
  {| DEEPSEEK_API_KEY := DEEPSEEK_API_KEY w;
     EMAIL_SENDER := None;
     EMAIL_PASSWORD := None;
     path_exists_JOB_DATA_CSV := path_exists_JOB_DATA_CSV w;
     read_csv_JOB_DATA_CSV := read_csv_JOB_DATA_CSV w;
     pdf_pages_text := pdf_pages_text w;
     docx_paragraphs_text := docx_paragraphs_text w;
     decode_utf8_ignore := decode_utf8_ignore w;
     post_resume_parsing := post_resume_parsing w;
     post_jd_parsing := post_jd_parsing w;
     post_matching := post_matching w;
     json_loads := json_loads w;
     float_of_str := float_of_str w;
     pydantic_ResumeInfo := pydantic_ResumeInfo w;
     pydantic_str := pydantic_str w;
     pydantic_dict := pydantic_dict w;
     resume_json := resume_json w;
     jd_json := jd_json w;
     sqlite_connect := sqlite_connect w;
     sqlite_insert := sqlite_insert w;
     format_1f := format_1f w;
     format_value := format_value w;
     EmailMessage_build := EmailMessage_build w;
     smtp_session := smtp_session w |}.

(** The world [w], except that the exchange of the job-description prompt ends in [reply]. *)
Definition with_jd_reply (reply : result pyval) (w : World) : World :=
  {| DEEPSEEK_API_KEY := DEEPSEEK_API_KEY w;
     EMAIL_SENDER := EMAIL_SENDER w;
     EMAIL_PASSWORD := EMAIL_PASSWORD w;
     path_exists_JOB_DATA_CSV := path_exists_JOB_DATA_CSV w;
     read_csv_JOB_DATA_CSV := read_csv_JOB_DATA_CSV w;
     pdf_pages_text := pdf_pages_text w;
     docx_paragraphs_text := docx_paragraphs_text w;
     decode_utf8_ignore := decode_utf8_ignore w;
     post_resume_parsing := post_resume_parsing w;
     post_jd_parsing := fun _ _ => reply;
     post_matching := post_matching w;
     json_loads := json_loads w;
     float_of_str := float_of_str w;
     pydantic_ResumeInfo := pydantic_ResumeInfo w;
     pydantic_str := pydantic_str w;
     pydantic_dict := pydantic_dict w;
     resume_json := resume_json w;
     jd_json := jd_json w;
     sqlite_connect := sqlite_connect w;
     sqlite_insert := sqlite_insert w;
     format_1f := format_1f w;
     format_value := format_value w;
     EmailMessage_build := EmailMessage_build w;
     smtp_session := smtp_session w |}.

(** The world [w], except that the exchange of the resume prompt ends in [reply]. *)
Definition with_resume_reply (reply : result pyval) (w : World) : World :=
  {| DEEPSEEK_API_KEY := DEEPSEEK_API_KEY w;
     EMAIL_SENDER := EMAIL_SENDER w;
     EMAIL_PASSWORD := EMAIL_PASSWORD w;
     path_exists_JOB_DATA_CSV := path_exists_JOB_DATA_CSV w;
     read_csv_JOB_DATA_CSV := read_csv_JOB_DATA_CSV w;
     pdf_pages_text := pdf_pages_text w;
     docx_paragraphs_text := docx_paragraphs_text w;
     decode_utf8_ignore := decode_utf8_ignore w;
     post_resume_parsing := fun _ => reply;
     post_jd_parsing := post_jd_parsing w;
     post_matching := post_matching w;
     json_loads := json_loads w;
     float_of_str := float_of_str w;
     pydantic_ResumeInfo := pydantic_ResumeInfo w;
     pydantic_str := pydantic_str w;
     pydantic_dict := pydantic_dict w;
     resume_json := resume_json w;
     jd_json := jd_json w;
     sqlite_connect := sqlite_connect w;
     sqlite_insert := sqlite_insert w;
     format_1f := format_1f w;
     format_value := format_value w;
     EmailMessage_build := EmailMessage_build w;
     smtp_session := smtp_session w |}.

(** The world [w], except that the PDF reader finds [pages]. *)
Definition with_pdf_pages (pages : result (list (option string))) (w : World) : World :=
  {| DEEPSEEK_API_KEY := DEEPSEEK_API_KEY w;
     EMAIL_SENDER := EMAIL_SENDER w;
     EMAIL_PASSWORD := EMAIL_PASSWORD w;
     path_exists_JOB_DATA_CSV := path_exists_JOB_DATA_CSV w;
     read_csv_JOB_DATA_CSV := read_csv_JOB_DATA_CSV w;
     pdf_pages_text := fun _ => pages;
     docx_paragraphs_text := docx_paragraphs_text w;
     decode_utf8_ignore := decode_utf8_ignore w;
     post_resume_parsing := post_resume_parsing w;
     post_jd_parsing := post_jd_parsing w;
     post_matching := post_matching w;
     json_loads := json_loads w;
     float_of_str := float_of_str w;
     pydantic_ResumeInfo := pydantic_ResumeInfo w;
     pydantic_str := pydantic_str w;
     pydantic_dict := pydantic_dict w;
     resume_json := resume_json w;
     jd_json := jd_json w;
     sqlite_connect := sqlite_connect w;
     sqlite_insert := sqlite_insert w;
     format_1f := format_1f w;
     format_value := format_value w;
     EmailMessage_build := EmailMessage_build w;
     smtp_session := smtp_session w |}.

(** The world [w], except that [sqlite3.connect] ends in [outcome]. *)
Definition with_sqlite_connect (outcome : result unit) (w : World) : World :=
  {| DEEPSEEK_API_KEY := DEEPSEEK_API_KEY w;
     EMAIL_SENDER := EMAIL_SENDER w;
     EMAIL_PASSWORD := EMAIL_PASSWORD w;
     path_exists_JOB_DATA_CSV := path_exists_JOB_DATA_CSV w;
     read_csv_JOB_DATA_CSV := read_csv_JOB_DATA_CSV w;
     pdf_pages_text := pdf_pages_text w;
     docx_paragraphs_text := docx_paragraphs_text w;
     decode_utf8_ignore := decode_utf8_ignore w;
     post_resume_parsing := post_resume_parsing w;
     post_jd_parsing := post_jd_parsing w;
     post_matching := post_matching w;
     json_loads := json_loads w;
     float_of_str := float_of_str w;
     pydantic_ResumeInfo := pydantic_ResumeInfo w;
     pydantic_str := pydantic_str w;
     pydantic_dict := pydantic_dict w;
     resume_json := resume_json w;
     jd_json := jd_json w;
     sqlite_connect := outcome;
     sqlite_insert := sqlite_insert w;
     format_1f := format_1f w;
     format_value := format_value w;
     EmailMessage_build := EmailMessage_build w;
     smtp_session := smtp_session w |}.

(** The world [w], except that the SMTP session ends in [outcome]. *)
Definition with_smtp_session (outcome : result unit) (w : World) : World :=
  {| DEEPSEEK_API_KEY := DEEPSEEK_API_KEY w;
     EMAIL_SENDER := EMAIL_SENDER w;
     EMAIL_PASSWORD := EMAIL_PASSWORD w;
     path_exists_JOB_DATA_CSV := path_exists_JOB_DATA_CSV w;
     read_csv_JOB_DATA_CSV := read_csv_JOB_DATA_CSV w;
     pdf_pages_text := pdf_pages_text w;
     docx_paragraphs_text := docx_paragraphs_text w;
     decode_utf8_ignore := decode_utf8_ignore w;
     post_resume_parsing := post_resume_parsing w;
     post_jd_parsing := post_jd_parsing w;
     post_matching := post_matching w;
     json_loads := json_loads w;
     float_of_str := float_of_str w;
     pydantic_ResumeInfo := pydantic_ResumeInfo w;
     pydantic_str := pydantic_str w;
     pydantic_dict := pydantic_dict w;
     resume_json := resume_json w;
     jd_json := jd_json w;
     sqlite_connect := sqlite_connect w;
     sqlite_insert := sqlite_insert w;
     format_1f := format_1f w;
     format_value := format_value w;
     EmailMessage_build := EmailMessage_build w;
     smtp_session := fun _ _ _ _ => outcome |}.

(** The world [w], except that the catalogue file is there or not, and reads as [csv]. *)
Definition with_csv (found : bool) (csv : result DataFrame) (w : World) : World :=
  {| DEEPSEEK_API_KEY := DEEPSEEK_API_KEY w;
     EMAIL_SENDER := EMAIL_SENDER w;
     EMAIL_PASSWORD := EMAIL_PASSWORD w;
     path_exists_JOB_DATA_CSV := found;
     read_csv_JOB_DATA_CSV := csv;
     pdf_pages_text := pdf_pages_text w;
     docx_paragraphs_text := docx_paragraphs_text w;
     decode_utf8_ignore := decode_utf8_ignore w;
     post_resume_parsing := post_resume_parsing w;
     post_jd_parsing := post_jd_parsing w;
     post_matching := post_matching w;
     json_loads := json_loads w;
     float_of_str := float_of_str w;
     pydantic_ResumeInfo := pydantic_ResumeInfo w;
     pydantic_str := pydantic_str w;
     pydantic_dict := pydantic_dict w;
     resume_json := resume_json w;
     jd_json := jd_json w;
     sqlite_connect := sqlite_connect w;
     sqlite_insert := sqlite_insert w;
     format_1f := format_1f w;
     format_value := format_value w;
     EmailMessage_build := EmailMessage_build w;
     smtp_session := smtp_session w |}.

End Vary.

(* ================================================================== *)
(** ** The answer of the scoring model *)
(* ================================================================== *)

(** The body [response_data] of a chat completion has a first choice
    whose message has the text [content]. *)
Definition first_choice_text (response_data : pyval) (content : string)
  : Prop :=
  exists body choice others message,
    response_data = PDict body
    /\ dict_lookup "choices" body = Some (PList (PDict choice :: others))
    /\ dict_lookup "message" choice = Some (PDict message)
    /\ dict_lookup "content" message = Some (PStr content).

(** The JSON object the text [content] stands for: the text itself when it
    is JSON, the text inside its markdown fence when it is not.  [missing]
    is the text the code puts in the place of a feedback the object does
    not have, which differs between the two. *)
Inductive reply_object (w : World) (content : string)
  (d : list (string * pyval)) : string -> Prop :=
| plain_json :
    json_loads w content = Some (PDict d) ->
    reply_object w content d "Feedback could not be generated."
| fenced_json (extracted : string) :
    json_loads w content = None ->
    str_contains "```json" content = true ->
    extract_markdown_json content = Ok extracted ->
    json_loads w extracted = Some (PDict d) ->
    reply_object w content d "Feedback could not be generated (extracted).".

(** With an API key set, the scoring model, asked about the two
    serialised records, answers with an object whose score is [raw] and
    whose feedback is [feedback_text]; an object without a score stands
    for the score [0], as [result_data.get("match_score", 0)] reads it. *)
Definition returned_score (w : World) (resume_json jd_json : string)
  (raw feedback_text : pyval) : Prop :=
  truthy_str (DEEPSEEK_API_KEY w) = true
  /\ exists response_data content d missing,
       post_matching w jd_json resume_json = Ok response_data
       /\ first_choice_text response_data content
       /\ reply_object w content d missing
       /\ raw = match dict_lookup "match_score" d with
                | Some v => v
                | None => PInt 0
                end
       /\ feedback_text = match dict_lookup "feedback" d with
                          | Some v => v
                          | None => PStr missing
                          end.

(** The sentence of the specification, for a reply whose score is the
    integer [z]: the score the run ends with is max(0, min(100, z)). *)
Definition ends_with_clamp_of (w : World) (s0 : main.AppState) (z : Z)
  : Prop :=
  exists final c,
    main.invoke w s0 = Some final
    /\ float_of_int (Z.max 0 (Z.min 100 z)) = Ok c
    /\ main.match_score final = Some c.

(** Worlds in which the scoring model answers with a given integer
    score. *)
Module ScoreReply.

(** The JSON text of the answer. *)
Definition score_text (z : Z) : string :=
  "{" ++ Scenario.quoted "match_score" ++ ": "
  ++ NilZero.string_of_int (Z.to_int z) ++ ", "
  ++ Scenario.quoted "feedback" ++ ": " ++ Scenario.quoted "Noted." ++ "}".

(** [Scenario.all_well], except that the scoring model answers with the
    score [z]. *)
Definition world (z : Z) : World :=
  let w := Scenario.all_well in
  {| DEEPSEEK_API_KEY := DEEPSEEK_API_KEY w;
     EMAIL_SENDER := EMAIL_SENDER w;
     EMAIL_PASSWORD := EMAIL_PASSWORD w;
     path_exists_JOB_DATA_CSV := path_exists_JOB_DATA_CSV w;
     read_csv_JOB_DATA_CSV := read_csv_JOB_DATA_CSV w;
     pdf_pages_text := pdf_pages_text w;
     docx_paragraphs_text := docx_paragraphs_text w;
     decode_utf8_ignore := decode_utf8_ignore w;
     post_resume_parsing := post_resume_parsing w;
     post_jd_parsing := post_jd_parsing w;
     post_matching := fun _ _ => Ok (Scenario.chat_completion (score_text z));
     json_loads := fun s =>
       if s =? score_text z
       then Some (PDict [("match_score", PInt z); ("feedback", PStr "Noted.")])
       else json_loads w s;
     float_of_str := float_of_str w;
     pydantic_ResumeInfo := pydantic_ResumeInfo w;
     pydantic_str := pydantic_str w;
     pydantic_dict := pydantic_dict w;
     resume_json := resume_json w;
     jd_json := jd_json w;
     sqlite_connect := sqlite_connect w;
     sqlite_insert := sqlite_insert w;
     format_1f := fun f =>
       if (f =? 100)%float then "100.0" else format_1f w f;
     format_value := format_value w;
     EmailMessage_build := EmailMessage_build w;
     smtp_session := smtp_session w |}.

End ScoreReply.
(* ================================================================== *)
(** ** Order of binary64 values *)
(* ================================================================== *)

Lemma SFcompare_swap (x y : spec_float) :
  SFcompare y x = option_map CompOpp (SFcompare x y).
Proof.
  destruct x as [sx|sx| |sx mx ex], y as [sy|sy| |sy my ey]; simpl;
    try reflexivity; try (destruct sx; reflexivity);
    try (destruct sy; reflexivity); try (destruct sx, sy; reflexivity).
  destruct sx, sy; simpl; try reflexivity;
    rewrite (Z.compare_antisym ex ey);
    destruct (ex ?= ey)%Z; simpl; try reflexivity.
  - rewrite CompOpp_involutive. f_equal.
    exact (Pos.compare_cont_antisym my mx Eq).
  - f_equal. exact (eq_sym (Pos.compare_cont_antisym mx my Eq)).
Qed.

Lemma SFcompare_refl (x y : spec_float) (c : comparison) :
  SFcompare x y = Some c -> SFcompare x x = Some Eq /\ SFcompare y y = Some Eq.
Proof.
  assert (R : forall s m e,
             SFcompare (S754_finite s m e) (S754_finite s m e) = Some Eq).
  { intros s m e. simpl. rewrite Z.compare_refl.
    change (PosDef.Pos.compare_cont Eq m m) with (Pos.compare m m).
    rewrite Pos.compare_refl. destruct s; reflexivity. }
  destruct x as [sx|sx| |sx mx ex], y as [sy|sy| |sy my ey]; intro H;
    try discriminate H; split; try apply R; simpl; try reflexivity;
    try (destruct sx; reflexivity); try (destruct sy; reflexivity).
Qed.

Section FloatOrder.

Local Open Scope float_scope.
Variables a b : float.

Lemma ltb_leb : (a <? b) = true -> (a <=? b) = true.
Proof.
  rewrite ltb_spec, leb_spec. unfold SFltb, SFleb.
  destruct (SFcompare _ _) as [[]|]; congruence.
Qed.

Lemma leb_not_ltb_eqb :
  (a <=? b) = true -> (a <? b) = false -> (a =? b) = true.
Proof.
  rewrite ltb_spec, leb_spec, FloatAxioms.eqb_spec.
  unfold SFltb, SFleb, SFeqb.
  destruct (SFcompare _ _) as [[]|]; congruence.
Qed.

Lemma float_eqb_sym : (a =? b) = true -> (b =? a) = true.
Proof.
  rewrite !FloatAxioms.eqb_spec. unfold SFeqb.
  rewrite (SFcompare_swap (Prim2SF a) (Prim2SF b)).
  destruct (SFcompare _ _) as [[]|]; simpl; congruence.
Qed.

Lemma ltb_not_leb : (a <? b) = true -> (b <=? a) = false.
Proof.
  rewrite ltb_spec, leb_spec. unfold SFltb, SFleb.
  rewrite (SFcompare_swap (Prim2SF a) (Prim2SF b)).
  destruct (SFcompare _ _) as [[]|]; simpl; congruence.
Qed.

Lemma ltb_eqb_refl : (a <? b) = true -> (a =? a) = true /\ (b =? b) = true.
Proof.
  rewrite ltb_spec, !FloatAxioms.eqb_spec. unfold SFltb, SFeqb.
  destruct (SFcompare (Prim2SF a) (Prim2SF b)) as [c|] eqn:E; [|congruence].
  intros _. destruct (SFcompare_refl _ _ _ E) as [-> ->]. auto.
Qed.

End FloatOrder.

(* ================================================================== *)
(** ** The clamp of the matcher *)
(* ================================================================== *)

Section Clamp.

Local Open Scope float_scope.
Import matcher.

Lemma py_max_0_in_range (y : float) :
  (y <=? 100) = true ->
  (0 <=? py_max 0 y) && (py_max 0 y <=? 100) = true.
Proof.
  intro Hy. unfold py_max. destruct (0 <? y) eqn:E.
  - rewrite (ltb_leb _ _ E), Hy. reflexivity.
  - reflexivity.
Qed.

Lemma py_min_100_le (s : float) : (py_min 100 s <=? 100) = true.
Proof.
  unfold py_min. destruct (s <? 100) eqn:E.
  - exact (ltb_leb _ _ E).
  - reflexivity.
Qed.

Lemma clamp_score_in_range (s : float) :
  (0 <=? clamp_score s) && (clamp_score s <=? 100) = true.
Proof.
  unfold clamp_score. destruct ((0 <=? s) && (s <=? 100)) eqn:E; simpl.
  - exact E.
  - apply py_max_0_in_range, py_min_100_le.
Qed.

Lemma clamp_score_max_min (s : float) :
  (clamp_score s =? py_max 0 (py_min 100 s)) = true.
Proof.
  unfold clamp_score. destruct ((0 <=? s) && (s <=? 100)) eqn:E; simpl.
  - apply andb_true_iff in E. destruct E as [H0 H100].
    unfold py_min. destruct (s <? 100) eqn:L.
    + unfold py_max. destruct (0 <? s) eqn:P.
      * exact (proj2 (ltb_eqb_refl _ _ P)).
      * apply float_eqb_sym. exact (leb_not_ltb_eqb _ _ H0 P).
    + change (py_max 0 100) with 100. exact (leb_not_ltb_eqb _ _ H100 L).
  - unfold py_max at 1 2. destruct (0 <? py_min 100 s) eqn:P.
    + exact (proj2 (ltb_eqb_refl _ _ P)).
    + reflexivity.
Qed.

End Clamp.

(* ================================================================== *)
(** ** The run of the graph *)
(* ================================================================== *)

(** Case analysis on every test a node function makes. *)
Ltac branches :=
  repeat match goal with
         | |- context [if ?c then _ else _] => destruct c eqn:?
         | |- context [match ?x with _ => _ end] => destruct x eqn:?
         end.

(** The entries of a trace, which has at most six. *)
Ltac positions i H :=
  destruct i as [|[|[|[|[|[|i]]]]]]; cbn [nth_error] in H;
  try discriminate H;
  try (destruct i; discriminate H).

Section Run.

Import main.
Variable w : World.


(** The run stops at the first gated node that leaves an error. *)
Lemma invoke_trace_shape (s0 : AppState) :
  invoke_trace w s0 =
  Some (if has_error (after w load_validate s0) then
          [(load_validate, after w load_validate s0)]
        else if has_error (after w parse_resume s0) then
          [(load_validate, after w load_validate s0);
           (parse_resume, after w parse_resume s0)]
        else if has_error (after w parse_jd s0) then
          [(load_validate, after w load_validate s0);
           (parse_resume, after w parse_resume s0);
           (parse_jd, after w parse_jd s0)]
        else if has_error (after w matching s0) then
          [(load_validate, after w load_validate s0);
           (parse_resume, after w parse_resume s0);
           (parse_jd, after w parse_jd s0);
           (matching, after w matching s0)]
        else
          [(load_validate, after w load_validate s0);
           (parse_resume, after w parse_resume s0);
           (parse_jd, after w parse_jd s0);
           (matching, after w matching s0);
           (save_db, after w save_db s0);
           (send_email, after w send_email s0)]).
Proof.
  unfold invoke_trace, after.
  cbn [run node_function next_node].
  destruct (has_error (load_and_validate_input w s0));
    cbn [negb run node_function next_node]; [reflexivity|].
  destruct (has_error (process_resume w _));
    cbn [negb run node_function next_node]; [reflexivity|].
  destruct (has_error (process_job_description w _));
    cbn [negb run node_function next_node]; [reflexivity|].
  destruct (has_error (perform_matching w _));
    cbn [negb run node_function next_node]; reflexivity.
Qed.

(** Six steps always reach [END]. *)
Lemma run_reaches_END (s0 : AppState) :
  exists t, invoke_trace w s0 = Some t.
Proof. rewrite invoke_trace_shape. eauto. Qed.

End Run.

Section Stages.

Import main.
Variable w : World.

(** What [load_and_validate_input] leaves alone. *)
Lemma load_keeps (s : AppState) :
  let s' := load_and_validate_input w s in
  selected_job_title s' = selected_job_title s
  /\ parsed_resume s' = parsed_resume s
  /\ parsed_jd s' = parsed_jd s
  /\ match_score s' = match_score s
  /\ feedback s' = feedback s
  /\ db_save_status s' = db_save_status s
  /\ email_sent_status s' = email_sent_status s.
Proof.
  unfold load_and_validate_input. branches; cbn; repeat split; auto.
Qed.

(** After a clean [load_and_validate_input] the state holds the
    catalogue that was read. *)
Lemma load_clean_catalogue (s : AppState) :
  has_error (load_and_validate_input w s) = false ->
  exists df, read_csv_JOB_DATA_CSV w = Ok df
             /\ job_descriptions_df (load_and_validate_input w s) = Some df.
Proof.
  unfold load_and_validate_input.
  destruct (negb (path_exists_JOB_DATA_CSV w)); [discriminate|].
  destruct (read_csv_JOB_DATA_CSV w) as [df|e]; [|discriminate].
  branches; try discriminate. intros _. exists df. split; reflexivity.
Qed.

Lemma process_resume_keeps (s : AppState) :
  let s' := process_resume w s in
  selected_job_title s' = selected_job_title s
  /\ job_descriptions_df s' = job_descriptions_df s
  /\ parsed_jd s' = parsed_jd s
  /\ match_score s' = match_score s
  /\ feedback s' = feedback s
  /\ db_save_status s' = db_save_status s
  /\ email_sent_status s' = email_sent_status s.
Proof.
  unfold process_resume. branches; cbn; repeat split; auto.
Qed.

Lemma process_job_description_keeps (s : AppState) :
  let s' := process_job_description w s in
  parsed_resume s' = parsed_resume s
  /\ match_score s' = match_score s
  /\ feedback s' = feedback s
  /\ db_save_status s' = db_save_status s
  /\ email_sent_status s' = email_sent_status s.
Proof.
  unfold process_job_description. branches; cbn; repeat split; auto.
Qed.

Lemma perform_matching_keeps (s : AppState) :
  let s' := perform_matching w s in
  parsed_resume s' = parsed_resume s
  /\ parsed_jd s' = parsed_jd s
  /\ db_save_status s' = db_save_status s
  /\ email_sent_status s' = email_sent_status s.
Proof.
  unfold perform_matching. branches; cbn; repeat split; auto.
Qed.

Lemma save_to_database_keeps (s : AppState) :
  let s' := save_to_database w s in
  parsed_resume s' = parsed_resume s
  /\ parsed_jd s' = parsed_jd s
  /\ match_score s' = match_score s
  /\ feedback s' = feedback s
  /\ email_sent_status s' = email_sent_status s.
Proof.
  unfold save_to_database. branches; cbn; repeat split; auto.
Qed.

Lemma send_candidate_email_keeps (s : AppState) :
  let s' := send_candidate_email w s in
  parsed_resume s' = parsed_resume s
  /\ parsed_jd s' = parsed_jd s
  /\ match_score s' = match_score s
  /\ feedback s' = feedback s
  /\ db_save_status s' = db_save_status s.
Proof.
  unfold send_candidate_email. branches; cbn; repeat split; auto.
Qed.

(** No matching row: [parse_job_description] raises. *)
Lemma parse_job_description_not_found (title : string) (df : DataFrame) :
  filter (jd_parser.title_matches title) (rows df) = [] ->
  exists e, jd_parser.parse_job_description w (Some title) (Some df) = Raise e.
Proof.
  intro H. unfold jd_parser.parse_job_description. cbn [bind].
  destruct (has_column "Job Title" df); cbn [bind try_except].
  - destruct (jd_parser.str_accessor "Job Title" df) as [[]|];
      cbn [bind try_except].
    + rewrite H. cbn [try_except]. eauto.
    + eauto.
  - eauto.
Qed.

Ltac settle H :=
  cbn; solve [ left; reflexivity | right; reflexivity | exact H
             | unfold error_well_formed, has_error in *; cbn in *; intuition congruence ].

Lemma load_well_formed (s : AppState) :
  error_well_formed (load_and_validate_input w s).
Proof.
  unfold load_and_validate_input, error_well_formed.
  branches; cbn; solve [left; reflexivity | right; reflexivity].
Qed.

Lemma node_well_formed (n : node) (s : AppState) :
  error_well_formed s -> error_well_formed (node_function w n s).
Proof.
  intro H. destruct n; cbn [node_function].
  - apply load_well_formed.
  - unfold process_resume. branches; settle H.
  - unfold process_job_description. branches; settle H.
  - unfold perform_matching. branches; settle H.
  - unfold save_to_database. branches; settle H.
  - unfold send_candidate_email. branches; settle H.
Qed.

(** In a run every state has a well-formed error slot. *)
Lemma run_well_formed (s0 : AppState) (t : trace) :
  invoke_trace w s0 = Some t ->
  forall i n s, nth_error t i = Some (n, s) -> error_well_formed s.
Proof.
  rewrite invoke_trace_shape. unfold after. intro E.
  pose proof (load_well_formed s0) as W1.
  pose proof (node_well_formed parse_resume _ W1) as W2.
  pose proof (node_well_formed parse_jd _ W2) as W3.
  pose proof (node_well_formed matching _ W3) as W4.
  pose proof (node_well_formed save_db _ W4) as W5.
  pose proof (node_well_formed send_email _ W5) as W6.
  cbn [node_function] in *.
  inversion E as [Et]. clear E.
  intros i n s H.
  destruct (has_error (load_and_validate_input w s0));
    [|destruct (has_error (process_resume w _));
      [|destruct (has_error (process_job_description w _));
        [|destruct (has_error (perform_matching w _))]]];
    subst t; positions i H; inversion H; subst; assumption.
Qed.

End Stages.

(* ================================================================== *)
(** ** The short-circuit contract *)
(* ================================================================== *)

Section ShortCircuit.

Import main.

(** The gate, in terms of the condition the edges test. *)
Lemma gate_on_condition (w : World) (s0 : AppState) :
  exists t, invoke_trace w s0 = Some t
    /\ (exists rest, (executed t ++ rest)%list = all_nodes)
    /\ forall i n s, nth_error t i = Some (n, s) -> gated n = true ->
         (has_error s = true ->
            List.length t = S i /\ final_state s0 t = s
            /\ ~ In save_db (executed t) /\ ~ In send_email (executed t))
         /\ (has_error s = false -> S i < List.length t).
Proof.
  rewrite invoke_trace_shape.
  destruct (has_error (after w load_validate s0)) eqn:E1;
    [|destruct (has_error (after w parse_resume s0)) eqn:E2;
      [|destruct (has_error (after w parse_jd s0)) eqn:E3;
        [|destruct (has_error (after w matching s0)) eqn:E4]]];
    (eexists; split; [reflexivity|]; split; [eexists; reflexivity|]);
    unfold after in *;
    intros i n s H G; positions i H; inversion H; subst n s; clear H;
    try discriminate G;
    (split; intro He;
     [ try congruence; cbn [List.length final_state executed map fst snd last];
       repeat split; cbn; intuition discriminate
     | try congruence; cbn [List.length]; lia ]).
Qed.

(** C1. In every run the executed nodes are an initial segment of the six
    in order; a gated node (one of the first four) that returns a state
    with the error set is the last node executed, its state is the final
    state, and neither [save_db] nor [send_email] is executed; a gated
    node that returns a state with no error is followed by another node.
    When no row of the catalogue carries the selected title, the run from
    the initial state ends with the error set, no job record, and
    [db_save_status] and [email_sent_status] still [false]. *)
Theorem short_circuit_contract (w : World) :
  (forall s0 : AppState,
      exists t, invoke_trace w s0 = Some t
        /\ (exists rest, (executed t ++ rest)%list = all_nodes)
        /\ forall i n s, nth_error t i = Some (n, s) -> gated n = true ->
             (error_message s <> None ->
                List.length t = S i /\ final_state s0 t = s
                /\ ~ In save_db (executed t) /\ ~ In send_email (executed t))
             /\ (error_message s = None -> S i < List.length t))
  /\
  (forall file_bytes name selected_job,
      title_not_in_catalog w selected_job ->
      let s0 := initial_state file_bytes name selected_job in
      exists t, invoke_trace w s0 = Some t
        /\ error_message (final_state s0 t) <> None
        /\ has_error (final_state s0 t) = true
        /\ parsed_jd (final_state s0 t) = None
        /\ db_save_status (final_state s0 t) = false
        /\ email_sent_status (final_state s0 t) = false
        /\ ~ In save_db (executed t) /\ ~ In send_email (executed t)).
Proof.
  split.
  - intro s0. destruct (gate_on_condition w s0) as (t & E & P & G).
    exists t. split; [exact E|]. split; [exact P|].
    intros i n s H Gn. destruct (G i n s H Gn) as [A B].
    split; intro He.
    + apply A. destruct (run_well_formed w s0 t E i n s H) as [N|T];
        [contradiction|exact T].
    + apply B. unfold has_error. rewrite He. reflexivity.
  - intros file_bytes name selected_job Hno s0.
    assert (Set_ : forall s, has_error s = true -> error_message s <> None).
    { intros s T N. unfold has_error in T. rewrite N in T. discriminate T. }
    rewrite invoke_trace_shape. unfold after.
    set (s1 := load_and_validate_input w s0).
    set (s2 := process_resume w s1).
    set (s3 := process_job_description w s2).
    destruct (load_keeps w s0) as (T1 & _ & J1 & _ & _ & D1 & M1).
    destruct (process_resume_keeps w s1) as (T2 & F2 & J2 & _ & _ & D2 & M2).
    destruct (process_job_description_keeps w s2) as (_ & _ & _ & D3 & M3).
    fold s1 in T1, J1, D1, M1. fold s2 in T2, F2, J2, D2, M2.
    fold s3 in D3, M3.
    destruct (has_error s1) eqn:E1.
    { eexists; split; [reflexivity|].
      cbn [final_state executed map fst snd last].
      split; [exact (Set_ _ E1)|].
      rewrite E1, J1, D1, M1. cbn. intuition discriminate. }
    destruct (has_error s2) eqn:E2.
    { eexists; split; [reflexivity|].
      cbn [final_state executed map fst snd last].
      split; [exact (Set_ _ E2)|].
      rewrite E2, J2, D2, M2, J1, D1, M1. cbn. intuition discriminate. }
    destruct (load_clean_catalogue w s0 E1) as (df & Hcsv & Hdf).
    fold s1 in Hdf.
    assert (E3 : has_error s3 = true /\ parsed_jd s3 = None).
    { unfold s3, process_job_description. rewrite E2, T2, T1, F2, Hdf.
      unfold s0; cbn [selected_job_title initial_state].
      destruct (parse_job_description_not_found w selected_job df
                  (Hno df Hcsv)) as [e ->].
      split; reflexivity. }
    destruct E3 as [E3 J3]. rewrite E3.
    eexists; split; [reflexivity|].
    cbn [final_state executed map fst snd last].
    split; [exact (Set_ _ E3)|].
    rewrite E3, J3, D3, M3, D2, M2, D1, M1. cbn. intuition discriminate.
Qed.

(** The title "Astronaut" is not in the catalogue of [Scenario.all_well]. *)
Lemma short_circuit_contract_witness :
  let s0 := Scenario.start "Astronaut" in
  exists t, invoke_trace Scenario.all_well s0 = Some t
    /\ error_message (final_state s0 t) <> None
    /\ has_error (final_state s0 t) = true
    /\ parsed_jd (final_state s0 t) = None
    /\ db_save_status (final_state s0 t) = false
    /\ email_sent_status (final_state s0 t) = false
    /\ ~ In save_db (executed t) /\ ~ In send_email (executed t).
Proof.
  apply (proj2 (short_circuit_contract Scenario.all_well)).
  intros df H. inversion H. reflexivity.
Defined.

End ShortCircuit.

(* ================================================================== *)
(** ** The tone of the mail *)
(* ================================================================== *)

Section Tone.

Import email_sender.
Local Open Scope float_scope.

(** C5. The congratulatory subject and body are chosen exactly when
    [65.0 <= match_score], the rejection ones exactly when not, so for
    every score below 65.0; 65.0 itself congratulates and 64.99 rejects.
    The message chosen is the one handed to the mail library. *)
Theorem notification_tone_threshold (w : World)
  (candidate_name : option string) (job_title : string) (feedback : pyval) :
  let congratulation score :=
    (congratulatory_subject job_title,
     congratulatory_body w candidate_name job_title score feedback) in
  let rejection score :=
    (rejection_subject job_title,
     rejection_body w candidate_name job_title score feedback) in
  let chosen score :=
    email_content w candidate_name job_title score feedback in
  (forall score, chosen score = congratulation score <-> (65 <=? score) = true)
  /\ (forall score, chosen score = rejection score <-> (65 <=? score) = false)
  /\ (forall score, (score <? 65) = true -> chosen score = rejection score)
  /\ chosen 65 = congratulation 65
  /\ chosen 64.99 = rejection 64.99
  /\ (forall to_email score,
        truthy_str (EMAIL_SENDER w) = true ->
        truthy_str (EMAIL_PASSWORD w) = true ->
        truthy_str to_email = true ->
        send_application_email w to_email candidate_name job_title score feedback
        = (_ <- EmailMessage_build w (fst (chosen score))
                  (text_of (EMAIL_SENDER w)) (text_of to_email)
                  (snd (chosen score)) ;;
           try_except
             (_ <- smtp_session w (fst (chosen score))
                     (text_of (EMAIL_SENDER w)) (text_of to_email)
                     (snd (chosen score)) ;;
              Ok true)
             (fun _ => Ok false))).
Proof.
  intros congratulation rejection chosen.
  assert (A : forall score,
             chosen score = congratulation score <-> (65 <=? score) = true).
  { intro score. unfold chosen, congratulation, email_content, is_qualified.
    destruct (65 <=? score); split; intro H; try reflexivity;
      discriminate H. }
  assert (B : forall score,
             chosen score = rejection score <-> (65 <=? score) = false).
  { intro score. unfold chosen, rejection, email_content, is_qualified.
    destruct (65 <=? score); split; intro H; try reflexivity;
      discriminate H. }
  repeat split; try apply A; try apply B; try reflexivity.
  - intros score H. apply B. exact (ltb_not_leb _ _ H).
  - intros to_email score Hs Hp Ht. unfold send_application_email.
    rewrite Hs, Hp, Ht. cbn [negb orb]. fold (chosen score).
    destruct (chosen score). reflexivity.
Qed.

(** A score of 10 is below the threshold. *)
Lemma notification_tone_threshold_witness :
  email_content Scenario.all_well (Some "Asha Rao") "Data Scientist" 10
    (PStr "Keep going.")
  = (rejection_subject "Data Scientist",
     rejection_body Scenario.all_well (Some "Asha Rao") "Data Scientist" 10
       (PStr "Keep going.")).
Proof.
  apply (proj1 (proj2 (proj2
           (notification_tone_threshold Scenario.all_well (Some "Asha Rao")
              "Data Scientist" (PStr "Keep going."))))).
  reflexivity.
Defined.

End Tone.

(* ================================================================== *)
(** ** The matcher *)
(* ================================================================== *)

Section Matcher.

Import matcher main.
Variable w : World.

Lemma score_and_feedback_in_range (missing : string) (result_data : pyval)
  (r : float * pyval) :
  score_and_feedback w missing result_data = Ok r ->
  score_in_range (fst r) = true.
Proof.
  unfold score_and_feedback.
  destruct (py_get result_data "match_score" (PInt 0)) as [raw|]; [|discriminate].
  cbn [bind]. destruct (py_float _ raw) as [score|]; [|discriminate].
  cbn [bind]. destruct (py_get result_data "feedback" _); [|discriminate].
  cbn [bind]. intro H. inversion H. apply clamp_score_in_range.
Qed.

Lemma from_markdown_in_range (message_content : pyval) :
  score_in_range (fst (from_markdown w message_content)) = true.
Proof.
  unfold from_markdown.
  destruct message_content; try reflexivity.
  destruct (str_contains _ s); [|reflexivity].
  destruct (extract_markdown_json s) as [x|]; [|reflexivity]. cbn [bind].
  destruct (loads w (PStr x)) as [rd|]; [|reflexivity]. cbn [bind].
  destruct (score_and_feedback w _ rd) as [r|] eqn:E; [|reflexivity].
  exact (score_and_feedback_in_range _ _ _ E).
Qed.

(** [call_deepseek_for_matching] returns, with a score in range. *)
Lemma call_deepseek_for_matching_returns (resume_json jd_json : string) :
  exists r, call_deepseek_for_matching w resume_json jd_json = Ok r
            /\ score_in_range (fst r) = true.
Proof.
  unfold call_deepseek_for_matching.
  destruct (negb (truthy_str (DEEPSEEK_API_KEY w))).
  { eexists; split; reflexivity. }
  destruct (post_matching w jd_json resume_json) as [rd|];
    [|eexists; split; reflexivity].
  cbn [bind]. destruct (first_choice_content rd) as [[c|]|];
    try (eexists; split; reflexivity).
  cbn [bind]. destruct (loads w c) as [v|e]; cbn [bind try_except].
  - destruct (score_and_feedback w _ v) as [r|e] eqn:E; cbn [try_except].
    + exists r. split; [reflexivity|].
      exact (score_and_feedback_in_range _ _ _ E).
    + destruct (is_json_decode_error e); eexists; split;
        try reflexivity; apply from_markdown_in_range.
  - destruct (is_json_decode_error e); eexists; split;
      try reflexivity; apply from_markdown_in_range.
Qed.

Lemma calculate_match_and_feedback_returns
  (resume_info : ResumeInfo.t) (jd_info : JobDescriptionInfo.t) :
  exists r, calculate_match_and_feedback w resume_info jd_info = Ok r
            /\ score_in_range (fst r) = true.
Proof.
  unfold calculate_match_and_feedback.
  destruct (resume_json w resume_info) as [rj|];
    [|eexists; split; reflexivity].
  cbn [bind]. destruct (jd_json w jd_info) as [jj|];
    [|eexists; split; reflexivity].
  cbn [bind].
  destruct (call_deepseek_for_matching_returns rj jj) as (r & -> & H).
  exists r. split; [reflexivity|exact H].
Qed.

Lemma py_get_raises (x : pyval) (k : string) (d : pyval) (e : exn) :
  py_get x k d = Raise e -> is_json_decode_error e = false.
Proof.
  destruct x; cbn; try (intro H; inversion H; reflexivity).
  destruct (dict_lookup k d0); discriminate.
Qed.

Lemma py_float_raises (f : string -> option float) (x : pyval) (e : exn) :
  py_float f x = Raise e -> is_json_decode_error e = false.
Proof.
  destruct x; cbn; try (intro H; inversion H; reflexivity).
  - unfold float_of_int. destruct (binary_normalize prec emax z 0 false);
      intro H; inversion H; reflexivity.
  - destruct (f s); intro H; inversion H; reflexivity.
Qed.

(** Reading the score off the parsed reply never raises a
    [JSONDecodeError]. *)
Lemma score_and_feedback_raises (missing : string) (result_data : pyval)
  (e : exn) :
  score_and_feedback w missing result_data = Raise e ->
  is_json_decode_error e = false.
Proof.
  unfold score_and_feedback.
  destruct (py_get result_data "match_score" (PInt 0)) as [raw|e1] eqn:G1;
    cbn [bind]; [|intro H; inversion H; subst; exact (py_get_raises _ _ _ _ G1)].
  destruct (py_float _ raw) as [score|e2] eqn:F;
    cbn [bind]; [|intro H; inversion H; subst; exact (py_float_raises _ _ _ F)].
  destruct (py_get result_data "feedback" _) as [fb|e3] eqn:G2;
    cbn [bind]; [discriminate|].
  intro H; inversion H; subst; exact (py_get_raises _ _ _ _ G2).
Qed.

(** A reply that is not JSON comes from [json.loads] on a [str]. *)
Lemma loads_text (s : string) :
  loads w (PStr s)
  = match json_loads w s with
    | Some v => Ok v
    | None => Raise (Exn JSONDecodeError "Expecting value")
    end.
Proof. reflexivity. Qed.

Lemma failure_gives_default (resume_json jd_json : string) :
  collaborator_failure w resume_json jd_json ->
  call_deepseek_for_matching w resume_json jd_json = Ok default_response.
Proof.
  intro F. unfold call_deepseek_for_matching.
  destruct F as [K|e P|rd e P N|rd P N|rd c P C T|rd s P C J M|rd s P C J M
                |rd v s e P C J U].
  - rewrite K. reflexivity.
  - destruct (negb _); [reflexivity|]. rewrite P. reflexivity.
  - destruct (negb _); [reflexivity|]. rewrite P. cbn [bind]. rewrite N.
    reflexivity.
  - destruct (negb _); [reflexivity|]. rewrite P. cbn [bind]. rewrite N.
    reflexivity.
  - destruct (negb _); [reflexivity|]. rewrite P. cbn [bind]. rewrite C.
    cbn [bind].
    destruct c; try reflexivity. destruct (T s). reflexivity.
  - destruct (negb _); [reflexivity|]. rewrite P. cbn [bind]. rewrite C.
    cbn [bind]. rewrite loads_text, J. cbn. rewrite M. reflexivity.
  - destruct (negb _); [reflexivity|]. rewrite P. cbn [bind]. rewrite C.
    cbn [bind]. rewrite loads_text, J. cbn [bind try_except is_json_decode_error exn_cls].
    unfold from_markdown.
    destruct (str_contains _ s); [|reflexivity].
    destruct (extract_markdown_json s) as [x|] eqn:X; [|reflexivity].
    cbn [bind]. rewrite loads_text, (M x eq_refl). reflexivity.
  - destruct (negb _); [reflexivity|]. rewrite P. cbn [bind]. rewrite C.
    cbn [bind]. rewrite loads_text, J. cbn [bind]. rewrite U.
    cbn [try_except]. rewrite (score_and_feedback_raises _ _ _ U).
    reflexivity.
Qed.

End Matcher.

Section Scoring.

Import matcher main.
Local Open Scope float_scope.

(** The score [perform_matching] writes is in range. *)
Lemma perform_matching_score (w : World) (s : AppState) (x : float) :
  match_score s = None ->
  match_score (perform_matching w s) = Some x ->
  score_in_range x = true.
Proof.
  intro N. unfold perform_matching.
  destruct (parsed_resume s) as [r|], (parsed_jd s) as [j|];
    try (destruct (negb (has_error s)); cbn; congruence).
  destruct (has_error s); [congruence|].
  destruct (calculate_match_and_feedback_returns w r j) as ([score fb] & -> & R).
  cbn. intro H. inversion H. subst x. exact R.
Qed.

(** C10. [calculate_match_and_feedback] returns, never raises, and its
    score lies in [0, 100].  When the call of the model fails in one of
    the ways of [collaborator_failure], [call_deepseek_for_matching]
    returns the score 0.0 with one fixed text, and so does
    [calculate_match_and_feedback] once both records are serialised;
    [perform_matching] then stores that score and text and leaves the
    error clear.  When a record cannot be serialised the result is 0.0
    with the other fixed text. *)
Theorem scoring_is_total (w : World)
  (resume_info : ResumeInfo.t) (jd_info : JobDescriptionInfo.t) :
  (exists score feedback_text,
      calculate_match_and_feedback w resume_info jd_info
      = Ok (score, feedback_text)
      /\ score_in_range score = true)
  /\ (forall rj jj,
        collaborator_failure w rj jj ->
        call_deepseek_for_matching w rj jj
        = Ok (0, PStr "Error: Could not generate matching results."))
  /\ (forall rj jj,
        resume_json w resume_info = Ok rj ->
        jd_json w jd_info = Ok jj ->
        collaborator_failure w rj jj ->
        calculate_match_and_feedback w resume_info jd_info
        = Ok (0, PStr "Error: Could not generate matching results.")
        /\ forall state,
             parsed_resume state = Some resume_info ->
             parsed_jd state = Some jd_info ->
             has_error state = false ->
             match_score (perform_matching w state) = Some 0
             /\ feedback (perform_matching w state)
                = PStr "Error: Could not generate matching results."
             /\ error_message (perform_matching w state) = None)
  /\ (forall e,
        resume_json w resume_info = Raise e
        \/ (exists rj, resume_json w resume_info = Ok rj
                       /\ jd_json w jd_info = Raise e) ->
        calculate_match_and_feedback w resume_info jd_info
        = Ok (0, PStr "An error occurred during the matching process.")).
Proof.
  split; [|split; [|split]].
  - destruct (calculate_match_and_feedback_returns w resume_info jd_info)
      as ([score fb] & E & R).
    exists score, fb. split; assumption.
  - intros rj jj F. exact (failure_gives_default w rj jj F).
  - intros rj jj Hr Hj F.
    assert (C : calculate_match_and_feedback w resume_info jd_info
                = Ok (0, PStr "Error: Could not generate matching results.")).
    { unfold calculate_match_and_feedback. rewrite Hr. cbn [bind].
      rewrite Hj. cbn [bind]. rewrite (failure_gives_default w rj jj F).
      reflexivity. }
    split; [exact C|].
    intros state Pr Pj He. unfold perform_matching.
    rewrite Pr, Pj, He, C. cbn. repeat split.
  - intros e [Hr|(rj & Hr & Hj)]; unfold calculate_match_and_feedback;
      rewrite Hr; cbn [bind]; [reflexivity|]. rewrite Hj. reflexivity.
Qed.

(** The matching request times out. *)
Lemma scoring_is_total_witness :
  call_deepseek_for_matching Scenario.scoring_times_out
    Scenario.resume_reply Scenario.jd_reply
  = Ok (0, PStr "Error: Could not generate matching results.").
Proof.
  apply (proj1 (proj2 (scoring_is_total Scenario.scoring_times_out
                         Scenario.asha
                         (JobDescriptionInfo.mk "Data Scientist" None None
                            None [] [] [] None None (PDict []))))).
  apply (request_failed _ _ _
           (Exn Timeout "Read timed out. (read timeout=90)")).
  reflexivity.
Defined.

End Scoring.

(* ================================================================== *)
(** ** The job record *)
(* ================================================================== *)

Section JobRecord.

Import jd_parser Pydantic.

Lemma dict_lookup_set_same (k : string) (v : pyval) (d : list (string * pyval)) :
  dict_lookup k (dict_set k v d) = Some v.
Proof.
  induction d as [|[k' v'] d IH]; cbn.
  - rewrite String.eqb_refl. reflexivity.
  - destruct (k' =? k) eqn:E; cbn.
    + rewrite String.eqb_refl. reflexivity.
    + rewrite E. exact IH.
Qed.

Lemma dict_lookup_set_other (k k' : string) (v : pyval)
  (d : list (string * pyval)) :
  (k =? k') = false ->
  dict_lookup k' (dict_set k v d) = dict_lookup k' d.
Proof.
  intro N. induction d as [|[k0 v0] d IH]; cbn.
  - rewrite N. reflexivity.
  - destruct (k0 =? k) eqn:E; cbn.
    + apply String.eqb_eq in E. subst k0. rewrite N. reflexivity.
    + destruct (k0 =? k'); [reflexivity|exact IH].
Qed.

(** [supplement] writes the catalogue's value, and only when that value
    is there and the model's is not. *)
Lemma supplement_cases (key : string) (value : cell)
  (d : list (string * pyval)) :
  (supplement key value d = d
   /\ (truthy_str value = false \/ ~ omitted key d))
  \/ (exists c, value = Some c /\ c <> "" /\ omitted key d
                /\ supplement key value d = dict_set key (PStr c) d).
Proof.
  unfold supplement, omitted, dict_contains.
  destruct value as [c|]; [|left; split; [reflexivity|left; reflexivity]].
  cbn [truthy_str]. destruct (c =? "") eqn:E; cbn [negb andb].
  - left. split; [reflexivity|left; reflexivity].
  - destruct (dict_lookup key d) as [x|]; cbn [negb orb].
    + destruct (truthy x) eqn:T; cbn [negb].
      * left. split; [reflexivity|right; congruence].
      * right. exists c. repeat split.
        intro H. subst c. discriminate E.
    + right. exists c. repeat split.
      intro H. subst c. discriminate E.
Qed.

Lemma supplement_other (key key' : string) (value : cell)
  (d : list (string * pyval)) :
  (key =? key') = false ->
  dict_lookup key' (supplement key value d) = dict_lookup key' d.
Proof.
  intro N. destruct (supplement_cases key value d) as [[-> _]|(c & _ & _ & _ & ->)].
  - reflexivity.
  - apply dict_lookup_set_other. exact N.
Qed.

(** The three fields of the record are read off the dict. *)
Lemma new_JobDescriptionInfo_fields (w : World) (d : list (string * pyval))
  (jd : JobDescriptionInfo.t) :
  new_JobDescriptionInfo w d = Ok jd ->
  required_str w "job_title" d = Ok (JobDescriptionInfo.job_title jd)
  /\ optional_str w "company" d = Ok (JobDescriptionInfo.company jd)
  /\ optional_str w "location" d = Ok (JobDescriptionInfo.location jd).
Proof.
  unfold new_JobDescriptionInfo.
  destruct (required_str w "job_title" d); [|discriminate]. cbn [bind].
  destruct (optional_str w "company" d); [|discriminate]. cbn [bind].
  destruct (optional_str w "location" d); [|discriminate]. cbn [bind].
  destruct (optional_str w "summary" d); [|discriminate]. cbn [bind].
  destruct (str_list w "responsibilities" d); [|discriminate]. cbn [bind].
  destruct (str_list w "required_skills" d); [|discriminate]. cbn [bind].
  destruct (str_list w "preferred_skills" d); [|discriminate]. cbn [bind].
  destruct (optional_str w "required_experience" d); [|discriminate]. cbn [bind].
  destruct (optional_str w "required_education" d); [|discriminate]. cbn [bind].
  destruct (optional_dict w "misc" d); [|discriminate]. cbn [bind].
  intro H. inversion H. cbn. repeat split.
Qed.

(** What a successful [parse_job_description] went through. *)
Lemma parse_job_description_ok (w : World) (title : string) (df : DataFrame)
  (jd : JobDescriptionInfo.t) :
  parse_job_description w (Some title) (Some df) = Ok jd ->
  exists row jd_text model,
    hd_error (filter (title_matches title) (rows df)) = Some row
    /\ row_cell "Job Description" row = Some jd_text
    /\ json_loads w (call_deepseek_for_jd_parsing w jd_text title)
       = Some (PDict model)
    /\ new_JobDescriptionInfo w
         (supplement "location" (optional_column "Location" df row)
            (supplement "company" (optional_column "Company" df row)
               (dict_set "job_title" (PStr title) model)))
       = Ok jd.
Proof.
  unfold parse_job_description. cbn [bind].
  destruct (has_column "Job Title" df); cbn [bind try_except]; [|discriminate].
  destruct (str_accessor "Job Title" df) as [[]|]; cbn [bind try_except];
    [|discriminate].
  destruct (filter (title_matches title) (rows df)) as [|row rest];
    cbn [try_except]; [discriminate|].
  destruct (has_column "Job Description" df); cbn [bind try_except];
    [|discriminate].
  destruct (row_cell "Job Description" row) as [jd_text|] eqn:T;
    cbn [bind try_except]; [|discriminate].
  destruct ((jd_text =? "") || isspace jd_text); cbn [try_except];
    [discriminate|].
  destruct ((call_deepseek_for_jd_parsing w jd_text title =? "")
            || (call_deepseek_for_jd_parsing w jd_text title =? "{}"));
    cbn [try_except]; [discriminate|].
  rewrite (loads_text w).
  destruct (json_loads w _) as [parsed|] eqn:J; cbn [bind try_except];
    [|discriminate].
  destruct parsed as [| | | | | |model]; cbn [overridden py_setitem bind try_except];
    try discriminate.
  destruct (new_JobDescriptionInfo w _) as [jd'|] eqn:V; cbn [try_except];
    [|discriminate].
  intro H. inversion H. subst jd'.
  exists row, jd_text, model. repeat split; auto.
Qed.

(** [column in df.columns] *)
Lemma has_column_In (column : string) (df : DataFrame) :
  In column (columns df) -> has_column column df = true.
Proof.
  intro I. unfold has_column. apply existsb_exists.
  exists column. split; [exact I|apply String.eqb_refl].
Qed.

(** The value read for an optional column is the cell of the row that
    was read, when the catalogue has the column and the cell a text. *)
Lemma optional_column_cell (column : string) (df : DataFrame)
  (row : list (string * cell)) (c : string) :
  In column (columns df) -> row_cell column row = Some c ->
  optional_column column df row = Some c.
Proof.
  intros I R. unfold optional_column.
  rewrite (has_column_In column df I), R. reflexivity.
Qed.

(** The row read is a row of the catalogue, and its title is the
    selected one up to case and surrounding blanks. *)
Lemma first_match_row (title : string) (df : DataFrame)
  (row : list (string * cell)) :
  hd_error (filter (title_matches title) (rows df)) = Some row ->
  In row (rows df)
  /\ exists t, row_cell "Job Title" row = Some t
               /\ lower (strip t) = lower (strip title).
Proof.
  intro H.
  assert (I : In row (filter (title_matches title) (rows df))).
  { destruct (filter (title_matches title) (rows df)) as [|r rest];
      [discriminate H|].
    cbn in H. injection H as ->. left. reflexivity. }
  apply filter_In in I. destruct I as (I & M). split; [exact I|].
  unfold title_matches in M.
  destruct (row_cell "Job Title" row) as [t|]; [|discriminate M].
  exists t. split; [reflexivity|]. apply String.eqb_eq. exact M.
Qed.

(** The contract of the record, for [parse_job_description]. *)
Lemma parse_job_description_contract (w : World) (selected_job_title : string)
  (df_jobs : DataFrame) (jd : JobDescriptionInfo.t) :
  parse_job_description w (Some selected_job_title) (Some df_jobs) = Ok jd ->
  job_record_contract w selected_job_title df_jobs jd.
Proof.
  intro H.
  destruct (parse_job_description_ok w _ _ _ H) as (row & jd_text & model & R & T & J & V).
  destruct (new_JobDescriptionInfo_fields w _ _ V) as (Ft & Fc & Fl).
  set (d0 := dict_set "job_title" (PStr selected_job_title) model) in *.
  set (company := optional_column "Company" df_jobs row) in *.
  set (location := optional_column "Location" df_jobs row) in *.
  assert (Lc0 : dict_lookup "company" d0 = dict_lookup "company" model)
    by (apply dict_lookup_set_other; reflexivity).
  assert (Ll0 : dict_lookup "location" d0 = dict_lookup "location" model)
    by (apply dict_lookup_set_other; reflexivity).
  assert (Lt : dict_lookup "job_title"
                 (supplement "location" location (supplement "company" company d0))
               = Some (PStr selected_job_title)).
  { rewrite !supplement_other by reflexivity. apply dict_lookup_set_same. }
  assert (Lc : dict_lookup "company"
                 (supplement "location" location (supplement "company" company d0))
               = dict_lookup "company" (supplement "company" company d0))
    by (apply supplement_other; reflexivity).
  assert (Ll1 : dict_lookup "location" (supplement "company" company d0)
                = dict_lookup "location" model)
    by (rewrite supplement_other by reflexivity; exact Ll0).
  split.
  { unfold required_str in Ft. rewrite Lt in Ft. cbn in Ft. congruence. }
  exists row, jd_text, model.
  split; [exact R|].
  destruct (first_match_row _ _ _ R) as (Ir & Mt).
  split; [exact Ir|]. split; [exact Mt|].
  split; [exact T|]. split; [exact J|].
  unfold optional_str in Fc, Fl. rewrite Lc in Fc.
  split; split.
  - intros v Hv Ne.
    destruct (supplement_cases "company" company d0)
      as [[E _]|(c & _ & _ & O & _)].
    + rewrite E, Lc0, Hv in Fc. cbn in Fc. congruence.
    + unfold omitted in O. rewrite Lc0, Hv in O. cbn in O.
      destruct (v =? "") eqn:E; [|discriminate O].
      apply String.eqb_eq in E. contradiction.
  - intros c O Ic Rc Ne.
    pose proof (optional_column_cell "Company" df_jobs row c Ic Rc) as Hc.
    fold company in Hc.
    destruct (supplement_cases "company" company d0)
      as [[_ [F|F]]|(c' & Hc' & _ & _ & E)].
    + rewrite Hc in F. cbn in F. destruct (c =? "") eqn:E; [|discriminate F].
      apply String.eqb_eq in E. contradiction.
    + destruct F. unfold omitted in *. rewrite Lc0. exact O.
    + rewrite E, dict_lookup_set_same in Fc. cbn in Fc. congruence.
  - intros v Hv Ne.
    destruct (supplement_cases "location" location
                (supplement "company" company d0))
      as [[E _]|(c & _ & _ & O & _)].
    + rewrite E, Ll1, Hv in Fl. cbn in Fl. congruence.
    + unfold omitted in O. rewrite Ll1, Hv in O. cbn in O.
      destruct (v =? "") eqn:E; [|discriminate O].
      apply String.eqb_eq in E. contradiction.
  - intros c O Ic Rc Ne.
    pose proof (optional_column_cell "Location" df_jobs row c Ic Rc) as Hc.
    fold location in Hc.
    destruct (supplement_cases "location" location
                (supplement "company" company d0))
      as [[_ [F|F]]|(c' & Hc' & _ & _ & E)].
    + rewrite Hc in F. cbn in F. destruct (c =? "") eqn:E; [|discriminate F].
      apply String.eqb_eq in E. contradiction.
    + destruct F. unfold omitted in *. rewrite Ll1. exact O.
    + rewrite E, dict_lookup_set_same in Fl. cbn in Fl. congruence.
Qed.

Lemma parse_job_description_needs_inputs (w : World)
  (selected_job_title : option string) (df_jobs : option DataFrame)
  (jd : JobDescriptionInfo.t) :
  parse_job_description w selected_job_title df_jobs = Ok jd ->
  exists selected df, selected_job_title = Some selected /\ df_jobs = Some df.
Proof.
  unfold parse_job_description.
  destruct df_jobs as [df|]; cbn [bind try_except]; [|discriminate].
  destruct (has_column "Job Title" df); cbn [bind try_except]; [|discriminate].
  destruct (str_accessor "Job Title" df) as [[]|]; cbn [bind try_except];
    [|discriminate].
  destruct selected_job_title as [t|]; cbn [bind try_except]; [|discriminate].
  intros _. exists t, df. split; reflexivity.
Qed.

(** C7. When [process_job_description] runs on a state without error and
    returns one without error, the state holds a job record whose title
    is the selected title, made from the first row of the catalogue whose
    title is the selected one up to case and surrounding blanks.  For
    company and location: a non-empty text of the model is the record's
    value; when the model omitted the key (absent, or an empty value) and
    the catalogue has the column, with a text in it for that row, the
    text of that cell is the record's value; and a catalogue value is
    written into the model's output in no other case. *)
Theorem job_record_title_and_overlay (w : World) (state : main.AppState) :
  main.has_error state = false ->
  main.has_error (main.process_job_description w state) = false ->
  (exists selected df jd,
      main.selected_job_title state = Some selected
      /\ main.job_descriptions_df state = Some df
      /\ main.parsed_jd (main.process_job_description w state) = Some jd
      /\ job_record_contract w selected df jd)
  /\ (forall key value d,
        supplement key value d <> d ->
        omitted key d
        /\ exists c, value = Some c /\ c <> ""
                     /\ supplement key value d = dict_set key (PStr c) d).
Proof.
  intros E0 E1. split.
  - revert E1. unfold main.process_job_description. rewrite E0.
    destruct (parse_job_description w _ _) as [jd|e] eqn:P; [|discriminate].
    intros _.
    destruct (parse_job_description_needs_inputs w _ _ _ P)
      as (selected & df & Hs & Hd).
    exists selected, df, jd. split; [exact Hs|]. split; [exact Hd|].
    split; [reflexivity|].
    rewrite Hs, Hd in P. exact (parse_job_description_contract w _ _ _ P).
  - intros key value d Hd.
    destruct (supplement_cases key value d) as [[E _]|(c & Hc & Ne & O & E)].
    + contradiction.
    + split; [exact O|]. exists c. repeat split; assumption.
Qed.

(** The selected title differs from the catalogue's in case and blanks;
    the catalogue has a company for the row and the model has none, the
    model has a location and the catalogue has no such column. *)
Lemma job_record_title_and_overlay_witness :
  let w := Scenario.all_well in
  let state := after w main.parse_resume (Scenario.start " data scientist ") in
  exists jd,
    main.parsed_jd (main.process_job_description w state) = Some jd
    /\ JobDescriptionInfo.job_title jd = " data scientist "
    /\ JobDescriptionInfo.company jd = Some "Acme"
    /\ JobDescriptionInfo.location jd = Some "Pune".
Proof.
  intros w state.
  destruct (proj1 (job_record_title_and_overlay w state
                     ltac:(vm_compute; reflexivity)
                     ltac:(vm_compute; reflexivity)))
    as (selected & df & jd & S & D & P & T & row & text & model
        & R & _ & _ & X & J & (_ & Company) & (Location & _)).
  vm_compute in S. injection S as <-.
  vm_compute in D. injection D as <-.
  vm_compute in R. injection R as <-.
  vm_compute in X. injection X as <-.
  vm_compute in J. injection J as <-.
  exists jd. split; [exact P|]. split; [exact T|]. split.
  - apply Company; [exact I|cbn; tauto|reflexivity|discriminate].
  - apply Location; [reflexivity|discriminate].
Defined.

End JobRecord.

(* ================================================================== *)
(** ** What [send_email] needs *)
(* ================================================================== *)

Section Notify.

Import main email_sender.

(** Without credentials or without an address the mail function answers
    [False]. *)
Lemma send_application_email_unavailable (w : World)
  (to_email candidate_name : option string) (job_title : string)
  (score : float) (feedback : pyval) :
  truthy_str to_email = false
  \/ truthy_str (EMAIL_SENDER w) = false
  \/ truthy_str (EMAIL_PASSWORD w) = false ->
  send_application_email w to_email candidate_name job_title score feedback
  = Ok false.
Proof.
  unfold send_application_email. intros [H|[H|H]]; rewrite H; cbn.
  - destruct (negb _ || _); reflexivity.
  - reflexivity.
  - rewrite orb_true_r. reflexivity.
Qed.

(** C8. When the score, the feedback, the resume record or the address in
    it is missing, [send_candidate_email] sets [email_sent_status] to
    false and the state it returns has an error, which is the error of
    the state it was given when that had one.  [send_application_email]
    returns [False], and does not raise, when there is no address or the
    sender's credentials are not configured. *)
Theorem notify_needs_score_feedback_address (w : World) :
  (forall state : AppState,
      missing_for_notify state ->
      email_sent_status (send_candidate_email w state) = false
      /\ has_error (send_candidate_email w state) = true
      /\ (has_error state = true ->
          error_message (send_candidate_email w state) = error_message state))
  /\ (forall to_email candidate_name job_title score feedback,
        truthy_str to_email = false
        \/ truthy_str (EMAIL_SENDER w) = false
        \/ truthy_str (EMAIL_PASSWORD w) = false ->
        send_application_email w to_email candidate_name job_title score
          feedback = Ok false).
Proof.
  split; [|intros; apply send_application_email_unavailable; assumption].
  intros state M.
  assert (Skip : forall st : AppState,
             let st' := (if negb (has_error (set_email_sent_status st false))
                         then set_error_message (set_email_sent_status st false)
                                (Some "Email not sent due to missing information.")
                         else set_email_sent_status st false) in
             email_sent_status st' = false /\ has_error st' = true
             /\ (has_error st = true -> error_message st' = error_message st)).
  { intro st. change (has_error (set_email_sent_status st false))
      with (has_error st).
    destruct (has_error st) eqn:E; cbn [negb].
    - repeat split. exact E.
    - repeat split. discriminate. }
  unfold send_candidate_email.
  destruct (match_score state) as [score|] eqn:Sc; [|apply Skip].
  destruct (parsed_resume state) as [r|] eqn:Pr; [|apply Skip].
  destruct (truthy (feedback state)) eqn:Fb; cbn [negb]; [|apply Skip].
  destruct M as [M|[M|[M|(r' & M & A)]]]; try congruence.
  rewrite Pr in M. inversion M. subst r'.
  rewrite send_application_email_unavailable by (left; exact A).
  change (has_error (set_email_sent_status state false))
    with (has_error state).
  destruct (has_error state) eqn:E; cbn.
  - repeat split. exact E.
  - repeat split. discriminate.
Qed.

(** The state before [send_email] when the model answers with a null
    feedback. *)
Lemma notify_needs_score_feedback_address_witness :
  let w := Scenario.feedback_is_null in
  let state := after w save_db (Scenario.start "Data Scientist") in
  email_sent_status (send_candidate_email w state) = false
  /\ has_error (send_candidate_email w state) = true
  /\ (has_error state = true ->
      error_message (send_candidate_email w state) = error_message state).
Proof.
  intros w state.
  apply (proj1 (notify_needs_score_feedback_address w) state).
  right. left. vm_compute. reflexivity.
Defined.

End Notify.

(* ================================================================== *)
(** ** Runs in which the code departs from its contract *)
(* ================================================================== *)

Section Divergences.

Import main.

(** A state with an error goes through every node with that error kept,
    but through [send_candidate_email] when the mail function raises. *)
Lemma error_kept_unless_mail_raises (w : World) (state : AppState) :
  has_error state = true ->
  process_resume w state = state
  /\ process_job_description w state = state
  /\ perform_matching w state = state
  /\ error_message (save_to_database w state) = error_message state
  /\ ((forall r score e,
         parsed_resume state = Some r -> match_score state = Some score ->
         email_sender.send_application_email w (ResumeInfo.email r)
           (ResumeInfo.candidate_name r)
           (format_optional (selected_job_title state)) score (feedback state)
         <> Raise e) ->
      error_message (send_candidate_email w state) = error_message state).
Proof.
  intro E. split; [|split; [|split; [|split]]].
  - unfold process_resume. rewrite E. reflexivity.
  - unfold process_job_description. rewrite E. reflexivity.
  - unfold perform_matching. rewrite E.
    destruct (parsed_resume state), (parsed_jd state); reflexivity.
  - unfold save_to_database. rewrite E. destruct (match_score state); reflexivity.
  - intro NoRaise. unfold send_candidate_email.
    change (has_error (set_email_sent_status state false))
      with (has_error state).
    rewrite E. cbn [negb].
    destruct (match_score state) as [score|] eqn:Sc; [|reflexivity].
    destruct (parsed_resume state) as [r|] eqn:Pr; [|reflexivity].
    destruct (negb (truthy (feedback state))); [reflexivity|].
    destruct (email_sender.send_application_email w _ _ _ _ _) as [b|e] eqn:S.
    + change (has_error (set_email_sent_status state b))
        with (has_error state).
      rewrite E, andb_false_r. reflexivity.
    + destruct (NoRaise r score e eq_refl eq_refl S).
Qed.

(** C3. The store refuses the INSERT and the selected title runs over two
    lines: [save_db] records its error, then the mail library refuses the
    subject and the handler of [send_candidate_email] replaces the error
    that was recorded. *)
Theorem first_error_replaced_by_mail_error :
  let w := Scenario.store_fails Scenario.catalogue_with_two_line_title in
  let s0 := Scenario.start Scenario.two_line_title in
  invoke w s0 = Some (after w send_email s0)
  /\ error_message (after w matching s0) = None
  /\ error_message (after w save_db s0)
     = Some "Failed to save results to the database."
  /\ error_message (after w send_email s0)
     = Some "Email Sending Failed: Header values may not contain linefeed or carriage return characters".
Proof. vm_compute. repeat split. Qed.

(** C4. The matching request times out: [perform_matching] records no
    error, and the run goes on through [save_db] and [send_email] with
    the score 0.0. *)
Theorem failed_scoring_reaches_persist_and_notify :
  let w := Scenario.scoring_times_out in
  let s0 := Scenario.start "Data Scientist" in
  post_matching w Scenario.jd_reply Scenario.resume_reply
  = Raise (Exn Timeout "Read timed out. (read timeout=90)")
  /\ option_map executed (invoke_trace w s0) = Some all_nodes
  /\ error_message (after w matching s0) = None
  /\ match_score (after w matching s0) = Some 0%float
  /\ invoke w s0 = Some (after w send_email s0)
  /\ error_message (after w send_email s0) = None
  /\ db_save_status (after w send_email s0) = true
  /\ email_sent_status (after w send_email s0) = true.
Proof. vm_compute. repeat split. Qed.

(** [perform_matching] does not leave a feedback without a score. *)
Lemma perform_matching_feedback (w : World) (s : AppState) :
  feedback s = PNone ->
  match_score (perform_matching w s) = None ->
  feedback (perform_matching w s) = PNone.
Proof.
  intro N. unfold perform_matching.
  destruct (parsed_resume s), (parsed_jd s);
    try (destruct (negb (has_error s)); cbn; intros; exact N).
  destruct (has_error s); [intros; exact N|].
  destruct (matcher.calculate_match_and_feedback w _ _) as [[score fb]|e]; cbn.
  - discriminate.
  - reflexivity.
Qed.

(** In a run from an initial state no state holds a feedback without a
    score; a score without a feedback is what can happen. *)
Lemma feedback_only_with_score (w : World) (file_bytes name selected_job : string) :
  exists t,
    invoke_trace w (initial_state file_bytes name selected_job) = Some t
    /\ forall i n s, nth_error t i = Some (n, s) ->
         match_score s = None -> feedback s = PNone.
Proof.
  set (s0 := initial_state file_bytes name selected_job).
  rewrite invoke_trace_shape. unfold after.
  set (s1 := load_and_validate_input w s0).
  set (s2 := process_resume w s1).
  set (s3 := process_job_description w s2).
  set (s4 := perform_matching w s3).
  set (s5 := save_to_database w s4).
  set (s6 := send_candidate_email w s5).
  destruct (load_keeps w s0) as (_ & _ & _ & _ & F1 & _).
  destruct (process_resume_keeps w s1) as (_ & _ & _ & _ & F2 & _).
  destruct (process_job_description_keeps w s2) as (_ & _ & F3 & _).
  destruct (save_to_database_keeps w s4) as (_ & _ & M5 & F5 & _).
  destruct (send_candidate_email_keeps w s5) as (_ & _ & M6 & F6 & _).
  fold s1 in F1. fold s2 in F2. fold s3 in F3.
  fold s5 in M5, F5. fold s6 in M6, F6.
  assert (N3 : feedback s3 = PNone) by (rewrite F3, F2, F1; reflexivity).
  assert (R4 : match_score s4 = None -> feedback s4 = PNone)
    by exact (perform_matching_feedback w s3 N3).
  destruct (has_error s1);
    [|destruct (has_error s2);
      [|destruct (has_error s3); [|destruct (has_error s4)]]];
    (eexists; split; [reflexivity|]);
    intros i n s H Hx; positions i H; inversion H; subst n s; clear H;
    try (rewrite ?F3, ?F2, ?F1; reflexivity);
    try (apply R4; exact Hx).
  - rewrite F5. apply R4. rewrite <- M5. exact Hx.
  - rewrite F6, F5. apply R4. rewrite <- M5, <- M6. exact Hx.
Qed.

(** C9. The model answers with a score and a null feedback:
    [perform_matching] returns a state with the score set and the
    feedback absent, and the run ends in such a state. *)
Theorem score_set_and_feedback_absent :
  let w := Scenario.feedback_is_null in
  let s0 := Scenario.start "Data Scientist" in
  json_loads w Scenario.null_feedback_reply
  = Some (PDict [("match_score", PInt 80); ("feedback", PNone)])
  /\ match_score (after w matching s0) = Some 80%float
  /\ feedback (after w matching s0) = PNone
  /\ invoke w s0 = Some (after w send_email s0)
  /\ match_score (after w send_email s0) = Some 80%float
  /\ feedback (after w send_email s0) = PNone
  /\ db_save_status (after w send_email s0) = true.
Proof. vm_compute. repeat split. Qed.

End Divergences.

(* ================================================================== *)
(** ** Strings: splitting, stripping, lower case *)
(* ================================================================== *)

Section Strings.

Lemma append_assoc (a b c : string) : (a ++ b) ++ c = a ++ (b ++ c).
Proof. induction a as [|x a IH]; cbn; [reflexivity|]. rewrite IH. reflexivity. Qed.

Lemma append_empty_r (a : string) : a ++ "" = a.
Proof. induction a as [|x a IH]; cbn; [reflexivity|]. rewrite IH. reflexivity. Qed.

Lemma is_prefix_drop (p s : string) :
  is_prefix p s = true -> s = p ++ drop (String.length p) s.
Proof.
  revert s. induction p as [|a p IH]; intros s H; cbn in *.
  - reflexivity.
  - destruct s as [|b s]; [discriminate|].
    apply andb_true_iff in H. destruct H as [E H].
    apply Ascii.eqb_eq in E. subst b. cbn. f_equal. exact (IH s H).
Qed.

Lemma is_prefix_append (p s : string) : is_prefix p (p ++ s) = true.
Proof.
  induction p as [|a p IH]; cbn; [reflexivity|].
  rewrite Ascii.eqb_refl. exact IH.
Qed.

Lemma is_prefix_extend (p x y : string) :
  is_prefix p x = true -> is_prefix p (x ++ y) = true.
Proof.
  revert x. induction p as [|a p IH]; intros x H; cbn in *; [reflexivity|].
  destruct x as [|b x]; [discriminate|]. cbn.
  apply andb_true_iff in H. destruct H as [E H]. rewrite E. cbn.
  exact (IH x H).
Qed.

(** What [split_once] returns puts the text back together. *)
Lemma split_once_eq (sep s before after : string) :
  split_once sep s = Some (before, after) -> s = before ++ sep ++ after.
Proof.
  revert before. induction s as [|c s IH]; intros before; cbn.
  - destruct (is_prefix sep "") eqn:P; [|discriminate].
    intro H. inversion H. subst. cbn. exact (is_prefix_drop _ _ P).
  - destruct (is_prefix sep (String c s)) eqn:P.
    + intro H. inversion H. subst. cbn. exact (is_prefix_drop _ _ P).
    + destruct (split_once sep s) as [[b a]|]; [|discriminate].
      intro H. inversion H. subst. cbn. f_equal. apply IH. reflexivity.
Qed.

Lemma split_once_found (sep a b : string) :
  exists before after, split_once sep (a ++ sep ++ b) = Some (before, after).
Proof.
  induction a as [|c a IH]; cbn [append].
  - destruct (sep ++ b) as [|x t] eqn:E; cbn [split_once];
      rewrite <- E, is_prefix_append; eauto.
  - cbn [split_once]. destruct (is_prefix sep _); [eauto|].
    destruct IH as (before & after & ->). eauto.
Qed.

(** [sep in s] holds exactly when [s] has [sep] somewhere inside. *)
Lemma str_contains_iff (sep s : string) :
  str_contains sep s = true <-> exists a b, s = a ++ sep ++ b.
Proof.
  unfold str_contains. split.
  - destruct (split_once sep s) as [[a b]|] eqn:E; [|discriminate].
    intros _. exists a, b. exact (split_once_eq _ _ _ _ E).
  - intros (a & b & ->).
    destruct (split_once_found sep a b) as (x & y & ->). reflexivity.
Qed.

Lemma str_contains_inside (sep p x q : string) :
  str_contains sep x = true -> str_contains sep (p ++ x ++ q) = true.
Proof.
  rewrite !str_contains_iff. intros (a & b & ->).
  exists (p ++ a), (b ++ q). rewrite !append_assoc. reflexivity.
Qed.

(** The piece before the first separator holds no separator. *)
Lemma split_0_clean (sep s : string) :
  sep <> "" -> str_contains sep (split_0 sep s) = false.
Proof.
  intro N. unfold split_0, str_contains.
  induction s as [|c s IH]; cbn [split_once].
  - destruct sep; [contradiction|]. reflexivity.
  - destruct (is_prefix sep (String c s)) eqn:P.
    + destruct sep; [contradiction|]. reflexivity.
    + destruct (split_once sep s) as [[b a]|] eqn:E.
      * cbn [split_once].
        destruct (is_prefix sep (String c b)) eqn:Q.
        { apply (is_prefix_extend _ _ (sep ++ a)) in Q.
          cbn [append] in Q. rewrite <- (split_once_eq _ _ _ _ E) in Q.
          congruence. }
        destruct (split_once sep b) as [[x y]|]; [discriminate IH|reflexivity].
      * cbn [split_once]. rewrite P, E. reflexivity.
Qed.

Lemma lstrip_suffix (s : string) : exists p, s = p ++ lstrip s.
Proof.
  induction s as [|c s (p & IH)]; cbn.
  - exists "". reflexivity.
  - destruct (is_space c).
    + exists (String c p). cbn. f_equal. exact IH.
    + exists "". reflexivity.
Qed.

Lemma rstrip_prefix (s : string) : exists q, s = rstrip s ++ q.
Proof.
  induction s as [|c s (q & IH)]; cbn.
  - exists "". reflexivity.
  - destruct (rstrip s) as [|d r] eqn:E.
    + destruct (is_space c).
      * exists (String c s). reflexivity.
      * exists s. reflexivity.
    + exists q. cbn. f_equal. exact IH.
Qed.

(** Stripping does not create an occurrence. *)
Lemma strip_contains (sep s : string) :
  str_contains sep (strip s) = true -> str_contains sep s = true.
Proof.
  intro H. unfold strip in H.
  destruct (lstrip_suffix s) as (p & Ep).
  destruct (rstrip_prefix (lstrip s)) as (q & Eq).
  rewrite Ep, Eq. apply str_contains_inside. exact H.
Qed.

Lemma rstrip_idempotent (s : string) : rstrip (rstrip s) = rstrip s.
Proof.
  induction s as [|c s IH]; cbn; [reflexivity|].
  destruct (rstrip s) as [|d r] eqn:E.
  - destruct (is_space c) eqn:S; cbn; [reflexivity|]. rewrite S. reflexivity.
  - cbn [rstrip] in *. rewrite IH. reflexivity.
Qed.

(** [rstrip] keeps a first character that is not whitespace. *)
Lemma rstrip_head (c : ascii) (s : string) :
  is_space c = false -> exists r, rstrip (String c s) = String c r.
Proof.
  intro S. cbn. destruct (rstrip s); rewrite ?S; eauto.
Qed.

Lemma lstrip_head (s : string) :
  lstrip s = "" \/ exists c r, lstrip s = String c r /\ is_space c = false.
Proof.
  induction s as [|c s IH]; cbn; [left; reflexivity|].
  destruct (is_space c) eqn:S; [exact IH|]. right. eauto.
Qed.

Lemma lstrip_strip (s : string) : lstrip (strip s) = strip s.
Proof.
  unfold strip. destruct (lstrip_head s) as [->|(c & r & -> & S)].
  - reflexivity.
  - destruct (rstrip_head c r S) as (r' & ->). cbn. rewrite S. reflexivity.
Qed.

Lemma strip_idempotent (s : string) : strip (strip s) = strip s.
Proof.
  unfold strip at 1. rewrite lstrip_strip. unfold strip.
  apply rstrip_idempotent.
Qed.

Lemma lower_char_idempotent (c : ascii) :
  lower_char (lower_char c) = lower_char c.
Proof. destruct c as [[] [] [] [] [] [] [] []]; reflexivity. Qed.

Lemma is_space_lower_char (c : ascii) : is_space (lower_char c) = is_space c.
Proof. destruct c as [[] [] [] [] [] [] [] []]; reflexivity. Qed.

Lemma lower_idempotent (s : string) : lower (lower s) = lower s.
Proof.
  induction s as [|c s IH]; cbn; [reflexivity|].
  rewrite lower_char_idempotent, IH. reflexivity.
Qed.

Lemma lstrip_lower (s : string) : lstrip (lower s) = lower (lstrip s).
Proof.
  induction s as [|c s IH]; cbn; [reflexivity|].
  rewrite is_space_lower_char. destruct (is_space c); [exact IH|reflexivity].
Qed.

Lemma rstrip_lower (s : string) : rstrip (lower s) = lower (rstrip s).
Proof.
  induction s as [|c s IH]; cbn; [reflexivity|].
  rewrite IH, is_space_lower_char.
  destruct (rstrip s); cbn; [destruct (is_space c)|]; reflexivity.
Qed.

Lemma strip_lower (s : string) : strip (lower s) = lower (strip s).
Proof. unfold strip. rewrite lstrip_lower, rstrip_lower. reflexivity. Qed.

End Strings.

(* ================================================================== *)
(** ** Reading the model's reply: fences and empty answers *)
(* ================================================================== *)

Section Replies.

(** X1. When the reply has a [```json] fence, the text taken out of it is
    the piece between the first such fence and the next [```], stripped:
    it holds no fence, stripping it again changes nothing, and the lookup
    does not raise. *)
Theorem fenced_json_is_clean (message_content : string) :
  str_contains "```json" message_content = true ->
  exists before after,
    message_content = before ++ "```json" ++ after
    /\ str_contains "```json" before = false
    /\ extract_markdown_json message_content
       = Ok (strip (split_0 "```" (split_0 "```json" after)))
    /\ str_contains "```"
         (strip (split_0 "```" (split_0 "```json" after))) = false
    /\ strip (strip (split_0 "```" (split_0 "```json" after)))
       = strip (split_0 "```" (split_0 "```json" after)).
Proof.
  intro H. unfold str_contains in H.
  destruct (split_once "```json" message_content) as [[before after]|] eqn:E;
    [|discriminate H].
  exists before, after.
  split; [exact (split_once_eq _ _ _ _ E)|].
  split.
  { pose proof (split_0_clean "```json" message_content) as C.
    unfold split_0 in C. rewrite E in C. apply C. discriminate. }
  split.
  { unfold extract_markdown_json, split_1. rewrite E. reflexivity. }
  split.
  - destruct (str_contains "```" (strip _)) eqn:S; [|reflexivity].
    apply strip_contains in S.
    rewrite split_0_clean in S by discriminate. discriminate S.
  - apply strip_idempotent.
Qed.

Lemma fenced_json_is_clean_witness :
  exists before after,
    "Here you go: ```json {} ``` Bye" = before ++ "```json" ++ after
    /\ str_contains "```json" before = false
    /\ extract_markdown_json "Here you go: ```json {} ``` Bye"
       = Ok (strip (split_0 "```" (split_0 "```json" after)))
    /\ str_contains "```"
         (strip (split_0 "```" (split_0 "```json" after))) = false
    /\ strip (strip (split_0 "```" (split_0 "```json" after)))
       = strip (split_0 "```" (split_0 "```json" after)).
Proof.
  apply (fenced_json_is_clean "Here you go: ```json {} ``` Bye").
  reflexivity.
Defined.

(** The text [deepseek_json_text] returns is the empty object or one that
    [json.loads] reads. *)
Lemma deepseek_json_text_parses (w : World) (post : result pyval) :
  deepseek_json_text w post = "{}"
  \/ exists v, json_loads w (deepseek_json_text w post) = Some v.
Proof.
  unfold deepseek_json_text.
  destruct post as [rd|]; cbn [bind]; [|left; reflexivity].
  destruct (first_choice_content rd) as [[c|]|]; cbn [bind];
    try (left; reflexivity).
  destruct c; cbn; try (left; reflexivity).
  destruct (json_loads w s) as [v|] eqn:J.
  - right. exists v. exact J.
  - destruct (str_contains "```json" s); [|left; reflexivity].
    destruct (extract_markdown_json s) as [x|]; cbn [bind];
      [|left; reflexivity].
    destruct (json_loads w x) as [v|] eqn:Jx; cbn; [|left; reflexivity].
    right. exists v. exact Jx.
Qed.

(** An answer that carries no text is the empty object: no [choices], an
    empty list of them, a first choice without [message] or without
    [content], or a content that is not a string. *)
Lemma deepseek_json_text_no_content (w : World) (d : list (string * pyval)) :
  (dict_lookup "choices" d = None
   \/ dict_lookup "choices" d = Some (PList [])
   \/ (exists c rest,
         dict_lookup "choices" d = Some (PList (PDict c :: rest))
         /\ (dict_lookup "message" c = None
             \/ exists m, dict_lookup "message" c = Some (PDict m)
                          /\ (dict_lookup "content" m = None
                              \/ exists v, dict_lookup "content" m = Some v
                                           /\ forall s, v <> PStr s)))) ->
  deepseek_json_text w (Ok (PDict d)) = "{}".
Proof.
  unfold deepseek_json_text, first_choice_content. cbn [bind py_contains].
  unfold dict_contains. cbn [py_getitem].
  intros [H|[H|(c & rest & H & M)]]; rewrite H; cbn; try reflexivity.
  destruct M as [M|(m & M & [C|(v & C & V)])]; rewrite M; cbn.
  - destruct (json_loads w "{}"); reflexivity.
  - rewrite C. cbn. destruct (json_loads w "{}"); reflexivity.
  - rewrite C. cbn. destruct v; try reflexivity. destruct (V s). reflexivity.
Qed.

(** X2. The text handed back by the two parsing calls is always either
    the empty object or a text [json.loads] accepts; it is the empty
    object when no API key is set, when the request raises, and when the
    answer carries no text. *)
Theorem parsing_calls_return_json (w : World) (text job_title : string) :
  (resume_parser.call_deepseek_for_resume_parsing w text = "{}"
   \/ exists v, json_loads w
                  (resume_parser.call_deepseek_for_resume_parsing w text)
                = Some v)
  /\ (jd_parser.call_deepseek_for_jd_parsing w text job_title = "{}"
      \/ exists v, json_loads w
                     (jd_parser.call_deepseek_for_jd_parsing w text job_title)
                   = Some v)
  /\ (truthy_str (DEEPSEEK_API_KEY w) = false ->
      resume_parser.call_deepseek_for_resume_parsing w text = "{}"
      /\ jd_parser.call_deepseek_for_jd_parsing w text job_title = "{}")
  /\ (forall e, post_jd_parsing w text job_title = Raise e ->
        jd_parser.call_deepseek_for_jd_parsing w text job_title = "{}")
  /\ (forall e, post_resume_parsing w text = Raise e ->
        resume_parser.call_deepseek_for_resume_parsing w text = "{}")
  /\ (forall d, post_jd_parsing w text job_title = Ok (PDict d) ->
        dict_lookup "choices" d = None
        \/ dict_lookup "choices" d = Some (PList []) ->
        jd_parser.call_deepseek_for_jd_parsing w text job_title = "{}")
  /\ (forall d, post_resume_parsing w text = Ok (PDict d) ->
        dict_lookup "choices" d = None
        \/ dict_lookup "choices" d = Some (PList []) ->
        resume_parser.call_deepseek_for_resume_parsing w text = "{}").
Proof.
  unfold resume_parser.call_deepseek_for_resume_parsing,
    jd_parser.call_deepseek_for_jd_parsing.
  repeat split.
  - destruct (negb _); [left; reflexivity|apply deepseek_json_text_parses].
  - destruct (negb _); [left; reflexivity|apply deepseek_json_text_parses].
  - rewrite H. reflexivity.
  - rewrite H. reflexivity.
  - intros e H. destruct (negb _); [reflexivity|]. rewrite H. reflexivity.
  - intros e H. destruct (negb _); [reflexivity|]. rewrite H. reflexivity.
  - intros d H C. destruct (negb _); [reflexivity|]. rewrite H.
    apply deepseek_json_text_no_content. tauto.
  - intros d H C. destruct (negb _); [reflexivity|]. rewrite H.
    apply deepseek_json_text_no_content. tauto.
Qed.

(** Without an API key both calls answer with the empty object. *)
Lemma parsing_calls_return_json_witness :
  let w := Vary.without_api_key Scenario.all_well in
  resume_parser.call_deepseek_for_resume_parsing w "Asha Rao" = "{}"
  /\ jd_parser.call_deepseek_for_jd_parsing w "Asha Rao"
       "Data Scientist" = "{}".
Proof.
  intro w.
  apply (proj1 (proj2 (proj2
           (parsing_calls_return_json w "Asha Rao" "Data Scientist")))).
  reflexivity.
Defined.

End Replies.

(* ================================================================== *)
(** ** Finding the job and reading the resume *)
(* ================================================================== *)

Section Extraction.

Import main.

(** X3. The comparison of titles ignores case and surrounding blanks of
    the selected title; a row always matches its own title, so a title
    taken from the catalogue is found; a row without a title matches
    nothing. *)
Theorem title_matching_normalises (selected : string)
  (row : list (string * cell)) :
  jd_parser.title_matches (strip selected) row
  = jd_parser.title_matches selected row
  /\ jd_parser.title_matches (lower selected) row
     = jd_parser.title_matches selected row
  /\ (forall other, lower (strip other) = lower (strip selected) ->
        jd_parser.title_matches other row
        = jd_parser.title_matches selected row)
  /\ (row_cell "Job Title" row = Some selected ->
      jd_parser.title_matches selected row = true
      /\ forall df, In row (rows df) ->
           filter (jd_parser.title_matches selected) (rows df) <> [])
  /\ (row_cell "Job Title" row = None ->
      jd_parser.title_matches selected row = false).
Proof.
  repeat split.
  - unfold jd_parser.title_matches. rewrite strip_idempotent. reflexivity.
  - unfold jd_parser.title_matches.
    rewrite strip_lower, lower_idempotent. reflexivity.
  - intros other E. unfold jd_parser.title_matches. rewrite E. reflexivity.
  - unfold jd_parser.title_matches. rewrite H. apply String.eqb_refl.
  - intros df I F.
    assert (M : In row (filter (jd_parser.title_matches selected) (rows df))).
    { apply filter_In. split; [exact I|].
      unfold jd_parser.title_matches. rewrite H. apply String.eqb_refl. }
    rewrite F in M. exact M.
  - intro N. unfold jd_parser.title_matches. rewrite N. reflexivity.
Qed.

Lemma title_matching_normalises_witness :
  let row := [("Job Title", Some "Data Scientist");
              ("Job Description", Some "Build and ship models.");
              ("Company", Some "Acme")] in
  jd_parser.title_matches "Data Scientist" row = true
  /\ forall df, In row (rows df) ->
       filter (jd_parser.title_matches "Data Scientist") (rows df) <> [].
Proof.
  intro row.
  apply (proj1 (proj2 (proj2 (proj2
           (title_matching_normalises "Data Scientist" row))))).
  reflexivity.
Defined.

Lemma is_prefix_opening (a b c d : string) :
  is_prefix (a ++ b ++ c) (a ++ b ++ c ++ d) = true.
Proof.
  replace (a ++ b ++ c ++ d) with ((a ++ b ++ c) ++ d)
    by (rewrite !append_assoc; reflexivity).
  apply is_prefix_append.
Qed.

(** X4. Whatever goes wrong in [parse_resume_file] or in
    [parse_job_description] comes out as a [RuntimeError] whose text
    opens with the name of the file, or the title, that was being read. *)
Theorem parse_failures_are_wrapped (w : World) :
  (forall uploaded_file filename e,
      resume_parser.parse_resume_file w uploaded_file filename = Raise e ->
      exn_cls e = RuntimeError
      /\ is_prefix ("Failed to parse resume '" ++ format_optional filename
                    ++ "': ") (exn_msg e) = true)
  /\ (forall selected_job_title df_jobs e,
        jd_parser.parse_job_description w selected_job_title df_jobs
        = Raise e ->
        exn_cls e = RuntimeError
        /\ is_prefix ("Failed to parse job description '"
                      ++ format_optional selected_job_title ++ "': ")
             (exn_msg e) = true).
Proof.
  split.
  - intros f n e. unfold resume_parser.parse_resume_file.
    match goal with |- try_except ?b _ = _ -> _ => destruct b as [r|e0] end;
      cbn [try_except]; [discriminate|].
    intro H. injection H as <-. cbn [exn_cls exn_msg].
    split; [reflexivity|].
    exact (is_prefix_opening "Failed to parse resume '" (format_optional n)
             "': " (exn_msg e0)).
  - intros t d e. unfold jd_parser.parse_job_description.
    match goal with |- try_except ?b _ = _ -> _ => destruct b as [r|e0] end;
      cbn [try_except]; [discriminate|].
    intro H. injection H as <-. cbn [exn_cls exn_msg].
    split; [reflexivity|].
    exact (is_prefix_opening "Failed to parse job description '"
             (format_optional t) "': " (exn_msg e0)).
Qed.

Lemma parse_failures_are_wrapped_witness :
  let e := Exn RuntimeError
             "Failed to parse resume 'photo.png': Unsupported file type: photo.png. Please upload PDF, DOCX, or TXT." in
  exn_cls e = RuntimeError
  /\ is_prefix ("Failed to parse resume '" ++ format_optional (Some "photo.png")
                ++ "': ") (exn_msg e) = true.
Proof.
  intro e.
  apply (proj1 (parse_failures_are_wrapped Scenario.all_well)
           "bytes" (Some "photo.png") e).
  vm_compute. reflexivity.
Defined.

Lemma all_space_append (a b : string) :
  all_space (a ++ b) = all_space a && all_space b.
Proof.
  induction a as [|c a IH]; cbn; [reflexivity|].
  rewrite IH, andb_assoc. reflexivity.
Qed.

Lemma blank_text (text : string) :
  all_space text = true -> (text =? "") || isspace text = true.
Proof.
  intro H. unfold isspace. rewrite H.
  destruct (text =? ""); reflexivity.
Qed.

Lemma pdf_text_empty (pages : list (option string)) :
  (forall p, In p pages -> truthy_str p = false) ->
  resume_parser.pdf_text pages = "".
Proof.
  induction pages as [|p pages IH]; intro H; cbn; [reflexivity|].
  rewrite (H p (or_introl eq_refl)). cbn.
  apply IH. intros q I. apply H. right. exact I.
Qed.

Lemma docx_text_blank (paragraphs : list string) :
  (forall p, In p paragraphs -> all_space p = true) ->
  all_space (resume_parser.docx_text paragraphs) = true.
Proof.
  induction paragraphs as [|p ps IH]; intro H; cbn; [reflexivity|].
  rewrite all_space_append, (H p (or_introl eq_refl)). cbn.
  apply IH. intros q I. apply H. right. exact I.
Qed.

(** X5. [parse_resume_file] refuses a file whose name ends in none of
    .pdf, .docx and .txt (in any case), and it refuses a file that yields
    no text: a PDF whose pages have none, a DOCX whose paragraphs are all
    blank, a text file that is blank.  This holds whatever the language
    model would have answered. *)
Theorem unreadable_resume_is_refused (w : World) (uploaded_file name : string) :
  let refused reason :=
    resume_parser.parse_resume_file w uploaded_file (Some name)
    = Raise (Exn RuntimeError
               ("Failed to parse resume '" ++ name ++ "': " ++ reason)) in
  let no_text := "Could not extract text from file or file is empty." in
  (endswith (lower name) ".pdf" = false ->
   endswith (lower name) ".docx" = false ->
   endswith (lower name) ".txt" = false ->
   refused ("Unsupported file type: " ++ name
            ++ ". Please upload PDF, DOCX, or TXT."))
  /\ (endswith (lower name) ".pdf" = true ->
      forall pages, pdf_pages_text w uploaded_file = Ok pages ->
        (forall p, In p pages -> truthy_str p = false) ->
        refused no_text)
  /\ (endswith (lower name) ".pdf" = false ->
      endswith (lower name) ".docx" = true ->
      forall paragraphs, docx_paragraphs_text w uploaded_file = Ok paragraphs ->
        (forall p, In p paragraphs -> all_space p = true) ->
        refused no_text)
  /\ (endswith (lower name) ".pdf" = false ->
      endswith (lower name) ".docx" = false ->
      endswith (lower name) ".txt" = true ->
      all_space (decode_utf8_ignore w uploaded_file) = true ->
      refused no_text).
Proof.
  intros refused no_text. unfold refused, resume_parser.parse_resume_file.
  cbn [bind]. repeat split.
  - intros P D T. rewrite P, D, T. reflexivity.
  - intros P pages R E. rewrite P, R. cbn [bind].
    rewrite (pdf_text_empty pages E). reflexivity.
  - intros P D paragraphs R E. rewrite P, D, R. cbn [bind].
    rewrite (blank_text _ (docx_text_blank paragraphs E)). reflexivity.
  - intros P D T E. rewrite P, D, T. cbn [bind].
    rewrite (blank_text _ E). reflexivity.
Qed.

(** A scan: a PDF with two pages and no text on either. *)
Lemma unreadable_resume_is_refused_witness :
  let w := Vary.with_pdf_pages (Ok [None; Some ""]) Scenario.all_well in
  resume_parser.parse_resume_file w "%PDF-1.7" (Some "Scan.PDF")
  = Raise (Exn RuntimeError
             ("Failed to parse resume '" ++ "Scan.PDF" ++ "': "
              ++ "Could not extract text from file or file is empty.")).
Proof.
  intro w.
  apply (proj1 (proj2 (unreadable_resume_is_refused w "%PDF-1.7" "Scan.PDF"))
           eq_refl [None; Some ""] eq_refl).
  intros p [<-|[<-|[]]]; reflexivity.
Defined.

End Extraction.

(* ================================================================== *)
(** ** Storing and mailing *)
(* ================================================================== *)

Section StoreAndMail.

Import main.

(** A [True] from [save_match_results] means the row went in. *)
Lemma save_match_results_saved (w : World)
  (resume_info : option ResumeInfo.t) (jd_info : option JobDescriptionInfo.t)
  (match_score : float) (feedback : pyval) :
  database.save_match_results w resume_info jd_info match_score feedback
  = Ok true ->
  exists r j rj jj,
    resume_info = Some r /\ jd_info = Some j
    /\ sqlite_connect w = Ok tt
    /\ resume_json w r = Ok rj /\ jd_json w j = Ok jj
    /\ sqlite_insert w
         {| row_candidate_name := ResumeInfo.candidate_name r;
            row_candidate_email := ResumeInfo.email r;
            row_applied_job_title := JobDescriptionInfo.job_title j;
            row_match_score := match_score;
            row_feedback := feedback;
            row_resume_data := rj;
            row_jd_data := jj |} = Ok tt.
Proof.
  unfold database.save_match_results.
  destruct (sqlite_connect w) as [[]|e0] eqn:C; cbn [bind try_except];
    [|destruct (is_sqlite_error e0); discriminate].
  destruct resume_info as [r|]; cbn [bind try_except]; [|discriminate].
  destruct (resume_json w r) as [rj|e0] eqn:R; cbn [bind try_except];
    [|destruct (is_sqlite_error e0); discriminate].
  destruct jd_info as [j|]; cbn [bind try_except]; [|discriminate].
  destruct (jd_json w j) as [jj|e0] eqn:J; cbn [bind try_except];
    [|destruct (is_sqlite_error e0); discriminate].
  destruct (sqlite_insert w _) as [[]|e0] eqn:I; cbn [bind try_except];
    [|destruct (is_sqlite_error e0); discriminate].
  intros _. exists r, j, rj, jj. repeat split; assumption.
Qed.

(** X6. [save_match_results] turns every sqlite error into [False] and
    lets no sqlite error out; it returns [True] only after the INSERT of
    a row made of the candidate's name and address, the job's title, the
    score, the feedback and the two serialised records went through.  A
    connection that fails with a sqlite error gives [False] even when a
    record is missing. *)
Theorem save_match_results_outcomes (w : World)
  (resume_info : option ResumeInfo.t) (jd_info : option JobDescriptionInfo.t)
  (match_score : float) (feedback : pyval) :
  let outcome :=
    database.save_match_results w resume_info jd_info match_score feedback in
  (forall e, outcome = Raise e -> is_sqlite_error e = false)
  /\ (outcome = Ok true ->
      exists r j rj jj,
        resume_info = Some r /\ jd_info = Some j
        /\ sqlite_connect w = Ok tt
        /\ resume_json w r = Ok rj /\ jd_json w j = Ok jj
        /\ sqlite_insert w
             {| row_candidate_name := ResumeInfo.candidate_name r;
                row_candidate_email := ResumeInfo.email r;
                row_applied_job_title := JobDescriptionInfo.job_title j;
                row_match_score := match_score;
                row_feedback := feedback;
                row_resume_data := rj;
                row_jd_data := jj |} = Ok tt)
  /\ (forall e, sqlite_connect w = Raise e -> is_sqlite_error e = true ->
        outcome = Ok false)
  /\ (forall r j rj jj e,
        resume_info = Some r -> jd_info = Some j ->
        sqlite_connect w = Ok tt ->
        resume_json w r = Ok rj -> jd_json w j = Ok jj ->
        sqlite_insert w
          {| row_candidate_name := ResumeInfo.candidate_name r;
             row_candidate_email := ResumeInfo.email r;
             row_applied_job_title := JobDescriptionInfo.job_title j;
             row_match_score := match_score;
             row_feedback := feedback;
             row_resume_data := rj;
             row_jd_data := jj |} = Raise e ->
        is_sqlite_error e = true ->
        outcome = Ok false).
Proof.
  intro outcome. unfold outcome, database.save_match_results.
  repeat split.
  - intro e.
    match goal with |- try_except ?b _ = _ -> _ => destruct b as [x|e0] end;
      cbn [try_except]; [discriminate|].
    destruct (is_sqlite_error e0) eqn:S; [discriminate|].
    intro H. injection H as <-. exact S.
  - apply save_match_results_saved.
  - intros e C S. rewrite C. cbn [bind try_except]. rewrite S. reflexivity.
  - intros r j rj jj e -> -> C R J I S. rewrite C. cbn [bind].
    rewrite R. cbn [bind]. rewrite J. cbn [bind]. rewrite I.
    cbn [bind try_except]. rewrite S. reflexivity.
Qed.

(** The database is locked when the connection is opened; no resume
    record is at hand. *)
Lemma save_match_results_outcomes_witness :
  let w := Vary.with_sqlite_connect
             (Raise (Exn SqliteError "database is locked")) Scenario.all_well in
  database.save_match_results w None None 80%float (PStr "Good.") = Ok false.
Proof.
  intro w.
  apply (proj1 (proj2 (proj2
           (save_match_results_outcomes w None None 80%float (PStr "Good."))))
           (Exn SqliteError "database is locked")); reflexivity.
Defined.

(** X7. [save_to_database] reports [db_save_status] true only for a state
    that has a score, both records and no error, and only after the
    INSERT of that score and feedback went through; the state it returns
    then has no error. *)
Theorem db_save_status_is_truthful (w : World) (state : AppState) :
  db_save_status (save_to_database w state) = true ->
  has_error state = false
  /\ error_message (save_to_database w state) = None
  /\ exists score r j rj jj,
       match_score state = Some score
       /\ parsed_resume state = Some r /\ parsed_jd state = Some j
       /\ resume_json w r = Ok rj /\ jd_json w j = Ok jj
       /\ sqlite_insert w
            {| row_candidate_name := ResumeInfo.candidate_name r;
               row_candidate_email := ResumeInfo.email r;
               row_applied_job_title := JobDescriptionInfo.job_title j;
               row_match_score := score;
               row_feedback := feedback state;
               row_resume_data := rj;
               row_jd_data := jj |} = Ok tt.
Proof.
  unfold save_to_database.
  destruct (match_score state) as [score|]; [|discriminate].
  destruct (has_error state) eqn:E; [discriminate|].
  destruct (database.save_match_results w _ _ score _) as [[|]|e] eqn:S;
    cbn [negb].
  - intros _. split; [reflexivity|]. split; [reflexivity|].
    destruct (save_match_results_saved w _ _ _ _ S)
      as (r & j & rj & jj & Hr & Hj & _ & Rj & Jj & I).
    exists score, r, j, rj, jj. repeat split; assumption.
  - change (has_error (set_db_save_status state false)) with (has_error state).
    rewrite E. discriminate.
  - discriminate.
Qed.

Lemma db_save_status_is_truthful_witness :
  let w := Scenario.all_well in
  let state := after w matching (Scenario.start "Data Scientist") in
  has_error state = false
  /\ error_message (save_to_database w state) = None
  /\ exists score r j rj jj,
       match_score state = Some score
       /\ parsed_resume state = Some r /\ parsed_jd state = Some j
       /\ resume_json w r = Ok rj /\ jd_json w j = Ok jj
       /\ sqlite_insert w
            {| row_candidate_name := ResumeInfo.candidate_name r;
               row_candidate_email := ResumeInfo.email r;
               row_applied_job_title := JobDescriptionInfo.job_title j;
               row_match_score := score;
               row_feedback := feedback state;
               row_resume_data := rj;
               row_jd_data := jj |} = Ok tt.
Proof.
  intros w state. apply (db_save_status_is_truthful w state).
  vm_compute. reflexivity.
Defined.

(** The state [send_candidate_email] returns when it sends nothing. *)
Lemma mail_skipped (state : AppState) :
  let state' :=
    if negb (has_error state)
    then set_error_message (set_email_sent_status state false)
           (Some "Email not sent due to missing information.")
    else set_email_sent_status state false in
  email_sent_status state' = false /\ has_error state' = true.
Proof.
  destruct (has_error state) eqn:E; cbn [negb]; split; try reflexivity.
  exact E.
Qed.

(** A [True] from [send_application_email] means the SMTP session for the
    message chosen by the score went through. *)
Lemma send_application_email_sent (w : World)
  (to_email candidate_name : option string) (job_title : string)
  (match_score : float) (feedback : pyval) :
  email_sender.send_application_email w to_email candidate_name job_title
    match_score feedback = Ok true ->
  truthy_str (EMAIL_SENDER w) = true
  /\ truthy_str (EMAIL_PASSWORD w) = true
  /\ truthy_str to_email = true
  /\ smtp_session w
       (fst (email_sender.email_content w candidate_name job_title
               match_score feedback))
       (text_of (EMAIL_SENDER w)) (text_of to_email)
       (snd (email_sender.email_content w candidate_name job_title
               match_score feedback)) = Ok tt.
Proof.
  unfold email_sender.send_application_email.
  destruct (truthy_str (EMAIL_SENDER w)); cbn [negb orb]; [|discriminate].
  destruct (truthy_str (EMAIL_PASSWORD w)); cbn [negb orb]; [|discriminate].
  destruct (truthy_str to_email); cbn [negb]; [|discriminate].
  destruct (email_sender.email_content w candidate_name job_title
              match_score feedback) as [subject body].
  cbn [fst snd].
  destruct (EmailMessage_build w subject _ _ body) as [[]|e0]; cbn [bind];
    [|discriminate].
  destruct (smtp_session w subject _ _ body) as [[]|e1];
    cbn [bind try_except]; [|discriminate].
  repeat split.
Qed.

(** What [send_candidate_email] returns when it reports the mail sent. *)
Lemma mail_sent_inversion (w : World) (state : AppState) :
  email_sent_status (send_candidate_email w state) = true ->
  error_message (send_candidate_email w state) = error_message state
  /\ truthy (feedback state) = true
  /\ truthy_str (EMAIL_SENDER w) = true
  /\ truthy_str (EMAIL_PASSWORD w) = true
  /\ exists score r,
       match_score state = Some score /\ parsed_resume state = Some r
       /\ truthy_str (ResumeInfo.email r) = true
       /\ let content :=
            email_sender.email_content w (ResumeInfo.candidate_name r)
              (format_optional (selected_job_title state)) score
              (feedback state) in
          smtp_session w (fst content) (text_of (EMAIL_SENDER w))
            (text_of (ResumeInfo.email r)) (snd content) = Ok tt.
Proof.
  unfold send_candidate_email.
  change (has_error (set_email_sent_status state false)) with (has_error state).
  destruct (match_score state) as [score|];
    [|destruct (has_error state); discriminate].
  destruct (parsed_resume state) as [r|];
    [|destruct (has_error state); discriminate].
  destruct (truthy (feedback state)) eqn:F; cbn [negb];
    [|destruct (has_error state); discriminate].
  destruct (email_sender.send_application_email w _ _ _ _ _) as [b|e] eqn:S;
    [|discriminate].
  change (has_error (set_email_sent_status state b)) with (has_error state).
  destruct b; cbn [negb andb]; [|destruct (has_error state); discriminate].
  intros _.
  destruct (send_application_email_sent w _ _ _ _ _ S) as (Se & Pw & To & Sess).
  split; [reflexivity|]. split; [reflexivity|].
  split; [exact Se|]. split; [exact Pw|].
  exists score, r. repeat split; assumption.
Qed.

(** When [send_candidate_email] reports the mail not sent, the state it
    returns has an error. *)
Lemma mail_unsent_has_error (w : World) (state : AppState) :
  email_sent_status (send_candidate_email w state) = false ->
  has_error (send_candidate_email w state) = true.
Proof.
  unfold send_candidate_email.
  change (has_error (set_email_sent_status state false)) with (has_error state).
  pose proof (mail_skipped state) as [_ K]. cbv zeta in K.
  destruct (match_score state) as [score|]; [|intros _; exact K].
  destruct (parsed_resume state) as [r|]; [|intros _; exact K].
  destruct (negb (truthy (feedback state))); [intros _; exact K|].
  destruct (email_sender.send_application_email w _ _ _ _ _) as [b|e];
    [|reflexivity].
  change (has_error (set_email_sent_status state b)) with (has_error state).
  destruct b; cbn [negb andb]; [discriminate|].
  intros _. destruct (has_error state) eqn:E; [exact E|reflexivity].
Qed.

(** X8. [send_application_email] lets no failure of the SMTP session out:
    with credentials and an address, it raises only what building the
    message raises, returns [True] exactly when the session went through,
    and [False] when the session raises. *)
Theorem smtp_failures_are_swallowed (w : World)
  (to_email candidate_name : option string) (job_title : string)
  (match_score : float) (feedback : pyval) :
  truthy_str (EMAIL_SENDER w) = true ->
  truthy_str (EMAIL_PASSWORD w) = true ->
  truthy_str to_email = true ->
  let content :=
    email_sender.email_content w candidate_name job_title match_score
      feedback in
  let built :=
    EmailMessage_build w (fst content) (text_of (EMAIL_SENDER w))
      (text_of to_email) (snd content) in
  let session :=
    smtp_session w (fst content) (text_of (EMAIL_SENDER w))
      (text_of to_email) (snd content) in
  let outcome :=
    email_sender.send_application_email w to_email candidate_name job_title
      match_score feedback in
  (forall e, outcome = Raise e <-> built = Raise e)
  /\ (outcome = Ok true <-> built = Ok tt /\ session = Ok tt)
  /\ (outcome = Ok false <-> built = Ok tt /\ exists e, session = Raise e).
Proof.
  intros S P T. cbv zeta.
  unfold email_sender.send_application_email.
  rewrite S, P, T. cbn [negb orb].
  destruct (email_sender.email_content w candidate_name job_title
              match_score feedback) as [subject body].
  cbn [fst snd].
  destruct (EmailMessage_build w subject _ _ body) as [[]|e0]; cbn [bind].
  - destruct (smtp_session w subject _ _ body) as [[]|e1];
      cbn [bind try_except].
    + repeat split; try discriminate; try tauto.
      intros [_ [e H]]. discriminate H.
    + repeat split; try discriminate; eauto.
      intros [_ H]. discriminate H.
  - repeat split; try discriminate; try tauto.
    + intro H. injection H as <-. reflexivity.
    + intro H. injection H as <-. reflexivity.
    + intros [H _]. discriminate H.
    + intros [H _]. discriminate H.
Qed.

(** The mail server refuses the login. *)
Lemma smtp_failures_are_swallowed_witness :
  let w := Vary.with_smtp_session
             (Raise (Exn OtherException "Username and Password not accepted"))
             Scenario.all_well in
  email_sender.send_application_email w (Some "asha@example.com")
    (Some "Asha Rao") "Data Scientist" 80%float (PStr "Good.") = Ok false.
Proof.
  intro w.
  apply (proj2 (proj2 (smtp_failures_are_swallowed w (Some "asha@example.com")
                         (Some "Asha Rao") "Data Scientist" 80%float
                         (PStr "Good.") eq_refl eq_refl eq_refl))).
  split; [reflexivity|]. eexists. reflexivity.
Defined.

(** X9. [send_candidate_email] reports [email_sent_status] true only
    when the state has a score, a feedback and a resume record with an
    address, the credentials are set, and the SMTP session for the
    message chosen by the score went through; it then leaves the error
    slot as it found it.  When it reports false, the state it returns has
    an error. *)
Theorem email_sent_status_is_truthful (w : World) (state : AppState) :
  (email_sent_status (send_candidate_email w state) = true ->
   error_message (send_candidate_email w state) = error_message state
   /\ truthy (feedback state) = true
   /\ truthy_str (EMAIL_SENDER w) = true
   /\ truthy_str (EMAIL_PASSWORD w) = true
   /\ exists score r,
        match_score state = Some score /\ parsed_resume state = Some r
        /\ truthy_str (ResumeInfo.email r) = true
        /\ let content :=
             email_sender.email_content w (ResumeInfo.candidate_name r)
               (format_optional (selected_job_title state)) score
               (feedback state) in
           smtp_session w (fst content) (text_of (EMAIL_SENDER w))
             (text_of (ResumeInfo.email r)) (snd content) = Ok tt)
  /\ (email_sent_status (send_candidate_email w state) = false ->
      has_error (send_candidate_email w state) = true).
Proof.
  split; [apply mail_sent_inversion|apply mail_unsent_has_error].
Qed.

Lemma email_sent_status_is_truthful_witness :
  let w := Scenario.all_well in
  let state := after w save_db (Scenario.start "Data Scientist") in
  error_message (send_candidate_email w state) = error_message state
  /\ truthy (feedback state) = true
  /\ truthy_str (EMAIL_SENDER w) = true
  /\ truthy_str (EMAIL_PASSWORD w) = true
  /\ exists score r,
       match_score state = Some score /\ parsed_resume state = Some r
       /\ truthy_str (ResumeInfo.email r) = true
       /\ let content :=
            email_sender.email_content w (ResumeInfo.candidate_name r)
              (format_optional (selected_job_title state)) score
              (feedback state) in
          smtp_session w (fst content) (text_of (EMAIL_SENDER w))
            (text_of (ResumeInfo.email r)) (snd content) = Ok tt.
Proof.
  intros w state. apply (proj1 (email_sent_status_is_truthful w state)).
  vm_compute. reflexivity.
Defined.

End StoreAndMail.

(* ================================================================== *)
(** ** The first node and the clamp *)
(* ================================================================== *)

Section LoadAndClamp.

Import main.

(** X10. [load_and_validate_input] returns a state without error exactly
    when the catalogue file exists and reads with both columns and the
    state has file bytes, a file name and a title, none of them empty; it
    then holds the catalogue that was read.  Whatever error the state
    came with is gone: the error is cleared or opens with
    "Initialization Error: ".  A catalogue that reads well is kept in the
    state even when the inputs are then refused. *)
Theorem load_and_validate_outcomes (w : World) (state : AppState) :
  let state' := load_and_validate_input w state in
  (has_error state' = false <->
   path_exists_JOB_DATA_CSV w = true
   /\ (exists df, read_csv_JOB_DATA_CSV w = Ok df
                  /\ has_column "Job Title" df = true
                  /\ has_column "Job Description" df = true)
   /\ truthy_str (uploaded_file_content state) = true
   /\ truthy_str (uploaded_filename state) = true
   /\ truthy_str (selected_job_title state) = true)
  /\ (has_error state' = false ->
      error_message state' = None
      /\ exists df, read_csv_JOB_DATA_CSV w = Ok df
                    /\ job_descriptions_df state' = Some df)
  /\ (error_message state' = None
      \/ exists reason,
           error_message state' = Some ("Initialization Error: " ++ reason))
  /\ (forall df,
        path_exists_JOB_DATA_CSV w = true ->
        read_csv_JOB_DATA_CSV w = Ok df ->
        has_column "Job Title" df = true ->
        has_column "Job Description" df = true ->
        job_descriptions_df state' = Some df)
  /\ uploaded_file_content state' = uploaded_file_content state
  /\ uploaded_filename state' = uploaded_filename state
  /\ selected_job_title state' = selected_job_title state.
Proof.
  cbv zeta. unfold load_and_validate_input.
  destruct (path_exists_JOB_DATA_CSV w) eqn:P; cbn [negb];
    [destruct (read_csv_JOB_DATA_CSV w) as [df|e] eqn:R;
     [destruct (has_column "Job Title" df) eqn:C1,
               (has_column "Job Description" df) eqn:C2; cbn [negb orb];
      [change (uploaded_file_content (set_job_descriptions_df state (Some df)))
         with (uploaded_file_content state);
       change (uploaded_filename (set_job_descriptions_df state (Some df)))
         with (uploaded_filename state);
       change (selected_job_title (set_job_descriptions_df state (Some df)))
         with (selected_job_title state);
       destruct (truthy_str (uploaded_file_content state)) eqn:U1,
                (truthy_str (uploaded_filename state)) eqn:U2,
                (truthy_str (selected_job_title state)) eqn:U3;
       cbn [negb orb]| | |]|]|];
    cbn;
    repeat match goal with |- _ /\ _ => split end;
    try reflexivity;
    try (right; eexists; reflexivity);
    try (left; reflexivity);
    try (intros; congruence);
    try (split;
         [ intro X; discriminate X
         | intros (X1 & (d & X2 & X3 & X4) & X5 & X6 & X7); congruence ]);
    try (split; intros _; repeat split; eauto);
    try (intros _; split; eauto).
Qed.

Lemma load_and_validate_outcomes_witness :
  let w := Scenario.all_well in
  let state := Scenario.start "" in
  job_descriptions_df (load_and_validate_input w state)
  = Some Scenario.catalogue.
Proof.
  intros w state.
  apply (proj1 (proj2 (proj2 (proj2 (load_and_validate_outcomes w state))))
           Scenario.catalogue); reflexivity.
Defined.

(** X11. Clamping a second time changes nothing, and a score that is
    already within 0 and 100 is left as it is. *)
Theorem clamp_score_is_idempotent (score : float) :
  matcher.clamp_score (matcher.clamp_score score) = matcher.clamp_score score
  /\ (score_in_range score = true -> matcher.clamp_score score = score).
Proof.
  assert (I : forall s, score_in_range s = true -> matcher.clamp_score s = s).
  { intros s H. unfold matcher.clamp_score. unfold score_in_range in H.
    rewrite H. reflexivity. }
  split; [|apply I]. apply I. apply clamp_score_in_range.
Qed.

Lemma clamp_score_is_idempotent_witness :
  matcher.clamp_score 64.99%float = 64.99%float.
Proof.
  apply (proj2 (clamp_score_is_idempotent 64.99%float)). reflexivity.
Defined.

End LoadAndClamp.

(* ================================================================== *)
(** ** Whole runs *)
(* ================================================================== *)

Section WholeRuns.

Import main.

Lemma some_eq {A : Type} (a b : A) : Some a = Some b -> a = b.
Proof. congruence. Qed.

Lemma no_error_clear (s : AppState) :
  error_message s = None -> has_error s = false.
Proof. intro H. unfold has_error. rewrite H. reflexivity. Qed.

Lemma error_is_set (s : AppState) :
  has_error s = true -> error_message s <> None.
Proof. unfold has_error. intros H N. rewrite N in H. discriminate H. Qed.

(** Each state of a run is the next node applied to the one before. *)
Lemma after_steps (w : World) (s0 : AppState) :
  after w parse_resume s0 = process_resume w (after w load_validate s0)
  /\ after w parse_jd s0 = process_job_description w (after w parse_resume s0)
  /\ after w matching s0 = perform_matching w (after w parse_jd s0)
  /\ after w save_db s0 = save_to_database w (after w matching s0)
  /\ after w send_email s0 = send_candidate_email w (after w save_db s0).
Proof. repeat split. Qed.

(** A clean [process_resume] parsed the file. *)
Lemma process_resume_clean (w : World) (s : AppState) :
  has_error s = false ->
  has_error (process_resume w s) = false ->
  exists r,
    resume_parser.parse_resume_file w (text_of (uploaded_file_content s))
      (uploaded_filename s) = Ok r
    /\ parsed_resume (process_resume w s) = Some r.
Proof.
  intro E. unfold process_resume. rewrite E.
  destruct (resume_parser.parse_resume_file w _ _) as [r|e]; [|discriminate].
  intros _. exists r. split; reflexivity.
Qed.

(** A clean [process_job_description] made the record. *)
Lemma process_job_description_clean (w : World) (s : AppState) :
  has_error s = false ->
  has_error (process_job_description w s) = false ->
  exists j,
    jd_parser.parse_job_description w (selected_job_title s)
      (job_descriptions_df s) = Ok j
    /\ parsed_jd (process_job_description w s) = Some j.
Proof.
  intro E. unfold process_job_description. rewrite E.
  destruct (jd_parser.parse_job_description w _ _) as [j|e]; [|discriminate].
  intros _. exists j. split; reflexivity.
Qed.

(** With both records and no error, [perform_matching] stores a score in
    range and leaves no error. *)
Lemma perform_matching_with_records (w : World) (s : AppState)
  (r : ResumeInfo.t) (j : JobDescriptionInfo.t) :
  has_error s = false ->
  parsed_resume s = Some r -> parsed_jd s = Some j ->
  error_message (perform_matching w s) = None
  /\ exists score,
       match_score (perform_matching w s) = Some score
       /\ score_in_range score = true.
Proof.
  intros E Pr Pj. unfold perform_matching. rewrite Pr, Pj, E.
  destruct (calculate_match_and_feedback_returns w r j) as ([score fb] & -> & R).
  cbn. split; [reflexivity|]. exists score. split; [reflexivity|exact R].
Qed.

(** The state after the third node of a run that got that far holds both
    records. *)
Lemma records_after_parse_jd (w : World) (s0 : AppState) :
  has_error (after w load_validate s0) = false ->
  has_error (after w parse_resume s0) = false ->
  has_error (after w parse_jd s0) = false ->
  exists r j, parsed_resume (after w parse_jd s0) = Some r
              /\ parsed_jd (after w parse_jd s0) = Some j.
Proof.
  destruct (after_steps w s0) as (S2 & S3 & _).
  rewrite S3, S2. intros E1 E2 E3.
  destruct (process_resume_clean w _ E1 E2) as (r & _ & Pr).
  destruct (process_job_description_clean w _ E2 E3) as (j & _ & Pj).
  destruct (process_job_description_keeps w
              (process_resume w (after w load_validate s0))) as (K & _).
  exists r, j. split; [rewrite K; exact Pr|exact Pj].
Qed.

(** The fourth node, in a run that reaches it, leaves no error. *)
Lemma matching_leaves_no_error (w : World) (s0 : AppState) :
  has_error (after w load_validate s0) = false ->
  has_error (after w parse_resume s0) = false ->
  has_error (after w parse_jd s0) = false ->
  error_message (after w matching s0) = None
  /\ exists score, match_score (after w matching s0) = Some score
                   /\ score_in_range score = true.
Proof.
  intros E1 E2 E3.
  destruct (records_after_parse_jd w s0 E1 E2 E3) as (r & j & Pr & Pj).
  destruct (after_steps w s0) as (_ & _ & S4 & _). rewrite S4.
  exact (perform_matching_with_records w _ r j E3 Pr Pj).
Qed.

(** The trace of a run, given what the first three nodes leave. *)
Lemma trace_cases (w : World) (s0 : AppState) :
  (has_error (after w load_validate s0) = true
   /\ invoke_trace w s0 = Some [(load_validate, after w load_validate s0)])
  \/ (has_error (after w load_validate s0) = false
      /\ has_error (after w parse_resume s0) = true
      /\ invoke_trace w s0
         = Some [(load_validate, after w load_validate s0);
                 (parse_resume, after w parse_resume s0)])
  \/ (has_error (after w load_validate s0) = false
      /\ has_error (after w parse_resume s0) = false
      /\ has_error (after w parse_jd s0) = true
      /\ invoke_trace w s0
         = Some [(load_validate, after w load_validate s0);
                 (parse_resume, after w parse_resume s0);
                 (parse_jd, after w parse_jd s0)])
  \/ (has_error (after w load_validate s0) = false
      /\ has_error (after w parse_resume s0) = false
      /\ has_error (after w parse_jd s0) = false
      /\ invoke_trace w s0
         = Some [(load_validate, after w load_validate s0);
                 (parse_resume, after w parse_resume s0);
                 (parse_jd, after w parse_jd s0);
                 (matching, after w matching s0);
                 (save_db, after w save_db s0);
                 (send_email, after w send_email s0)]).
Proof.
  rewrite invoke_trace_shape.
  destruct (has_error (after w load_validate s0)) eqn:E1; [left; auto|].
  destruct (has_error (after w parse_resume s0)) eqn:E2; [right; left; auto|].
  destruct (has_error (after w parse_jd s0)) eqn:E3;
    [right; right; left; auto|].
  right; right; right.
  destruct (matching_leaves_no_error w s0 E1 E2 E3) as (N & _).
  rewrite (no_error_clear _ N). auto.
Qed.

Lemma final_state_1 (s0 : AppState) (n1 : node) (s1 : AppState) :
  final_state s0 [(n1, s1)] = s1.
Proof. reflexivity. Qed.

Lemma final_state_2 (s0 : AppState) (n1 n2 : node) (s1 s2 : AppState) :
  final_state s0 [(n1, s1); (n2, s2)] = s2.
Proof. reflexivity. Qed.

Lemma final_state_3 (s0 : AppState) (n1 n2 n3 : node) (s1 s2 s3 : AppState) :
  final_state s0 [(n1, s1); (n2, s2); (n3, s3)] = s3.
Proof. reflexivity. Qed.

Lemma final_state_6 (s0 : AppState) (n1 n2 n3 n4 n5 n6 : node)
  (s1 s2 s3 s4 s5 s6 : AppState) :
  final_state s0 [(n1, s1); (n2, s2); (n3, s3); (n4, s4); (n5, s5); (n6, s6)]
  = s6.
Proof. reflexivity. Qed.

Lemma invoke_of_trace (w : World) (s0 : AppState) (t : trace) :
  invoke_trace w s0 = Some t -> invoke w s0 = Some (final_state s0 t).
Proof. intro T. unfold invoke. rewrite T. reflexivity. Qed.

(** Where a run stops, and the state [invoke] returns. *)
Lemma invoke_cases (w : World) (s0 : AppState) :
  (has_error (after w load_validate s0) = true
   /\ executed_by w s0 [load_validate]
   /\ invoke w s0 = Some (after w load_validate s0))
  \/ (has_error (after w load_validate s0) = false
      /\ has_error (after w parse_resume s0) = true
      /\ executed_by w s0 [load_validate; parse_resume]
      /\ invoke w s0 = Some (after w parse_resume s0))
  \/ (has_error (after w load_validate s0) = false
      /\ has_error (after w parse_resume s0) = false
      /\ has_error (after w parse_jd s0) = true
      /\ executed_by w s0 [load_validate; parse_resume; parse_jd]
      /\ invoke w s0 = Some (after w parse_jd s0))
  \/ (has_error (after w load_validate s0) = false
      /\ has_error (after w parse_resume s0) = false
      /\ has_error (after w parse_jd s0) = false
      /\ executed_by w s0 all_nodes
      /\ invoke w s0 = Some (after w send_email s0)).
Proof.
  unfold executed_by.
  destruct (trace_cases w s0)
    as [(E1 & T)|[(E1 & E2 & T)|[(E1 & E2 & E3 & T)|(E1 & E2 & E3 & T)]]];
    pose proof (invoke_of_trace w s0 _ T) as I; rewrite T.
  - rewrite final_state_1 in I. left. repeat split; assumption.
  - rewrite final_state_2 in I. right; left. repeat split; assumption.
  - rewrite final_state_3 in I. right; right; left. repeat split; assumption.
  - rewrite final_state_6 in I. right; right; right.
    repeat split; assumption.
Qed.

(** With a score and no error, a [save_to_database] that leaves no error
    stored the row. *)
Lemma save_clean (w : World) (s : AppState) (score : float) :
  match_score s = Some score ->
  has_error s = false ->
  error_message (save_to_database w s) = None ->
  db_save_status (save_to_database w s) = true.
Proof.
  intros Sc E. unfold save_to_database. rewrite Sc, E.
  destruct (database.save_match_results w _ _ _ _) as [[|]|e]; cbn [negb].
  - reflexivity.
  - change (has_error (set_db_save_status s false)) with (has_error s).
    rewrite E. cbn. discriminate.
  - cbn. discriminate.
Qed.

(** X12. A run that ends with no error went through all six nodes, stored
    the row and sent the mail: the final state has [db_save_status] and
    [email_sent_status] true, both records, a feedback that is not empty
    and a score within 0 and 100.  So a final state in which the mail was
    not sent, or the row not stored, always carries an error. *)
Theorem run_without_error_did_everything (w : World) (s0 final : AppState) :
  invoke w s0 = Some final ->
  error_message final = None ->
  executed_by w s0 all_nodes
  /\ db_save_status final = true
  /\ email_sent_status final = true
  /\ truthy (feedback final) = true
  /\ exists score r j,
       match_score final = Some score /\ score_in_range score = true
       /\ parsed_resume final = Some r /\ parsed_jd final = Some j.
Proof.
  intros I N.
  destruct (invoke_cases w s0)
    as [(E1 & X & J)|[(E1 & E2 & X & J)|[(E1 & E2 & E3 & X & J)
       |(E1 & E2 & E3 & X & J)]]];
    rewrite J in I; apply some_eq in I; subst final;
    try (apply no_error_clear in N; congruence).
  destruct (matching_leaves_no_error w s0 E1 E2 E3) as (N4 & score & Sc & R).
  destruct (records_after_parse_jd w s0 E1 E2 E3) as (r & j & Pr & Pj).
  destruct (after_steps w s0) as (_ & _ & S4 & S5 & S6).
  destruct (perform_matching_keeps w (after w parse_jd s0)) as (K4r & K4j & _).
  destruct (save_to_database_keeps w (after w matching s0))
    as (K5r & K5j & K5s & K5f & _).
  destruct (send_candidate_email_keeps w (after w save_db s0))
    as (K6r & K6j & K6s & K6f & K6d).
  rewrite <- S4 in K4r, K4j. rewrite <- S5 in K5r, K5j, K5s, K5f.
  rewrite <- S6 in K6r, K6j, K6s, K6f, K6d.
  assert (M : email_sent_status (after w send_email s0) = true).
  { destruct (email_sent_status (after w send_email s0)) eqn:M;
      [reflexivity|].
    rewrite S6 in M. pose proof (mail_unsent_has_error w _ M) as H.
    rewrite <- S6 in H. rewrite (no_error_clear _ N) in H. discriminate H. }
  assert (M' := M). rewrite S6 in M'.
  destruct (mail_sent_inversion w _ M') as (Ke & F & _).
  rewrite <- S6 in Ke.
  assert (N5 : error_message (after w save_db s0) = None) by congruence.
  split; [exact X|]. split.
  { rewrite K6d, S5. apply (save_clean w _ score Sc (no_error_clear _ N4)).
    rewrite <- S5. exact N5. }
  split; [exact M|]. split; [rewrite K6f; exact F|].
  exists score, r, j. repeat split.
  - rewrite K6s, K5s. exact Sc.
  - exact R.
  - rewrite K6r, K5r, K4r. exact Pr.
  - rewrite K6j, K5j, K4j. exact Pj.
Qed.

Lemma run_without_error_did_everything_witness :
  let w := Scenario.all_well in
  let s0 := Scenario.start "Data Scientist" in
  let final := after w send_email s0 in
  executed_by w s0 all_nodes
  /\ db_save_status final = true
  /\ email_sent_status final = true
  /\ truthy (feedback final) = true
  /\ exists score r j,
       match_score final = Some score /\ score_in_range score = true
       /\ parsed_resume final = Some r /\ parsed_jd final = Some j.
Proof.
  intros w s0 final.
  apply (run_without_error_did_everything w s0 final);
    vm_compute; reflexivity.
Defined.

(** X13. The gate after the [match] node never closes: in every run that
    reaches [match], that node returns a state with a score and no error,
    and the run goes on through [save_db] and [send_email]. *)
Theorem matching_gate_never_closes (w : World) (s0 : AppState) :
  exists t,
    invoke_trace w s0 = Some t
    /\ (forall i s, nth_error t i = Some (matching, s) ->
          error_message s = None
          /\ (exists score, match_score s = Some score
                            /\ score_in_range score = true)
          /\ executed t = all_nodes)
    /\ (In matching (executed t) -> executed t = all_nodes).
Proof.
  destruct (trace_cases w s0)
    as [(E1 & T)|[(E1 & E2 & T)|[(E1 & E2 & E3 & T)|(E1 & E2 & E3 & T)]]];
    rewrite T; eexists; (split; [reflexivity|]); split;
    try (intros i s H; positions i H; injection H as <-);
    try (cbn [executed map fst In]; intuition discriminate).
  destruct (matching_leaves_no_error w s0 E1 E2 E3) as (N & Sc).
  repeat split; assumption.
Qed.

(** A run that reaches [match] goes through all six nodes. *)
Lemma matching_gate_never_closes_witness :
  let w := Scenario.scoring_times_out in
  let s0 := Scenario.start "Data Scientist" in
  exists t, invoke_trace w s0 = Some t /\ executed t = all_nodes.
Proof.
  intros w s0.
  destruct (matching_gate_never_closes w s0) as (t & T & _ & H).
  exists t. split; [exact T|]. apply H.
  vm_compute in T. apply some_eq in T. subst t. vm_compute. tauto.
Defined.

End WholeRuns.

Section RunErrors.

Import main.

(** The text of what the two parsing functions raise. *)
Lemma parse_resume_file_text (w : World) (uploaded_file : string)
  (filename : option string) (e : exn) :
  resume_parser.parse_resume_file w uploaded_file filename = Raise e ->
  exists rest, exn_msg e = "Failed to parse resume '" ++ rest.
Proof.
  unfold resume_parser.parse_resume_file.
  match goal with |- try_except ?b _ = _ -> _ => destruct b as [r|e0] end;
    cbn [try_except]; [discriminate|].
  intro H. apply (f_equal (fun x => match x with Raise y => exn_msg y
                                             | Ok _ => "" end)) in H.
  cbn [exn_msg] in H. rewrite <- H. eexists. reflexivity.
Qed.

Lemma parse_job_description_text (w : World)
  (selected_job_title : option string) (df_jobs : option DataFrame) (e : exn) :
  jd_parser.parse_job_description w selected_job_title df_jobs = Raise e ->
  exists rest, exn_msg e = "Failed to parse job description '" ++ rest.
Proof.
  unfold jd_parser.parse_job_description.
  match goal with |- try_except ?b _ = _ -> _ => destruct b as [r|e0] end;
    cbn [try_except]; [discriminate|].
  intro H. apply (f_equal (fun x => match x with Raise y => exn_msg y
                                             | Ok _ => "" end)) in H.
  cbn [exn_msg] in H. rewrite <- H. eexists. reflexivity.
Qed.

Lemma load_error_known (w : World) (s : AppState) :
  known_error (error_message (load_and_validate_input w s)).
Proof.
  unfold load_and_validate_input. branches;
    intros text H; try discriminate H;
    apply some_eq in H; subst text; repeat split.
Qed.

Lemma process_resume_error_known (w : World) (s : AppState) :
  has_error s = false ->
  known_error (error_message (process_resume w s)).
Proof.
  intro E. unfold process_resume. rewrite E.
  destruct (resume_parser.parse_resume_file w _ _) as [r|e] eqn:P;
    intros text H; [discriminate H|].
  destruct (parse_resume_file_text w _ _ _ P) as (rest & M).
  cbn [error_message set_parsed_resume set_error_message] in H.
  rewrite M in H. apply some_eq in H. subst text. repeat split.
Qed.

Lemma process_job_description_error_known (w : World) (s : AppState) :
  has_error s = false ->
  known_error (error_message (process_job_description w s)).
Proof.
  intro E. unfold process_job_description. rewrite E.
  destruct (jd_parser.parse_job_description w _ _) as [r|e] eqn:P;
    intros text H; [discriminate H|].
  destruct (parse_job_description_text w _ _ _ P) as (rest & M).
  cbn [error_message set_parsed_jd set_error_message] in H.
  rewrite M in H. apply some_eq in H. subst text. repeat split.
Qed.

Lemma save_error_known (w : World) (s : AppState) :
  error_message s = None ->
  known_error (error_message (save_to_database w s)).
Proof.
  intro N. unfold save_to_database. rewrite (no_error_clear _ N).
  destruct (match_score s) as [score|];
    [|intros text H; cbn in H; congruence].
  destruct (database.save_match_results w _ _ _ _) as [[|]|e]; cbn [negb].
  - intros text H. discriminate H.
  - change (has_error (set_db_save_status s false)) with (has_error s).
    rewrite (no_error_clear _ N). cbn [negb].
    intros text H. apply some_eq in H. subst text. repeat split.
  - intros text H. apply some_eq in H. subst text. repeat split.
Qed.

Lemma send_error_known (w : World) (s : AppState) :
  known_error (error_message s) ->
  known_error (error_message (send_candidate_email w s)).
Proof.
  intro K. unfold send_candidate_email.
  change (has_error (set_email_sent_status s false)) with (has_error s).
  assert (Skip : known_error
            (error_message
               (if negb (has_error s)
                then set_error_message (set_email_sent_status s false)
                       (Some "Email not sent due to missing information.")
                else set_email_sent_status s false))).
  { destruct (has_error s); cbn [negb]; [exact K|].
    intros text H. apply some_eq in H. subst text. repeat split. }
  destruct (match_score s) as [score|]; [|exact Skip].
  destruct (parsed_resume s) as [r|]; [|exact Skip].
  destruct (negb (truthy (feedback s))); [exact Skip|].
  destruct (email_sender.send_application_email w _ _ _ _ _) as [b|e].
  - change (has_error (set_email_sent_status s b)) with (has_error s).
    destruct (negb b && negb (has_error s)); [|exact K].
    intros text H. apply some_eq in H. subst text. repeat split.
  - intros text H. apply some_eq in H. subst text. repeat split.
Qed.

(** X14. The error a run ends with, when it ends with one, opens with
    one of the eight texts of [error_openings]: those of the node that
    failed (initialisation, resume parsing, job description parsing,
    database save, mail) and the three fixed texts of the last two nodes.
    No run ends with an error of the matching node. *)
Theorem final_error_is_known (w : World) (s0 final : AppState) (text : string) :
  invoke w s0 = Some final ->
  error_message final = Some text ->
  existsb (fun opening => is_prefix opening text) error_openings = true
  /\ is_prefix "Matching Failed: " text = false
  /\ is_prefix "Cannot perform matching" text = false.
Proof.
  intros I H. revert text H. change (known_error (error_message final)).
  destruct (after_steps w s0) as (S2 & S3 & S4 & S5 & S6).
  destruct (invoke_cases w s0)
    as [(E1 & X & J)|[(E1 & E2 & X & J)|[(E1 & E2 & E3 & X & J)
       |(E1 & E2 & E3 & X & J)]]];
    rewrite J in I; apply some_eq in I; subst final.
  - apply load_error_known.
  - rewrite S2. apply process_resume_error_known. exact E1.
  - rewrite S3. apply process_job_description_error_known. exact E2.
  - rewrite S6. apply send_error_known.
    rewrite S5. apply save_error_known.
    exact (proj1 (matching_leaves_no_error w s0 E1 E2 E3)).
Qed.

Lemma final_error_is_known_witness :
  let text := "Job Description Parsing Failed: Failed to parse job description 'Astronaut': Job title 'Astronaut' not found in the provided CSV." in
  existsb (fun opening => is_prefix opening text) error_openings = true
  /\ is_prefix "Matching Failed: " text = false
  /\ is_prefix "Cannot perform matching" text = false.
Proof.
  intro text.
  apply (final_error_is_known Scenario.all_well (Scenario.start "Astronaut")
           (after Scenario.all_well parse_jd (Scenario.start "Astronaut")));
    vm_compute; reflexivity.
Defined.

(** Without an API key [parse_resume_file] raises. *)
Lemma parse_resume_file_without_key (w : World) (uploaded_file : string)
  (filename : option string) :
  truthy_str (DEEPSEEK_API_KEY w) = false ->
  exists e, resume_parser.parse_resume_file w uploaded_file filename = Raise e.
Proof.
  intro K. unfold resume_parser.parse_resume_file,
    resume_parser.call_deepseek_for_resume_parsing. rewrite K. cbn [negb].
  match goal with |- exists e, try_except ?b _ = _ => destruct b as [r|e0] eqn:B end;
    cbn [try_except]; [exfalso|eauto].
  revert B. destruct filename as [name|]; cbn [bind]; [|discriminate].
  match goal with |- (x <- ?t ;; _) = _ -> _ => destruct t as [text|] end;
    cbn [bind]; [|discriminate].
  destruct ((text =? "") || isspace text); discriminate.
Qed.

(** X15. Without an API key every run stops at the second node at the
    latest, with an error: the resume cannot be parsed.  Nothing is
    stored and no mail is sent: the score and the two flags are those of
    the state the run started from. *)
Theorem no_api_key_halts_the_run (w : World) (s0 : AppState) :
  truthy_str (DEEPSEEK_API_KEY w) = false ->
  exists final,
    invoke w s0 = Some final
    /\ (executed_by w s0 [load_validate]
        \/ executed_by w s0 [load_validate; parse_resume])
    /\ has_error final = true
    /\ match_score final = match_score s0
    /\ db_save_status final = db_save_status s0
    /\ email_sent_status final = email_sent_status s0.
Proof.
  intro K.
  destruct (after_steps w s0) as (S2 & _).
  destruct (load_keeps w s0) as (_ & R1 & _ & M1 & _ & D1 & L1).
  destruct (process_resume_keeps w (after w load_validate s0))
    as (_ & _ & _ & M2 & _ & D2 & L2).
  rewrite <- S2 in M2, D2, L2.
  change (load_and_validate_input w s0) with (after w load_validate s0)
    in R1, M1, D1, L1.
  assert (E2 : has_error (after w load_validate s0) = false ->
               has_error (after w parse_resume s0) = true).
  { intro E1. rewrite S2. unfold process_resume. rewrite E1.
    destruct (parse_resume_file_without_key w
                (text_of (uploaded_file_content (after w load_validate s0)))
                (uploaded_filename (after w load_validate s0)) K) as (e & ->).
    reflexivity. }
  destruct (invoke_cases w s0)
    as [(E1 & X & J)|[(E1 & E2' & X & J)|[(E1 & E2' & E3 & X & J)
       |(E1 & E2' & E3 & X & J)]]];
    try (rewrite (E2 E1) in E2'; discriminate E2').
  - exists (after w load_validate s0).
    split; [exact J|]. split; [left; exact X|]. split; [exact E1|].
    repeat split; assumption.
  - exists (after w parse_resume s0).
    split; [exact J|]. split; [right; exact X|]. split; [exact E2'|].
    repeat split; congruence.
Qed.

Lemma no_api_key_halts_the_run_witness :
  let w := Vary.without_api_key Scenario.all_well in
  let s0 := Scenario.start "Data Scientist" in
  exists final,
    invoke w s0 = Some final
    /\ (executed_by w s0 [load_validate]
        \/ executed_by w s0 [load_validate; parse_resume])
    /\ has_error final = true
    /\ match_score final = match_score s0
    /\ db_save_status final = db_save_status s0
    /\ email_sent_status final = email_sent_status s0.
Proof.
  intros w s0. apply (no_api_key_halts_the_run w s0). reflexivity.
Defined.

End RunErrors.

Section RunFrames.

Import main.

(** No node touches what the caller put into the state. *)
Lemma nodes_keep_inputs (w : World) (f : AppState -> AppState) :
  In f [load_and_validate_input w; process_resume w;
        process_job_description w; perform_matching w;
        save_to_database w; send_candidate_email w] ->
  forall s s0,
    (uploaded_file_content s = uploaded_file_content s0
     /\ uploaded_filename s = uploaded_filename s0
     /\ selected_job_title s = selected_job_title s0) ->
    uploaded_file_content (f s) = uploaded_file_content s0
    /\ uploaded_filename (f s) = uploaded_filename s0
    /\ selected_job_title (f s) = selected_job_title s0.
Proof.
  intros F s s0 (A & B & C). rewrite <- A, <- B, <- C.
  cbn [In] in F.
  destruct F as [<-|[<-|[<-|[<-|[<-|[<-|[]]]]]]].
  - unfold load_and_validate_input. branches; cbn; repeat split.
  - unfold process_resume. branches; cbn; repeat split.
  - unfold process_job_description. branches; cbn; repeat split.
  - unfold perform_matching. branches; cbn; repeat split.
  - unfold save_to_database. branches; cbn; repeat split.
  - unfold send_candidate_email. branches; cbn; repeat split.
Qed.

Lemma after_keeps_inputs (w : World) (n : node) (s0 : AppState) :
  uploaded_file_content (after w n s0) = uploaded_file_content s0
  /\ uploaded_filename (after w n s0) = uploaded_filename s0
  /\ selected_job_title (after w n s0) = selected_job_title s0.
Proof.
  destruct (after_steps w s0) as (S2 & S3 & S4 & S5 & S6).
  assert (K1 : uploaded_file_content (after w load_validate s0)
               = uploaded_file_content s0
               /\ uploaded_filename (after w load_validate s0)
                  = uploaded_filename s0
               /\ selected_job_title (after w load_validate s0)
                  = selected_job_title s0).
  { change (after w load_validate s0) with (load_and_validate_input w s0).
    apply (nodes_keep_inputs w); [cbn; tauto|repeat split]. }
  pose proof (nodes_keep_inputs w (process_resume w)
                ltac:(cbn; tauto) _ s0 K1) as K2.
  rewrite <- S2 in K2.
  pose proof (nodes_keep_inputs w (process_job_description w)
                ltac:(cbn; tauto) _ s0 K2) as K3.
  rewrite <- S3 in K3.
  pose proof (nodes_keep_inputs w (perform_matching w)
                ltac:(cbn; tauto) _ s0 K3) as K4.
  rewrite <- S4 in K4.
  pose proof (nodes_keep_inputs w (save_to_database w)
                ltac:(cbn; tauto) _ s0 K4) as K5.
  rewrite <- S5 in K5.
  pose proof (nodes_keep_inputs w (send_candidate_email w)
                ltac:(cbn; tauto) _ s0 K5) as K6.
  rewrite <- S6 in K6.
  destruct n; assumption.
Qed.

(** X16. When the first node leaves no error and parsing the resume
    raises, the run stops after the second node with the error
    "Resume Parsing Failed: " followed by the text raised, and without a
    resume record; the job record is as it was.  When the resume parses
    and making the job record raises, the run stops after the third node
    with "Job Description Parsing Failed: " followed by the text raised;
    the resume record is there, the job record is not, and score and
    flags are as they were. *)
Theorem extraction_failure_halts (w : World) (s0 : AppState) :
  has_error (after w load_validate s0) = false ->
  (forall e,
      resume_parser.parse_resume_file w (text_of (uploaded_file_content s0))
        (uploaded_filename s0) = Raise e ->
      executed_by w s0 [load_validate; parse_resume]
      /\ exists final,
           invoke w s0 = Some final
           /\ error_message final
              = Some ("Resume Parsing Failed: " ++ exn_msg e)
           /\ parsed_resume final = None
           /\ parsed_jd final = parsed_jd s0)
  /\ (forall r e,
        resume_parser.parse_resume_file w (text_of (uploaded_file_content s0))
          (uploaded_filename s0) = Ok r ->
        jd_parser.parse_job_description w (selected_job_title s0)
          (job_descriptions_df (after w load_validate s0)) = Raise e ->
        executed_by w s0 [load_validate; parse_resume; parse_jd]
        /\ exists final,
             invoke w s0 = Some final
             /\ error_message final
                = Some ("Job Description Parsing Failed: " ++ exn_msg e)
             /\ parsed_resume final = Some r
             /\ parsed_jd final = None
             /\ match_score final = match_score s0
             /\ db_save_status final = db_save_status s0
             /\ email_sent_status final = email_sent_status s0).
Proof.
  intro E1.
  destruct (after_steps w s0) as (S2 & S3 & _).
  destruct (after_keeps_inputs w load_validate s0) as (U1 & F1 & T1).
  destruct (load_keeps w s0) as (_ & _ & J1 & M1 & _ & D1 & L1).
  change (load_and_validate_input w s0) with (after w load_validate s0)
    in J1, M1, D1, L1.
  split.
  - intros e P.
    assert (Q : after w parse_resume s0
                = set_parsed_resume
                    (set_error_message (after w load_validate s0)
                       (Some ("Resume Parsing Failed: " ++ exn_msg e))) None).
    { rewrite S2. unfold process_resume. rewrite E1, U1, F1, P. reflexivity. }
    assert (E2 : has_error (after w parse_resume s0) = true)
      by (rewrite Q; reflexivity).
    destruct (invoke_cases w s0)
      as [(E1' & X & J)|[(_ & _ & X & J)|[(_ & E2' & _)|(_ & E2' & _)]]];
      try congruence.
    split; [exact X|]. exists (after w parse_resume s0).
    split; [exact J|]. rewrite Q. cbn. repeat split. exact J1.
  - intros r e P Pj.
    assert (Q : after w parse_resume s0
                = set_error_message
                    (set_parsed_resume (after w load_validate s0) (Some r))
                    None).
    { rewrite S2. unfold process_resume. rewrite E1, U1, F1, P. reflexivity. }
    assert (E2 : has_error (after w parse_resume s0) = false)
      by (rewrite Q; reflexivity).
    assert (Q3 : after w parse_jd s0
                 = set_parsed_jd
                     (set_error_message (after w parse_resume s0)
                        (Some ("Job Description Parsing Failed: "
                               ++ exn_msg e))) None).
    { rewrite S3. unfold process_job_description. rewrite E2.
      replace (selected_job_title (after w parse_resume s0))
        with (selected_job_title s0)
        by (symmetry; apply (after_keeps_inputs w parse_resume s0)).
      replace (job_descriptions_df (after w parse_resume s0))
        with (job_descriptions_df (after w load_validate s0))
        by (rewrite Q; reflexivity).
      rewrite Pj. reflexivity. }
    assert (E3 : has_error (after w parse_jd s0) = true)
      by (rewrite Q3; reflexivity).
    destruct (invoke_cases w s0)
      as [(E1' & _)|[(_ & E2' & _)|[(_ & _ & _ & X & J)|(_ & _ & E3' & _)]]];
      try congruence.
    split; [exact X|]. exists (after w parse_jd s0).
    split; [exact J|]. rewrite Q3, Q. cbn. repeat split; assumption.
Qed.

(** The model's reply for the resume cannot be read. *)
Lemma extraction_failure_halts_witness :
  let w := Vary.with_resume_reply
             (Raise (Exn RequestException "502 Server Error: Bad Gateway"))
             Scenario.all_well in
  let s0 := Scenario.start "Data Scientist" in
  let e := Exn RuntimeError
             "Failed to parse resume 'resume.txt': LLM failed to parse resume, returned empty data." in
  executed_by w s0 [load_validate; parse_resume]
  /\ exists final,
       invoke w s0 = Some final
       /\ error_message final = Some ("Resume Parsing Failed: " ++ exn_msg e)
       /\ parsed_resume final = None
       /\ parsed_jd final = parsed_jd s0.
Proof.
  intros w s0 e.
  apply (proj1 (extraction_failure_halts w s0 ltac:(reflexivity)) e).
  vm_compute. reflexivity.
Defined.

(** X17. For the state any run returns, the dashboard's test in front of
    the captions about the mail configuration is false: a mail that was
    not sent always comes with an error.  When the run started without a
    score, the metric is shown exactly when the run went through all six
    nodes. *)
Theorem dashboard_tests (w : World) (s0 final : AppState) :
  invoke w s0 = Some final ->
  dashboard.wants_mail_caption final = false
  /\ (match_score s0 = None ->
      (dashboard.shows_metric final = true <-> executed_by w s0 all_nodes)).
Proof.
  intro I. unfold dashboard.wants_mail_caption, dashboard.shows_metric.
  destruct (after_steps w s0) as (S2 & S3 & S4 & S5 & S6).
  destruct (load_keeps w s0) as (_ & _ & _ & M1 & _).
  destruct (process_resume_keeps w (after w load_validate s0))
    as (_ & _ & _ & M2 & _).
  destruct (process_job_description_keeps w (after w parse_resume s0))
    as (_ & M3 & _).
  destruct (save_to_database_keeps w (after w matching s0))
    as (_ & _ & M5 & _).
  destruct (send_candidate_email_keeps w (after w save_db s0))
    as (_ & _ & M6 & _).
  change (load_and_validate_input w s0) with (after w load_validate s0) in M1.
  rewrite <- S2 in M2. rewrite <- S3 in M3. rewrite <- S5 in M5.
  rewrite <- S6 in M6.
  destruct (invoke_cases w s0)
    as [(E1 & X & J)|[(E1 & E2 & X & J)|[(E1 & E2 & E3 & X & J)
       |(E1 & E2 & E3 & X & J)]]];
    rewrite J in I; apply some_eq in I; subst final.
  - rewrite E1, andb_false_r. split; [reflexivity|].
    intro N. rewrite M1, N. split; [discriminate|].
    intro Y. unfold executed_by in *. rewrite X in Y. discriminate Y.
  - rewrite E2, andb_false_r. split; [reflexivity|].
    intro N. rewrite M2, M1, N. split; [discriminate|].
    intro Y. unfold executed_by in *. rewrite X in Y. discriminate Y.
  - rewrite E3, andb_false_r. split; [reflexivity|].
    intro N. rewrite M3, M2, M1, N. split; [discriminate|].
    intro Y. unfold executed_by in *. rewrite X in Y. discriminate Y.
  - split.
    + destruct (email_sent_status (after w send_email s0)) eqn:M;
        [reflexivity|].
      rewrite S6 in M. pose proof (mail_unsent_has_error w _ M) as H.
      rewrite <- S6 in H. rewrite H. reflexivity.
    + intros _.
      destruct (matching_leaves_no_error w s0 E1 E2 E3) as (_ & x & Sc & _).
      rewrite M6, M5, Sc. split; [intros _; exact X|reflexivity].
Qed.

Lemma dashboard_tests_witness :
  let w := Scenario.store_fails Scenario.catalogue in
  let s0 := Scenario.start "Data Scientist" in
  dashboard.wants_mail_caption (after w send_email s0) = false
  /\ (match_score s0 = None ->
      (dashboard.shows_metric (after w send_email s0) = true
       <-> executed_by w s0 all_nodes)).
Proof.
  intros w s0. apply (dashboard_tests w s0). vm_compute. reflexivity.
Defined.

(** X18. No node changes the file bytes, the file name or the selected
    title, so the state a run returns has the inputs it started with; and
    in a run through all six nodes each result stays as its node wrote
    it: the resume record of [parse_resume], the job record of
    [parse_jd], the score and the feedback of [match], the storage flag
    of [save_db]. *)
Theorem results_are_written_once (w : World) (s0 final : AppState) :
  invoke w s0 = Some final ->
  uploaded_file_content final = uploaded_file_content s0
  /\ uploaded_filename final = uploaded_filename s0
  /\ selected_job_title final = selected_job_title s0
  /\ (executed_by w s0 all_nodes ->
      parsed_resume final = parsed_resume (after w parse_resume s0)
      /\ parsed_jd final = parsed_jd (after w parse_jd s0)
      /\ match_score final = match_score (after w matching s0)
      /\ feedback final = feedback (after w matching s0)
      /\ db_save_status final = db_save_status (after w save_db s0))
  /\ (forall n s,
        uploaded_file_content (node_function w n s) = uploaded_file_content s
        /\ uploaded_filename (node_function w n s) = uploaded_filename s
        /\ selected_job_title (node_function w n s) = selected_job_title s).
Proof.
  intro I.
  assert (N : forall n s,
             uploaded_file_content (node_function w n s)
             = uploaded_file_content s
             /\ uploaded_filename (node_function w n s) = uploaded_filename s
             /\ selected_job_title (node_function w n s)
                = selected_job_title s).
  { intros n s.
    apply (nodes_keep_inputs w (node_function w n));
      [destruct n; cbn; tauto|repeat split]. }
  destruct (after_steps w s0) as (S2 & S3 & S4 & S5 & S6).
  destruct (process_job_description_keeps w (after w parse_resume s0))
    as (R3 & _).
  destruct (perform_matching_keeps w (after w parse_jd s0)) as (R4 & J4 & _).
  destruct (save_to_database_keeps w (after w matching s0))
    as (R5 & J5 & M5 & F5 & _).
  destruct (send_candidate_email_keeps w (after w save_db s0))
    as (R6 & J6 & M6 & F6 & D6).
  rewrite <- S3 in R3. rewrite <- S4 in R4, J4.
  rewrite <- S5 in R5, J5, M5, F5. rewrite <- S6 in R6, J6, M6, F6, D6.
  destruct (invoke_cases w s0)
    as [(E1 & X & J)|[(E1 & E2 & X & J)|[(E1 & E2 & E3 & X & J)
       |(E1 & E2 & E3 & X & J)]]];
    rewrite J in I; apply some_eq in I; subst final;
    (split; [apply after_keeps_inputs|]);
    (split; [apply after_keeps_inputs|]);
    (split; [apply after_keeps_inputs|]);
    (split; [|exact N]);
    intro Y; unfold executed_by in *; rewrite X in Y;
    try discriminate Y.
  repeat split; congruence.
Qed.

Lemma results_are_written_once_witness :
  let w := Scenario.all_well in
  let s0 := Scenario.start "Data Scientist" in
  let final := after w send_email s0 in
  uploaded_file_content final = uploaded_file_content s0
  /\ uploaded_filename final = uploaded_filename s0
  /\ selected_job_title final = selected_job_title s0
  /\ (executed_by w s0 all_nodes ->
      parsed_resume final = parsed_resume (after w parse_resume s0)
      /\ parsed_jd final = parsed_jd (after w parse_jd s0)
      /\ match_score final = match_score (after w matching s0)
      /\ feedback final = feedback (after w matching s0)
      /\ db_save_status final = db_save_status (after w save_db s0))
  /\ (forall n s,
        uploaded_file_content (node_function w n s) = uploaded_file_content s
        /\ uploaded_filename (node_function w n s) = uploaded_filename s
        /\ selected_job_title (node_function w n s) = selected_job_title s).
Proof.
  intros w s0 final. apply (results_are_written_once w s0 final).
  vm_compute. reflexivity.
Defined.

End RunFrames.

Section MailText.

Import email_sender.

Lemma str_contains_self (x : string) : str_contains x x = true.
Proof.
  apply str_contains_iff. exists "", "". cbn. symmetry. apply append_empty_r.
Qed.

(** A line of [lines l] occurs in it. *)
Lemma lines_contain (x : string) (l : list string) :
  In x l -> str_contains x (lines l) = true.
Proof.
  unfold lines. induction l as [|y l IH]; [intros []|].
  intro H. destruct l as [|z l].
  - destruct H as [->|[]]. cbn. apply str_contains_self.
  - change (String.concat nl (y :: z :: l))
      with (y ++ nl ++ String.concat nl (z :: l)).
    destruct H as [->|H].
    + apply str_contains_iff. exists "". eexists. cbn. reflexivity.
    + specialize (IH H). apply str_contains_iff in IH.
      destruct IH as (a & b & ->). apply str_contains_iff.
      exists (y ++ nl ++ a), b. rewrite !append_assoc. reflexivity.
Qed.

(** What occurs in a line of [lines l] occurs in it. *)
Lemma lines_contain_part (x line : string) (l : list string) :
  In line l -> str_contains x line = true -> str_contains x (lines l) = true.
Proof.
  intros I H. pose proof (lines_contain line l I) as C.
  apply str_contains_iff in C. destruct C as (a & b & ->).
  apply str_contains_inside. exact H.
Qed.

Lemma str_contains_middle (x p q : string) :
  str_contains x (p ++ x ++ q) = true.
Proof. apply str_contains_iff. exists p, q. reflexivity. Qed.

Lemma name_or_candidate_not_empty (candidate_name : option string) :
  name_or_candidate candidate_name <> "".
Proof.
  unfold name_or_candidate. destruct candidate_name as [n|]; [|discriminate].
  destruct (String.eqb_spec n ""); [discriminate|assumption].
Qed.

(** What both texts of [email_content] carry. *)
Lemma email_content_carries (w : World) (candidate_name : option string)
  (job_title : string) (match_score : float) (feedback : pyval) :
  let subject :=
    fst (email_content w candidate_name job_title match_score feedback) in
  let body :=
    snd (email_content w candidate_name job_title match_score feedback) in
  str_contains job_title subject = true
  /\ str_contains job_title body = true
  /\ str_contains ("Match Score: " ++ format_1f w match_score ++ "%") body
     = true
  /\ str_contains (format_value w feedback) body = true
  /\ str_contains ("Dear " ++ name_or_candidate candidate_name ++ ",") body
     = true.
Proof.
  unfold email_content.
  destruct (is_qualified match_score); cbn [fst snd];
    unfold congratulatory_subject, congratulatory_body,
      rejection_subject, rejection_body.
  - split; [apply str_contains_middle|].
    split; [eapply lines_contain_part;
            [do 3 right; left; reflexivity|apply str_contains_middle]|].
    split; [eapply lines_contain_part;
            [do 3 right; left; reflexivity|]|].
    { apply str_contains_iff.
      exists ("Congratulations! We were impressed with your resume and qualifications for the "
              ++ job_title ++ " position ("), ").".
      rewrite !append_assoc. reflexivity. }
    split; apply lines_contain; cbn; tauto.
  - split.
    { apply str_contains_iff. eexists. exists "".
      rewrite append_empty_r. reflexivity. }
    split; [eapply lines_contain_part;
            [do 3 right; left; reflexivity|apply str_contains_middle]|].
    split; [eapply lines_contain_part;
            [do 7 right; left; reflexivity|]|].
    { apply str_contains_iff.
      exists "Our automated system provided the following feedback based on your resume against the job requirements (", "):".
      rewrite !append_assoc. reflexivity. }
    split; apply lines_contain; cbn; tauto.
Qed.

(** X19. When [send_application_email] returns [True], an SMTP session
    went through for a message from [EMAIL_SENDER] to the candidate's
    address, which is not empty; its subject holds the job title, and its
    body holds the job title, the formatted score after "Match Score: ",
    the formatted feedback, and a greeting with a name that is never
    empty ("Candidate" when the resume has none). *)
Theorem sent_mail_carries_the_result (w : World)
  (to_email candidate_name : option string) (job_title : string)
  (match_score : float) (feedback : pyval) :
  send_application_email w to_email candidate_name job_title match_score
    feedback = Ok true ->
  exists subject body,
    smtp_session w subject (text_of (EMAIL_SENDER w)) (text_of to_email) body
    = Ok tt
    /\ text_of to_email <> ""
    /\ text_of (EMAIL_SENDER w) <> ""
    /\ str_contains job_title subject = true
    /\ str_contains job_title body = true
    /\ str_contains ("Match Score: " ++ format_1f w match_score ++ "%") body
       = true
    /\ str_contains (format_value w feedback) body = true
    /\ str_contains ("Dear " ++ name_or_candidate candidate_name ++ ",") body
       = true
    /\ name_or_candidate candidate_name <> "".
Proof.
  intro H.
  destruct (send_application_email_sent w _ _ _ _ _ H) as (S & _ & T & M).
  destruct (email_content_carries w candidate_name job_title match_score
              feedback) as (A & B & C & D & E).
  eexists. eexists. split; [exact M|].
  split; [destruct to_email as [[|c t]|]; cbn in *; discriminate|].
  split; [destruct (EMAIL_SENDER w) as [[|c t]|]; cbn in *; discriminate|].
  repeat split; try assumption. apply name_or_candidate_not_empty.
Qed.

Lemma sent_mail_carries_the_result_witness :
  let w := Scenario.all_well in
  exists subject body,
    smtp_session w subject (text_of (EMAIL_SENDER w))
      (text_of (Some "asha@example.com")) body = Ok tt
    /\ text_of (Some "asha@example.com") <> ""
    /\ text_of (EMAIL_SENDER w) <> ""
    /\ str_contains "Data Scientist" subject = true
    /\ str_contains "Data Scientist" body = true
    /\ str_contains ("Match Score: " ++ format_1f w 80%float ++ "%") body
       = true
    /\ str_contains (format_value w (PStr "Strong fit.")) body = true
    /\ str_contains ("Dear " ++ name_or_candidate None ++ ",") body = true
    /\ name_or_candidate None <> "".
Proof.
  intro w.
  apply (sent_mail_carries_the_result w (Some "asha@example.com") None
           "Data Scientist" 80%float (PStr "Strong fit.")).
  vm_compute. reflexivity.
Defined.

End MailText.

Section FailedScoring.

Import matcher.

(** X20. [calculate_match_and_feedback] answers a failure with the score
    0.0 and a fixed text.  With both records serialised, a missing API
    key, a request that raises (time-out, HTTP error) and a reply without
    choices all give "Error: Could not generate matching results."; a
    record that cannot be serialised gives "An error occurred during the
    matching process.". *)
Theorem failed_scoring_reads_as_zero (w : World)
  (resume_info : ResumeInfo.t) (jd_info : JobDescriptionInfo.t) :
  (forall rj jj,
      resume_json w resume_info = Ok rj ->
      jd_json w jd_info = Ok jj ->
      truthy_str (DEEPSEEK_API_KEY w) = false
      \/ (exists e, post_matching w jj rj = Raise e)
      \/ (exists d, post_matching w jj rj = Ok d
                    /\ first_choice_content d = Ok None) ->
      calculate_match_and_feedback w resume_info jd_info
      = Ok (0%float, PStr "Error: Could not generate matching results."))
  /\ ((exists e, resume_json w resume_info = Raise e)
      \/ (exists e, jd_json w jd_info = Raise e) ->
      calculate_match_and_feedback w resume_info jd_info
      = Ok (0%float, PStr "An error occurred during the matching process.")).
Proof.
  unfold calculate_match_and_feedback, call_deepseek_for_matching. split.
  - intros rj jj -> -> H. cbn [bind try_except].
    destruct (truthy_str (DEEPSEEK_API_KEY w)); cbn [negb];
      [|reflexivity].
    destruct H as [H|[(e & ->)|(d & -> & C)]]; [discriminate|reflexivity|].
    cbn [bind]. rewrite C. reflexivity.
  - intros [(e & ->)|(e & E)]; [reflexivity|].
    destruct (resume_json w resume_info); cbn [bind try_except];
      [rewrite E|]; reflexivity.
Qed.

Lemma failed_scoring_reads_as_zero_witness :
  let w := Scenario.scoring_times_out in
  calculate_match_and_feedback w Scenario.asha
    (JobDescriptionInfo.mk "Data Scientist" None None None [] [] [] None
       None (PDict []))
  = Ok (0%float, PStr "Error: Could not generate matching results.").
Proof.
  intro w.
  eapply (proj1 (failed_scoring_reads_as_zero w Scenario.asha
                   (JobDescriptionInfo.mk "Data Scientist" None None None [] [] [] None
       None (PDict []))));
    [vm_compute; reflexivity|vm_compute; reflexivity|].
  right. left. eexists. vm_compute. reflexivity.
Defined.

End FailedScoring.

Section JobLookup.

Import jd_parser.

(** The accessor is granted on a column with a text in it, and on the
    column of a catalogue without rows. *)
Lemma str_accessor_granted (column : string) (df : DataFrame) :
  rows df = []
  \/ (exists row t, In row (rows df) /\ row_cell column row = Some t) ->
  str_accessor column df = Ok tt.
Proof.
  unfold str_accessor. intros [E|(row & t & I & C)].
  - rewrite E. reflexivity.
  - destruct (rows df) as [|r rest] eqn:R; [reflexivity|].
    assert (X : existsb (fun row => notna (row_cell column row)) (r :: rest)
                = true).
    { apply existsb_exists. exists row. split; [exact I|].
      rewrite C. reflexivity. }
    rewrite X. reflexivity.
Qed.

(** It is refused on a column whose cells are all missing. *)
Lemma str_accessor_refused (column : string) (df : DataFrame) :
  rows df <> [] ->
  (forall row, In row (rows df) -> row_cell column row = None) ->
  str_accessor column df
  = Raise (Exn AttributeError
             "Can only use .str accessor with string values!").
Proof.
  unfold str_accessor. intros N A.
  destruct (rows df) as [|r rest] eqn:R; [contradiction N; reflexivity|].
  assert (X : existsb (fun row => notna (row_cell column row)) (r :: rest)
              = false).
  { destruct (existsb _ (r :: rest)) eqn:E; [|reflexivity].
    apply existsb_exists in E. destruct E as (row & I & C).
    rewrite (A row I) in C. discriminate C. }
  rewrite X. reflexivity.
Qed.

(** A row that matches a title has a title. *)
Lemma title_matches_text (title : string) (row : list (string * cell)) :
  title_matches title row = true ->
  exists t, row_cell "Job Title" row = Some t.
Proof.
  unfold title_matches. destruct (row_cell "Job Title" row) as [t|];
    [eauto|discriminate].
Qed.

(** X21. In a catalogue with a title column, [parse_job_description]
    reads the first row whose title matches and no other: the result is
    the one for the catalogue cut down to that row.  When the catalogue
    has rows and every title in it is missing, the lookup itself fails
    and the failure is the one pandas raises for the text accessor.
    Otherwise, without a matching row it raises "Job title '...' not found
    in the provided CSV.", and when the description in the row read is
    empty or blank it raises "Job description text is empty for '...'.".
    Each failure is wrapped as the other failures of the function are. *)
Theorem job_lookup_uses_first_match (w : World) (title : string)
  (df : DataFrame) :
  has_column "Job Title" df = true ->
  (rows df <> [] ->
   (forall row, In row (rows df) -> row_cell "Job Title" row = None) ->
   exists reason,
     parse_job_description w (Some title) (Some df)
     = Raise (Exn RuntimeError
                ("Failed to parse job description '" ++ title ++ "': "
                 ++ reason))
     /\ is_prefix "Can only use .str accessor with string values" reason
        = true)
  /\ (rows df = []
      \/ (exists row t, In row (rows df)
                        /\ row_cell "Job Title" row = Some t) ->
      filter (title_matches title) (rows df) = [] ->
      parse_job_description w (Some title) (Some df)
      = Raise (Exn RuntimeError
                 ("Failed to parse job description '" ++ title ++ "': "
                  ++ "Job title '" ++ title
                  ++ "' not found in the provided CSV.")))
  /\ (forall first_row others,
        filter (title_matches title) (rows df) = first_row :: others ->
        parse_job_description w (Some title) (Some df)
        = parse_job_description w (Some title)
            (Some {| columns := columns df; rows := [first_row] |})
        /\ (has_column "Job Description" df = true ->
            forall text,
              row_cell "Job Description" first_row = Some text ->
              all_space text = true ->
              parse_job_description w (Some title) (Some df)
              = Raise (Exn RuntimeError
                         ("Failed to parse job description '" ++ title
                          ++ "': " ++ "Job description text is empty for '"
                          ++ title ++ "'.")))).
Proof.
  intro T. split; [|split].
  - intros N A. eexists. split.
    + unfold parse_job_description. cbn [bind].
      rewrite T. cbn [bind]. rewrite (str_accessor_refused _ _ N A).
      reflexivity.
    + reflexivity.
  - intros G F. unfold parse_job_description. cbn [bind].
    rewrite T. cbn [bind]. rewrite (str_accessor_granted _ _ G).
    cbn [bind]. rewrite F. reflexivity.
  - intros first_row others F.
    assert (I : In first_row (rows df) /\ title_matches title first_row = true).
    { apply filter_In. rewrite F. left. reflexivity. }
    destruct I as (I & M).
    destruct (title_matches_text _ _ M) as (t & Ct).
    assert (G : str_accessor "Job Title" df = Ok tt).
    { apply str_accessor_granted. right. exists first_row, t.
      split; assumption. }
    assert (G1 : str_accessor "Job Title"
                   {| columns := columns df; rows := [first_row] |} = Ok tt).
    { apply str_accessor_granted. right. exists first_row, t.
      split; [left; reflexivity|exact Ct]. }
    split.
    + unfold parse_job_description. cbn [bind].
      rewrite G, G1. unfold optional_column, has_column in *.
      cbn [bind columns rows filter]. rewrite T, F, M. reflexivity.
    + intros D text C B. unfold parse_job_description. cbn [bind].
      rewrite T. cbn [bind]. rewrite G. cbn [bind]. rewrite F, D.
      cbn [bind]. rewrite C. cbn [bind].
      rewrite (blank_text text B). reflexivity.
Qed.

(** A catalogue whose only row has no title. *)
Lemma job_lookup_uses_first_match_witness :
  let df := {| columns := ["Job Title"; "Job Description"];
               rows := [[("Job Title", None);
                         ("Job Description", Some "Build and ship models.")]] |} in
  exists reason,
    parse_job_description Scenario.all_well (Some "Data Scientist") (Some df)
    = Raise (Exn RuntimeError
               ("Failed to parse job description '" ++ "Data Scientist"
                ++ "': " ++ reason))
    /\ is_prefix "Can only use .str accessor with string values" reason
       = true.
Proof.
  intro df.
  apply (proj1 (job_lookup_uses_first_match Scenario.all_well
                  "Data Scientist" df ltac:(reflexivity))).
  - discriminate.
  - intros row [<-|[]]. reflexivity.
Defined.

End JobLookup.


(* ================================================================== *)
(** ** What [save_db] and [send_email] do with the score *)
(* ================================================================== *)

Section Handover.

Import main.

(** With a score, a resume record and a feedback in the state,
    [send_candidate_email] calls the mail function, and the flag it sets
    is that call's answer. *)
Lemma mail_flag_is_the_answer (w : World) (state : AppState) (score : float)
  (r : ResumeInfo.t) :
  match_score state = Some score ->
  parsed_resume state = Some r ->
  truthy (feedback state) = true ->
  (email_sent_status (send_candidate_email w state) = true
   <-> email_sender.send_application_email w (ResumeInfo.email r)
         (ResumeInfo.candidate_name r)
         (format_optional (selected_job_title state)) score (feedback state)
       = Ok true).
Proof.
  intros Sc Pr F. unfold send_candidate_email. rewrite Sc, Pr, F.
  cbn [negb].
  destruct (email_sender.send_application_email w _ _ _ _ _) as [[|]|e].
  - cbn [negb andb]. split; reflexivity.
  - change (has_error (set_email_sent_status state false))
      with (has_error state).
    destruct (has_error state); cbn; split; discriminate.
  - cbn. split; discriminate.
Qed.

(** Without a feedback no mail is sent. *)
Lemma no_feedback_no_mail (w : World) (state : AppState) :
  truthy (feedback state) = false ->
  email_sent_status (send_candidate_email w state) = false.
Proof.
  intro F. unfold send_candidate_email. rewrite F. cbn [negb].
  change (has_error (set_email_sent_status state false)) with (has_error state).
  destruct (match_score state), (parsed_resume state), (has_error state);
    reflexivity.
Qed.

(** What [save_to_database] hands on to [send_candidate_email]. *)
Lemma save_hands_on (w : World) (state : AppState) :
  match_score (save_to_database w state) = match_score state
  /\ parsed_resume (save_to_database w state) = parsed_resume state
  /\ parsed_jd (save_to_database w state) = parsed_jd state
  /\ feedback (save_to_database w state) = feedback state
  /\ selected_job_title (save_to_database w state) = selected_job_title state.
Proof.
  destruct (save_to_database_keeps w state) as (R & J & M & F & _).
  destruct (nodes_keep_inputs w (save_to_database w) ltac:(cbn; tauto)
              state state ltac:(repeat split)) as (_ & _ & T).
  repeat split; assumption.
Qed.

(** The flag [save_to_database] sets on a state with a score and no error
    is the answer of [save_match_results]. *)
Lemma save_flag_is_the_answer (w : World) (state : AppState) (score : float) :
  match_score state = Some score ->
  has_error state = false ->
  (db_save_status (save_to_database w state) = true
   <-> database.save_match_results w (parsed_resume state) (parsed_jd state)
         score (feedback state) = Ok true).
Proof.
  intros Sc E. unfold save_to_database. rewrite Sc, E.
  destruct (database.save_match_results w _ _ _ _) as [[|]|e].
  - split; reflexivity.
  - cbn [negb].
    change (has_error (set_db_save_status state false)) with (has_error state).
    rewrite E. cbn. split; discriminate.
  - cbn. split; discriminate.
Qed.

(** The last two nodes, run on a state with a score, a resume record and
    no error: score, records and feedback are handed through, the storage
    flag is the store's answer and the mail flag the mail function's. *)
Lemma last_two_nodes (w : World) (state : AppState) (score : float)
  (r : ResumeInfo.t) :
  match_score state = Some score ->
  parsed_resume state = Some r ->
  has_error state = false ->
  let final := send_candidate_email w (save_to_database w state) in
  match_score final = Some score
  /\ parsed_resume final = Some r
  /\ parsed_jd final = parsed_jd state
  /\ feedback final = feedback state
  /\ (db_save_status final = true
      <-> database.save_match_results w (Some r) (parsed_jd state) score
            (feedback state) = Ok true)
  /\ (email_sent_status final = true
      <-> truthy (feedback state) = true
          /\ email_sender.send_application_email w (ResumeInfo.email r)
               (ResumeInfo.candidate_name r)
               (format_optional (selected_job_title state)) score
               (feedback state) = Ok true).
Proof.
  intros Sc Pr E final. unfold final.
  destruct (save_hands_on w state) as (M5 & R5 & J5 & F5 & T5).
  destruct (send_candidate_email_keeps w (save_to_database w state))
    as (R6 & J6 & M6 & F6 & D6).
  cbv zeta in R6, J6, M6, F6, D6.
  split; [rewrite M6, M5; exact Sc|].
  split; [rewrite R6, R5; exact Pr|].
  split; [rewrite J6, J5; reflexivity|].
  split; [rewrite F6, F5; reflexivity|].
  split.
  - rewrite D6, <- Pr. apply save_flag_is_the_answer; assumption.
  - rewrite <- T5, <- F5.
    destruct (truthy (feedback (save_to_database w state))) eqn:F.
    + pose proof (mail_flag_is_the_answer w (save_to_database w state) score r
                    ltac:(rewrite M5; exact Sc) ltac:(rewrite R5; exact Pr) F)
        as Q.
      split; [intro H; split; [reflexivity|apply Q; exact H]
             |intros (_ & H); apply Q; exact H].
    + rewrite (no_feedback_no_mail w _ F).
      split; [discriminate|intros (H & _); discriminate H].
Qed.

End Handover.

(* ================================================================== *)
(** ** From [save_db] to [send_email] *)
(* ================================================================== *)

Section PersistNotify.

Import main.

(** C2. In every run, a [save_db] step is followed by the [send_email]
    step, run on the state [save_db] returned whatever that state holds,
    and the run ends there.  When the store does not report success for a
    state with a score and no error, [save_to_database] leaves
    [db_save_status] false and records one of its own two messages; when
    the state already has an error, the error text is left as it is.
    Whatever [save_to_database] did, the mail is attempted on the state
    it returns: with a score, a resume record and a feedback, the flag
    [send_candidate_email] sets is the answer of the mail function for
    them.  So in every run from an initial state that reaches [save_db],
    the final [db_save_status] is the store's answer and the final
    [email_sent_status] is the mail function's answer, whatever the
    store's was; and there is a run from an initial state in which the
    store fails and the mail is sent all the same. *)
Theorem persist_then_notify (w : World) :
  (forall s0 : AppState,
      exists t, invoke_trace w s0 = Some t
        /\ forall i s, nth_error t i = Some (save_db, s) ->
             nth_error t (S i) = Some (send_email, send_candidate_email w s)
             /\ List.length t = S (S i))
  /\
  (forall (state : AppState) (score : float),
      match_score state = Some score ->
      has_error state = false ->
      database.save_match_results w (parsed_resume state) (parsed_jd state)
        score (feedback state) <> Ok true ->
      db_save_status (save_to_database w state) = false
      /\ (error_message (save_to_database w state)
            = Some "Failed to save results to the database."
          \/ exists e, error_message (save_to_database w state)
                       = Some ("Database Save Failed: " ++ exn_msg e)))
  /\
  (forall state : AppState,
      has_error state = true ->
      error_message (save_to_database w state) = error_message state
      /\ db_save_status (save_to_database w state) = false)
  /\
  (forall (state : AppState) (score : float) (r : ResumeInfo.t),
      match_score state = Some score ->
      parsed_resume state = Some r ->
      truthy (feedback state) = true ->
      (email_sent_status (send_candidate_email w (save_to_database w state))
       = true
       <-> email_sender.send_application_email w (ResumeInfo.email r)
             (ResumeInfo.candidate_name r)
             (format_optional (selected_job_title state)) score
             (feedback state) = Ok true))
  /\
  (forall (file_bytes name selected_job : string) (t : trace),
      let s0 := initial_state file_bytes name selected_job in
      invoke_trace w s0 = Some t ->
      In save_db (executed t) ->
      exists score r,
        match_score (final_state s0 t) = Some score
        /\ parsed_resume (final_state s0 t) = Some r
        /\ (db_save_status (final_state s0 t) = true
            <-> database.save_match_results w (Some r)
                  (parsed_jd (final_state s0 t)) score
                  (feedback (final_state s0 t)) = Ok true)
        /\ (email_sent_status (final_state s0 t) = true
            <-> truthy (feedback (final_state s0 t)) = true
                /\ email_sender.send_application_email w (ResumeInfo.email r)
                     (ResumeInfo.candidate_name r) selected_job score
                     (feedback (final_state s0 t)) = Ok true))
  /\
  (exists (w' : World) (file_bytes name selected_job : string) (t : trace),
      let s0 := initial_state file_bytes name selected_job in
      invoke_trace w' s0 = Some t
      /\ sqlite_insert w' = (fun _ => Raise (Exn SqliteError "database is locked"))
      /\ executed t = all_nodes
      /\ match_score (final_state s0 t) = Some 80%float
      /\ db_save_status s0 = false
      /\ email_sent_status s0 = false
      /\ db_save_status (final_state s0 t) = false
      /\ email_sent_status (final_state s0 t) = true
      /\ error_message (final_state s0 t)
           = Some "Failed to save results to the database.").
Proof.
  split; [|split; [|split; [|split; [|split]]]].
  - intro s0. rewrite invoke_trace_shape. unfold after.
    destruct (has_error (load_and_validate_input w s0));
      [|destruct (has_error (process_resume w _));
        [|destruct (has_error (process_job_description w _));
          [|destruct (has_error (perform_matching w _))]]];
      (eexists; split; [reflexivity|]);
      intros i s H; positions i H; inversion H; subst s.
    split; reflexivity.
  - intros state score Hs He Hf. unfold save_to_database.
    rewrite Hs, He.
    destruct (database.save_match_results w _ _ _ _) as [[|]|e].
    + contradiction Hf. reflexivity.
    + cbn [negb].
      change (has_error (set_db_save_status state false))
        with (has_error state).
      rewrite He. cbn. auto.
    + cbn. split; [reflexivity|]. right. exists e. reflexivity.
  - intros state He. unfold save_to_database. rewrite He.
    destruct (match_score state); split; reflexivity.
  - intros state score r Sc Pr F.
    destruct (save_hands_on w state) as (M & R & _ & Fb & T).
    rewrite <- T, <- Fb.
    apply mail_flag_is_the_answer; [rewrite M; exact Sc|rewrite R; exact Pr|].
    rewrite Fb. exact F.
  - intros file_bytes name selected_job t s0 T I.
    destruct (after_steps w s0) as (_ & _ & S4 & S5 & S6).
    destruct (trace_cases w s0)
      as [(E1 & X)|[(E1 & E2 & X)|[(E1 & E2 & E3 & X)|(E1 & E2 & E3 & X)]]];
      rewrite X in T; apply some_eq in T; subst t;
      try (cbn [executed map fst In] in I; exfalso; intuition discriminate).
    rewrite final_state_6.
    destruct (matching_leaves_no_error w s0 E1 E2 E3) as (N4 & score & Sc & _).
    destruct (records_after_parse_jd w s0 E1 E2 E3) as (r & j & Pr & _).
    destruct (perform_matching_keeps w (after w parse_jd s0)) as (K4 & _).
    rewrite <- S4 in K4.
    assert (Pr4 : parsed_resume (after w matching s0) = Some r)
      by (rewrite K4; exact Pr).
    assert (T4 : selected_job_title (after w matching s0) = Some selected_job)
      by apply (after_keeps_inputs w matching s0).
    destruct (last_two_nodes w (after w matching s0) score r Sc Pr4
                (no_error_clear _ N4)) as (M & R & J & F & D & L).
    rewrite <- S5, <- S6 in M, R, J, F, D, L.
    rewrite T4 in L. cbn [format_optional] in L.
    exists score, r.
    split; [exact M|]. split; [exact R|].
    rewrite J, F. split; assumption.
  - exists (Scenario.store_fails Scenario.catalogue),
      "Asha Rao - Python developer", "resume.txt", "Data Scientist".
    eexists. cbv zeta. split; [vm_compute; reflexivity|].
    repeat split.
Qed.

(** The run of [Scenario.store_fails]: the INSERT is refused, and the
    mail goes out. *)
Lemma persist_then_notify_witness :
  let w := Scenario.store_fails Scenario.catalogue in
  let s0 := initial_state "Asha Rao - Python developer" "resume.txt"
              "Data Scientist" in
  exists t,
    invoke_trace w s0 = Some t
    /\ exists score r,
         match_score (final_state s0 t) = Some score
         /\ parsed_resume (final_state s0 t) = Some r
         /\ (db_save_status (final_state s0 t) = true
             <-> database.save_match_results w (Some r)
                   (parsed_jd (final_state s0 t)) score
                   (feedback (final_state s0 t)) = Ok true)
         /\ (email_sent_status (final_state s0 t) = true
             <-> truthy (feedback (final_state s0 t)) = true
                 /\ email_sender.send_application_email w (ResumeInfo.email r)
                      (ResumeInfo.candidate_name r) "Data Scientist" score
                      (feedback (final_state s0 t)) = Ok true).
Proof.
  intros w s0.
  destruct (invoke_trace w s0) as [t|] eqn:T;
    [|vm_compute in T; discriminate T].
  exists t. split; [reflexivity|].
  apply (proj1 (proj2 (proj2 (proj2 (proj2 (persist_then_notify w)))))
           "Asha Rao - Python developer" "resume.txt" "Data Scientist" t T).
  vm_compute in T. apply some_eq in T. subst t. vm_compute. tauto.
Defined.

End PersistNotify.

(* ================================================================== *)
(** ** The score that is recorded *)
(* ================================================================== *)

Section RecordedScore.

Import matcher main.

Lemma some_eq_ok {A : Type} (a b : A) : Ok a = Ok b -> a = b.
Proof. congruence. Qed.

(** The code finds the text of the first choice. *)
Lemma first_choice_text_content (response_data : pyval) (content : string) :
  first_choice_text response_data content ->
  first_choice_content response_data = Ok (Some (PStr content)).
Proof.
  intros (body & choice & others & message & -> & C & M & T).
  unfold first_choice_content.
  cbn [py_contains bind]. unfold dict_contains. rewrite C. cbn [negb].
  cbn [py_getitem]. rewrite C. cbn [bind py_len List.length Nat.eqb py_index0].
  cbn [py_get]. rewrite M. cbn [bind py_get]. rewrite T. reflexivity.
Qed.

(** The two assignments that read the answer, on an object. *)
Lemma score_and_feedback_object (w : World) (missing : string)
  (d : list (string * pyval)) :
  score_and_feedback w missing (PDict d)
  = match py_float (float_of_str w)
            match dict_lookup "match_score" d with
            | Some v => v
            | None => PInt 0
            end with
    | Ok s => Ok (clamp_score s,
                  match dict_lookup "feedback" d with
                  | Some v => v
                  | None => PStr missing
                  end)
    | Raise e => Raise e
    end.
Proof.
  unfold score_and_feedback. cbn [py_get].
  destruct (dict_lookup "match_score" d); cbn [bind];
    (destruct (py_float (float_of_str w) _); cbn [bind]; [|reflexivity]);
    destruct (dict_lookup "feedback" d); reflexivity.
Qed.

(** A score [float()] converts comes back clamped, with the feedback of
    the answer. *)
Lemma scored_reply (w : World) (rj jj : string) (raw feedback_text : pyval)
  (s : float) :
  returned_score w rj jj raw feedback_text ->
  py_float (float_of_str w) raw = Ok s ->
  call_deepseek_for_matching w rj jj = Ok (clamp_score s, feedback_text).
Proof.
  intros (K & response & content & d & missing & P & C & O & -> & ->) F.
  unfold call_deepseek_for_matching. rewrite K. cbn [negb].
  rewrite P. cbn [bind]. rewrite (first_choice_text_content _ _ C).
  cbn [bind]. rewrite loads_text.
  destruct O as [J|x J Fence X Jx].
  - rewrite J. cbn [bind]. rewrite score_and_feedback_object, F.
    reflexivity.
  - rewrite J. cbn [bind try_except is_json_decode_error exn_cls].
    unfold from_markdown. rewrite Fence, X. cbn [bind].
    rewrite loads_text, Jx. cbn [bind].
    rewrite score_and_feedback_object, F. reflexivity.
Qed.

(** A score [float()] refuses gives the result of a failed call. *)
Lemma refused_reply (w : World) (rj jj : string) (raw feedback_text : pyval)
  (e : exn) :
  returned_score w rj jj raw feedback_text ->
  py_float (float_of_str w) raw = Raise e ->
  call_deepseek_for_matching w rj jj = Ok default_response.
Proof.
  intros (K & response & content & d & missing & P & C & O & -> & ->) F.
  unfold call_deepseek_for_matching. rewrite K. cbn [negb].
  rewrite P. cbn [bind]. rewrite (first_choice_text_content _ _ C).
  cbn [bind]. rewrite loads_text.
  destruct O as [J|x J Fence X Jx].
  - rewrite J. cbn [bind]. rewrite score_and_feedback_object, F.
    cbn [try_except]. rewrite (py_float_raises _ _ _ F). reflexivity.
  - rewrite J. cbn [bind try_except is_json_decode_error exn_cls].
    unfold from_markdown. rewrite Fence, X. cbn [bind].
    rewrite loads_text, Jx. cbn [bind].
    rewrite score_and_feedback_object, F. reflexivity.
Qed.

(** [perform_matching] writes what the call returned. *)
Lemma perform_matching_writes (w : World) (state : AppState)
  (r : ResumeInfo.t) (j : JobDescriptionInfo.t) (rj jj : string)
  (score : float) (feedback_text : pyval) :
  has_error state = false ->
  parsed_resume state = Some r -> parsed_jd state = Some j ->
  resume_json w r = Ok rj -> jd_json w j = Ok jj ->
  call_deepseek_for_matching w rj jj = Ok (score, feedback_text) ->
  match_score (perform_matching w state) = Some score
  /\ feedback (perform_matching w state) = feedback_text
  /\ has_error (perform_matching w state) = false
  /\ parsed_resume (perform_matching w state) = Some r
  /\ parsed_jd (perform_matching w state) = Some j
  /\ selected_job_title (perform_matching w state) = selected_job_title state.
Proof.
  intros E Pr Pj Rj Jj C. unfold perform_matching.
  rewrite Pr, Pj, E. unfold calculate_match_and_feedback.
  rewrite Rj. cbn [bind]. rewrite Jj. cbn [bind]. rewrite C.
  cbn [try_except]. repeat split; assumption.
Qed.

(** What a run through all six nodes ends with, given what the scoring
    call returned. *)
Lemma run_records_the_result (w : World) (s0 : AppState)
  (r : ResumeInfo.t) (j : JobDescriptionInfo.t) (rj jj : string)
  (score : float) (feedback_text : pyval) :
  executed_by w s0 all_nodes ->
  parsed_resume (after w parse_jd s0) = Some r ->
  parsed_jd (after w parse_jd s0) = Some j ->
  resume_json w r = Ok rj -> jd_json w j = Ok jj ->
  call_deepseek_for_matching w rj jj = Ok (score, feedback_text) ->
  exists final,
    invoke w s0 = Some final
    /\ match_score final = Some score
    /\ feedback final = feedback_text
    /\ (db_save_status final = true
        <-> database.save_match_results w (Some r) (Some j) score
              feedback_text = Ok true)
    /\ (email_sent_status final = true
        <-> truthy feedback_text = true
            /\ email_sender.send_application_email w (ResumeInfo.email r)
                 (ResumeInfo.candidate_name r)
                 (format_optional (selected_job_title s0)) score
                 feedback_text = Ok true).
Proof.
  intros X Pr Pj Rj Jj C.
  destruct (after_steps w s0) as (_ & _ & S4 & S5 & S6).
  destruct (invoke_cases w s0)
    as [(E1 & X' & I)|[(E1 & E2 & X' & I)|[(E1 & E2 & E3 & X' & I)
       |(E1 & E2 & E3 & X' & I)]]];
    try (unfold executed_by in X, X'; rewrite X in X'; discriminate X').
  destruct (perform_matching_writes w _ r j rj jj score feedback_text
              E3 Pr Pj Rj Jj C) as (M4 & F4 & E4 & R4 & J4 & T4).
  rewrite <- S4 in M4, F4, E4, R4, J4, T4.
  destruct (last_two_nodes w (after w matching s0) score r M4 R4 E4)
    as (M & R & J & F & D & L).
  rewrite <- S5, <- S6 in M, R, J, F, D, L.
  rewrite T4 in L.
  replace (selected_job_title (after w parse_jd s0))
    with (selected_job_title s0) in L
    by (symmetry; apply (after_keeps_inputs w parse_jd s0)).
  rewrite J4 in D. rewrite F4 in D, L, F.
  exists (after w send_email s0).
  split; [exact I|]. split; [exact M|]. split; [exact F|].
  split; assumption.
Qed.

(** C6. The score read off the answer is [clamp_score] of the number the
    answer carries, which compares equal to [max(0.0, min(100.0, s))] and
    lies in [0, 100]; 101 becomes 100 and -5 becomes 0.  This holds for
    every score [float()] converts: the scoring call then returns the
    clamped score with the answer's feedback, and a run from an initial
    state that goes through all six nodes ends with that score in its
    state, hands that score to the store (it is the score of the row
    inserted) and to the mail function (it is the score the message is
    chosen and written with).  A score [float()] refuses is not clamped:
    the call returns its failure result, and the run ends with the score
    0.0. *)
Theorem score_clamped_into_range (w : World) :
  (forall s, (clamp_score s =? py_max 0 (py_min 100 s))%float = true)
  /\ (forall s, score_in_range (clamp_score s) = true)
  /\ clamp_score 101 = 100%float
  /\ clamp_score (-5) = 0%float
  /\ (forall rj jj raw feedback_text,
        returned_score w rj jj raw feedback_text ->
        (forall s, py_float (float_of_str w) raw = Ok s ->
           call_deepseek_for_matching w rj jj
           = Ok (clamp_score s, feedback_text))
        /\ (forall e, py_float (float_of_str w) raw = Raise e ->
              call_deepseek_for_matching w rj jj
              = Ok (0%float,
                    PStr "Error: Could not generate matching results.")))
  /\ (forall file_bytes name selected_job r j rj jj raw feedback_text,
        let s0 := initial_state file_bytes name selected_job in
        executed_by w s0 all_nodes ->
        parsed_resume (after w parse_jd s0) = Some r ->
        parsed_jd (after w parse_jd s0) = Some j ->
        resume_json w r = Ok rj -> jd_json w j = Ok jj ->
        returned_score w rj jj raw feedback_text ->
        exists final,
          invoke w s0 = Some final
          /\ (forall s, py_float (float_of_str w) raw = Ok s ->
                match_score final = Some (clamp_score s)
                /\ feedback final = feedback_text
                /\ (db_save_status final = true
                    <-> database.save_match_results w (Some r) (Some j)
                          (clamp_score s) feedback_text = Ok true)
                /\ (db_save_status final = true ->
                    sqlite_insert w
                      {| row_candidate_name := ResumeInfo.candidate_name r;
                         row_candidate_email := ResumeInfo.email r;
                         row_applied_job_title := JobDescriptionInfo.job_title j;
                         row_match_score := clamp_score s;
                         row_feedback := feedback_text;
                         row_resume_data := rj;
                         row_jd_data := jj |} = Ok tt)
                /\ (email_sent_status final = true
                    <-> truthy feedback_text = true
                        /\ email_sender.send_application_email w
                             (ResumeInfo.email r) (ResumeInfo.candidate_name r)
                             selected_job (clamp_score s) feedback_text
                           = Ok true)
                /\ (email_sent_status final = true ->
                    let content :=
                      email_sender.email_content w (ResumeInfo.candidate_name r)
                        selected_job (clamp_score s) feedback_text in
                    smtp_session w (fst content) (text_of (EMAIL_SENDER w))
                      (text_of (ResumeInfo.email r)) (snd content) = Ok tt))
          /\ (forall e, py_float (float_of_str w) raw = Raise e ->
                match_score final = Some 0%float
                /\ feedback final
                   = PStr "Error: Could not generate matching results.")).
Proof.
  split; [exact clamp_score_max_min|].
  split; [exact clamp_score_in_range|].
  split; [reflexivity|]. split; [reflexivity|]. split.
  - intros rj jj raw fb R. split.
    + intros s F. exact (scored_reply w rj jj raw fb s R F).
    + intros e F. exact (refused_reply w rj jj raw fb e R F).
  - intros file_bytes name selected_job r j rj jj raw fb s0 X Pr Pj Rj Jj R.
    destruct (py_float (float_of_str w) raw) as [s|e] eqn:F.
    + destruct (run_records_the_result w s0 r j rj jj (clamp_score s) fb
                  X Pr Pj Rj Jj (scored_reply w rj jj raw fb s R F))
        as (final & I & M & Fb & D & L).
      cbn [selected_job_title s0 initial_state format_optional] in L.
      exists final. split; [exact I|]. split; [|discriminate].
      intros s' E. apply some_eq_ok in E. subst s'.
      split; [exact M|]. split; [exact Fb|]. split; [exact D|].
      split; [|split; [exact L|]].
      * intro H. apply D in H.
        destruct (save_match_results_saved w _ _ _ _ H)
          as (r' & j' & rj' & jj' & Er & Ej & _ & Rj' & Jj' & Ins).
        apply some_eq in Er. apply some_eq in Ej. subst r' j'.
        rewrite Rj in Rj'. rewrite Jj in Jj'.
        apply some_eq_ok in Rj'. apply some_eq_ok in Jj'. subst rj' jj'.
        exact Ins.
      * intro H. apply L in H. destruct H as (_ & H).
        destruct (send_application_email_sent w _ _ _ _ _ H) as (_ & _ & _ & Q).
        exact Q.
    + destruct (run_records_the_result w s0 r j rj jj _ _
                  X Pr Pj Rj Jj (refused_reply w rj jj raw fb e R F))
        as (final & I & M & Fb & _).
      exists final. split; [exact I|]. split; [discriminate|].
      intros _ _. split; [exact M|exact Fb].
Qed.

(** The answer carries the score 101. *)
Lemma score_clamped_into_range_witness :
  let w := ScoreReply.world 101 in
  let s0 := initial_state "Asha Rao - Python developer" "resume.txt"
              "Data Scientist" in
  exists final,
    invoke w s0 = Some final
    /\ match_score final = Some 100%float
    /\ feedback final = PStr "Noted.".
Proof.
  intros w s0.
  edestruct (proj2 (proj2 (proj2 (proj2 (proj2
               (score_clamped_into_range w)))))
               "Asha Rao - Python developer" "resume.txt" "Data Scientist"
               Scenario.asha) as (final & I & A & _).
  - vm_compute. reflexivity.
  - vm_compute. reflexivity.
  - vm_compute. reflexivity.
  - vm_compute. reflexivity.
  - vm_compute. reflexivity.
  - split; [reflexivity|].
    exists (Scenario.chat_completion (ScoreReply.score_text 101)),
      (ScoreReply.score_text 101),
      [("match_score", PInt 101); ("feedback", PStr "Noted.")],
      "Feedback could not be generated.".
    split; [reflexivity|]. split.
    { do 4 eexists. repeat split; reflexivity. }
    split; [apply plain_json; vm_compute; reflexivity|].
    split; reflexivity.
  - exists final. split; [exact I|].
    destruct (A 101%float eq_refl) as (M & F & _).
    split; [exact M|exact F].
Defined.

(** The answer carries a score past the largest binary64, the integer
    10^400: the run ends with the score 0.0, not with 100. *)
Lemma unconvertible_score_recorded_as_zero :
  let z := (10 ^ 400)%Z in
  let w := ScoreReply.world z in
  let s0 := initial_state "Asha Rao - Python developer" "resume.txt"
              "Data Scientist" in
  returned_score w Scenario.resume_reply Scenario.jd_reply
    (PInt z) (PStr "Noted.")
  /\ Z.max 0 (Z.min 100 z) = 100%Z
  /\ option_map match_score (invoke w s0) = Some (Some 0%float)
  /\ ~ ends_with_clamp_of w s0 z.
Proof.
  intros z w s0.
  assert (Q : option_map match_score (invoke w s0) = Some (Some 0%float))
    by (vm_compute; reflexivity).
  split; [|split; [reflexivity|split; [exact Q|]]].
  - split; [reflexivity|].
    exists (Scenario.chat_completion (ScoreReply.score_text z)),
      (ScoreReply.score_text z),
      [("match_score", PInt z); ("feedback", PStr "Noted.")],
      "Feedback could not be generated.".
    split; [reflexivity|]. split.
    { do 4 eexists. repeat split; reflexivity. }
    split; [apply plain_json; vm_compute; reflexivity|].
    split; reflexivity.
  - intros (final & c & I & C & M).
    rewrite I in Q. cbn [option_map] in Q. rewrite M in Q.
    vm_compute in C. apply some_eq_ok in C. subst c.
    apply some_eq in Q. apply some_eq in Q.
    apply (f_equal (fun x => (x =? 100)%float)) in Q.
    vm_compute in Q. discriminate Q.
Qed.

End RecordedScore.
